(** * MeLi Faturamento Sync: token rotation and paid-order aggregation

    A shallow embedding of [main.py]: the credential-store helpers
    ([_load_token_from_db], [_save_token_to_db], [_load_all_tokens]), the
    token exchanger ([_get_access_token]), the order aggregator
    ([_fetch_paid_orders_total]), the ledger upsert ([_upsert_faturamento])
    and the orchestrator ([sync_all]).

    The HTTP client is the only source of effects.  It is modelled as a
    deterministic oracle [net] that answers a request given the requests
    issued before it; every call appends its request to a trace, so "a save
    call was made" is a statement about the trace.  Values decoded from JSON
    keep Python's dynamic behaviour: truthiness, [dict.get], the [in]
    operator, mixed int/float arithmetic and the exceptions they raise.
    Floats are binary64 values computed with [SpecFloat].  The [while True]
    loop of the aggregator takes a fuel argument; the theorems show that
    eleven iterations always suffice.  Logging is left out: it changes
    nothing the program reads. *)

From Stdlib Require Import ZArith List String Ascii Bool Lia.
From Stdlib Require Import Floats.SpecFloat.
From Stdlib Require Import Sorted OrderedTypeEx.
Import ListNotations.
Local Open Scope string_scope.
Local Open Scope Z_scope.
Set Warnings "-register-all".

(** ** Python values as produced by [json.loads] *)

Module Py.

(** Python floats are IEEE 754 binary64. *)
Definition prec : Z := 53.
Definition emax : Z := 1024.
Definition float := spec_float.

Inductive value : Type :=
| VNone
| VBool (b : bool)
| VInt (z : Z)
| VFloat (f : float)
| VStr (s : string)
| VList (l : list value)
| VDict (d : list (string * value)).

(** Exceptions carry their class and what [str(e)] returns (the texts are
    shortened).  Only subclasses of [Exception] are modelled: a task
    cancellation is a [BaseException] and is outside the model. *)
Inductive exn_class : Type :=
| TypeError | AttributeError | KeyError | IndexError | OverflowError
| JSONDecodeError | TransportError.

Record exn : Type := Exn { exn_cls : exn_class; exn_str : string }.

Inductive result (A : Type) : Type :=
| Ok (a : A)
| Raise (e : exn).
Arguments Ok {A} a.
Arguments Raise {A} e.

Definition bind {A B} (r : result A) (k : A -> result B) : result B :=
  match r with
  | Ok a => k a
  | Raise e => Raise e
  end.

Declare Scope py_scope.
Delimit Scope py_scope with py.
Notation "x <- c ;; k" := (bind c (fun x => k))
  (at level 61, c at next level, right associativity) : py_scope.

(** [bool(v)]. *)
Definition float_is_zero (f : float) : bool :=
  match f with S754_zero _ => true | _ => false end.

Definition truthy (v : value) : bool :=
  match v with
  | VNone => false
  | VBool b => b
  | VInt z => negb (z =? 0)
  | VFloat f => negb (float_is_zero f)
  | VStr s => negb (String.eqb s "")
  | VList l => match l with [] => false | _ => true end
  | VDict d => match d with [] => false | _ => true end
  end.

(** [a or b] with both operands already evaluated. *)
Definition py_or (a b : value) : value := if truthy a then a else b.

(** Lookup in a decoded JSON object. *)
Fixpoint dict_get (d : list (string * value)) (k : string) : option value :=
  match d with
  | [] => None
  | (k', v) :: d' => if String.eqb k' k then Some v else dict_get d' k
  end.

(** [v.get(k)] and [v.get(k, default)]: only dicts have the method. *)
Definition no_get : exn :=
  Exn AttributeError "object has no attribute 'get'".

Definition get (v : value) (k : string) (default : value) : result value :=
  match v with
  | VDict d => Ok (match dict_get d k with Some x => x | None => default end)
  | _ => Raise no_get
  end.

(** [v[k]] for a string key. *)
Definition getitem (v : value) (k : string) : result value :=
  match v with
  | VDict d =>
      match dict_get d k with
      | Some x => Ok x
      | None => Raise (Exn KeyError ("'" ++ k ++ "'")%string)
      end
  | _ => Raise (Exn TypeError "indices must be integers")
  end.

(** [v[0]]. *)
Definition getitem0 (v : value) : result value :=
  match v with
  | VList (x :: _) => Ok x
  | VList [] => Raise (Exn IndexError "list index out of range")
  | VStr (String c _) => Ok (VStr (String c ""))
  | VStr EmptyString => Raise (Exn IndexError "string index out of range")
  | VDict _ => Raise (Exn KeyError "0")
  | _ => Raise (Exn TypeError "object is not subscriptable")
  end.

(** Substring test, for [needle in haystack] on strings. *)
Fixpoint is_substring (needle hay : string) : bool :=
  if String.prefix needle hay then true
  else match hay with
       | EmptyString => false
       | String _ hay' => is_substring needle hay'
       end.

(** [s == v] for a string [s]. *)
Definition str_eq (s : string) (v : value) : bool :=
  match v with
  | VStr t => String.eqb s t
  | _ => false
  end.

(** [s in v] for a string [s]. *)
Definition contains (s : string) (v : value) : result bool :=
  match v with
  | VList l => Ok (existsb (str_eq s) l)
  | VDict d => Ok (match dict_get d s with Some _ => true | None => false end)
  | VStr t => Ok (is_substring s t)
  | _ => Raise (Exn TypeError "argument is not iterable")
  end.

(** The sequence a [for] loop walks over. *)
Fixpoint chars (s : string) : list value :=
  match s with
  | EmptyString => []
  | String c s' => VStr (String c "") :: chars s'
  end.

Definition iter (v : value) : result (list value) :=
  match v with
  | VList l => Ok l
  | VDict d => Ok (map (fun kv => VStr (fst kv)) d)
  | VStr s => Ok (chars s)
  | _ => Raise (Exn TypeError "object is not iterable")
  end.

(** *** Floats *)

Definition fzero : float := S754_zero false.
Definition of_Z (z : Z) : float := binary_normalize prec emax z 0 false.
Definition fone : float := of_Z 1.
Definition fadd : float -> float -> float := SFadd prec emax.

(** [float(z)] for an int: nearest-even, [OverflowError] when out of range. *)
Definition float_of_int (z : Z) : result float :=
  match of_Z z with
  | S754_infinity _ => Raise (Exn OverflowError "int too large to convert to float")
  | f => Ok f
  end.

(** [t + v] with a float on the left. *)
Definition float_add (t : float) (v : value) : result float :=
  match v with
  | VFloat f => Ok (fadd t f)
  | VInt z => (f <- float_of_int z ;; Ok (fadd t f))%py
  | VBool b => Ok (fadd t (if b then fone else fzero))
  | _ => Raise (Exn TypeError "unsupported operand type(s) for +=")
  end.

(** Exact comparison of an int with a float ([None] for NaN). *)
Definition int_float_compare (z : Z) (f : float) : option comparison :=
  match f with
  | S754_nan => None
  | S754_infinity s => Some (if s then Gt else Lt)
  | S754_zero _ => Some (z ?= 0)
  | S754_finite s m e =>
      let sm := if s then Z.neg m else Z.pos m in
      Some (if 0 <=? e then z ?= sm * 2 ^ e
            else z * 2 ^ (- e) ?= sm)
  end.

(** [z >= v] with an int on the left. *)
Definition int_ge (z : Z) (v : value) : result bool :=
  match v with
  | VInt t => Ok (t <=? z)
  | VBool b => Ok ((if b then 1 else 0) <=? z)
  | VFloat f =>
      Ok (match int_float_compare z f with
          | Some (Gt | Eq) => true
          | _ => false
          end)
  | _ => Raise (Exn TypeError "'>=' not supported between these types")
  end.

(** [f > 0] for a float. *)
Definition float_gt0 (f : float) : bool := SFltb fzero f.

(** [round(x, 2)]: the exact value is rounded half-even to a multiple of
    1/100, and the nearest double to that decimal is returned. *)
Definition round_half_even_div (n d : Z) : Z :=
  let q := n / d in
  let r := n mod d in
  match 2 * r ?= d with
  | Lt => q
  | Gt => q + 1
  | Eq => if Z.even q then q else q + 1
  end.

Definition round2 (x : float) : float :=
  match x with
  | S754_finite s m e =>
      let hundredths :=
        if 0 <=? e then Z.pos m * 100 * 2 ^ e
        else round_half_even_div (Z.pos m * 100) (2 ^ (- e)) in
      match hundredths with
      | Z.pos n => SFdiv prec emax (S754_finite s n 0) (S754_finite false 100 0)
      | _ => S754_zero s
      end
  | _ => x
  end.

End Py.

(** ** The HTTP boundary *)

Module Http.
Import Py.

(** One constructor per call site of [client.get] / [client.post]. *)
Inductive request : Type :=
| TokenLoad (account_name : string)
    (* GET /rest/v1/meli_tokens?account_name=eq.<name>&select=refresh_token *)
| TokenSave (payload : list (string * value))
    (* POST /rest/v1/meli_tokens, Prefer: resolution=merge-duplicates *)
| TokenExchange (client_id client_secret : string) (refresh_token : value)
    (* POST MELI_AUTH_URL, grant_type=refresh_token *)
| OrdersSearch (seller date_from date_to : string) (limit offset : Z)
               (bearer : value)
    (* GET MELI_ORDERS_URL, order.status=paid, sort=date_desc *)
| FaturamentoUpsert (empresa data : string) (valor : float).
    (* POST /rest/v1/faturamento?on_conflict=empresa,data *)

Record response : Type := Response {
  status_code : Z;
  body : option value;   (* [None]: the body is not JSON *)
  text : string
}.

Inductive reply : Type :=
| Fails (e : exn)          (* the client call raises *)
| Replies (r : response).

Definition trace := list request.

(** [res.json()]. *)
Definition json (r : response) : result value :=
  match body r with
  | Some v => Ok v
  | None => Raise (Exn JSONDecodeError "Expecting value")
  end.

(** What lies outside the process: the servers and the wall clock. *)
Record env : Type := Env {
  net : trace -> request -> reply;
  clock : trace -> nat -> Z;
    (* [datetime.now(BRT)] in seconds: the n-th reading after these requests *)
  isoformat : Z -> string;
  strftime_ymd : Z -> string
}.

Definition is_save (r : request) : bool :=
  match r with TokenSave _ => true | _ => false end.
Definition is_upsert (r : request) : bool :=
  match r with FaturamentoUpsert _ _ _ => true | _ => false end.
Definition is_orders_search (r : request) : bool :=
  match r with OrdersSearch _ _ _ _ _ _ => true | _ => false end.
Definition is_write (r : request) : bool := is_save r || is_upsert r.

End Http.

(** ** A state monad with exceptions *)

Module Eff.
Import Py.

Inductive outcome (A : Type) : Type :=
| Return (a : A)
| Throw (e : exn)
| OutOfFuel.              (* a [while True] loop that has not finished yet *)
Arguments Return {A} a.
Arguments Throw {A} e.
Arguments OutOfFuel {A}.

Definition M (S A : Type) : Type := S -> S * outcome A.

Definition ret {S A} (a : A) : M S A := fun s => (s, Return a).

Definition bind {S A B} (m : M S A) (k : A -> M S B) : M S B :=
  fun s =>
    match m s with
    | (s', Return a) => k a s'
    | (s', Throw e) => (s', Throw e)
    | (s', OutOfFuel) => (s', OutOfFuel)
    end.

Definition lift {S A} (r : result A) : M S A :=
  fun s => (s, match r with Ok a => Return a | Raise e => Throw e end).

(** [try: m except Exception as e: handler e]. *)
Definition try_except {S A} (m : M S A) (handler : exn -> M S A) : M S A :=
  fun s =>
    match m s with
    | (s', Throw e) => handler e s'
    | r => r
    end.

Definition gets {S A} (f : S -> A) : M S A := fun s => (s, Return (f s)).
Definition modify {S} (f : S -> S) : M S unit := fun s => (f s, Return tt).

(** Run an action on the first component of a pair state. *)
Definition on_fst {S T A} (m : M S A) : M (S * T) A :=
  fun st =>
    let '(s', r) := m (fst st) in ((s', snd st), r).

End Eff.

Declare Scope eff_scope.
Delimit Scope eff_scope with eff.
Notation "x <- c ;; k" := (Eff.bind c (fun x => k))
  (at level 61, c at next level, right associativity) : eff_scope.
Notation "c ;;; k" := (Eff.bind c (fun _ => k))
  (at level 61, right associativity) : eff_scope.

(** ** The program *)

Module Sync.
Import Py Http Eff.
Local Open Scope eff_scope.

(** An entry of [ACCOUNTS].  Only [refresh_token] is ever reassigned, and it
    may then hold whatever the server or the store sent. *)
Record account : Type := Account {
  name : string;
  empresa : string;
  app_id : string;
  secret_key : string;
  refresh_token : value;
  user_id : string
}.

Definition set_refresh_token (a : account) (v : value) : account :=
  {| name := name a; empresa := empresa a; app_id := app_id a;
     secret_key := secret_key a; refresh_token := v; user_id := user_id a |}.

(** Accumulators of the aggregation loop. *)
Record totals : Type := Totals {
  total_valor : float;
  order_count : Z;
  fraud_count : Z
}.

(** The dict [_fetch_paid_orders_total] returns. *)
Record summary : Type := Summary {
  valor : float;
  orders : Z;
  fraud_skipped : Z
}.

(** One element of the list [sync_all] returns; keys a record does not
    carry are [None]. *)
Record outcome_record : Type := OutcomeRecord {
  r_empresa : string;
  r_date : string;
  r_valor : option float;
  r_orders : option Z;
  r_fraud_skipped : option Z;
  r_status : string;
  r_error : option string
}.

Definition fraud_marker : string := "fraud_risk_detected".
Definition limit : Z := 50.

(** Body of the [for order in ...] loop. *)
Definition process_order (acc : totals) (order : value) : result totals :=
  (tags <- get order "tags" VNone ;;
   flagged <- contains fraud_marker (py_or tags (VList [])) ;;
   if flagged : bool then
     Ok (Totals (total_valor acc) (order_count acc) (fraud_count acc + 1))
   else
     paid <- get order "paid_amount" (VInt 0) ;;
     amount <- (if truthy paid then Ok paid
                else get order "total_amount" (VInt 0)) ;;
     t <- float_add (total_valor acc) amount ;;
     Ok (Totals t (order_count acc + 1) (fraud_count acc)))%py.

Fixpoint process_orders (acc : totals) (l : list value) : result totals :=
  match l with
  | [] => Ok acc
  | order :: l' => (acc' <- process_order acc order ;; process_orders acc' l')%py
  end.

(** [data.get("paging", {}).get("total", 0)]. *)
Definition total_results (data : value) : result value :=
  (paging <- get data "paging" (VDict []) ;;
   get paging "total" (VInt 0))%py.

(** What one successful page does to the loop variables: the new
    accumulators, the new offset and whether the loop breaks. *)
Definition process_page (acc : totals) (offset : Z) (data : value)
  : result (totals * Z * bool) :=
  (results <- get data "results" (VList []) ;;
   l <- iter results ;;
   acc' <- process_orders acc l ;;
   total <- total_results data ;;
   let offset' := offset + limit in
   reached <- int_ge offset' total ;;
   Ok (acc', offset', reached || (500 <? offset')))%py.

Definition summarize (acc : totals) : summary :=
  Summary (round2 (total_valor acc)) (order_count acc) (fraud_count acc).

Definition zero_totals : totals := Totals fzero 0 0.

Section WithEnv.
Variable E : env.

(** [await client.get(...)] / [await client.post(...)]. *)
Definition call (r : request) : M trace response :=
  fun h =>
    ((h ++ [r])%list,
     match net E h r with
     | Fails e => Throw e
     | Replies res => Return res
     end).

Definition _load_token_from_db (account_name : string) : M trace value :=
  res <- call (TokenLoad account_name) ;;
  if status_code res =? 200 then
    rows <- lift (json res) ;;
    if truthy rows then
      row <- lift (getitem0 rows) ;;
      tok <- lift (get row "refresh_token" VNone) ;;
      if truthy tok then
        row' <- lift (getitem0 rows) ;;
        lift (getitem row' "refresh_token")
      else ret VNone
    else ret VNone
  else ret VNone.

Definition save_payload (h : trace) (account_name : string)
           (refresh access_token : value) : list (string * value) :=
  ([("account_name", VStr account_name);
    ("refresh_token", refresh);
    ("updated_at", VStr (isoformat E (clock E h 0%nat)))]
   ++ (if truthy access_token then
         [("access_token", access_token);
          ("access_token_expires_at",
           VStr (isoformat E (clock E h 1%nat + 6 * 3600)))]
       else []))%list.

Definition _save_token_to_db (account_name : string)
           (refresh access_token : value) : M trace unit :=
  payload <- gets (fun h => save_payload h account_name refresh access_token) ;;
  res <- call (TokenSave payload) ;;
  (* status >= 300 is only logged *)
  ret tt.

(** Functions that reassign [account["refresh_token"]] run on the pair of
    the trace and the account. *)
Definition _get_access_token : M (trace * account) value :=
  account <- gets snd ;;
  res <- on_fst (call (TokenExchange (app_id account) (secret_key account)
                                     (refresh_token account))) ;;
  if negb (status_code res =? 200) then ret VNone
  else
    data <- lift (json res) ;;
    access_token <- lift (get data "access_token" VNone) ;;
    new_refresh <- lift (get data "refresh_token" VNone) ;;
    (if truthy new_refresh then
       modify (fun s => (fst s, set_refresh_token (snd s) new_refresh)) ;;;
       on_fst (_save_token_to_db (name account) new_refresh access_token)
     else ret tt) ;;;
    ret access_token.

Definition _load_token_step : M (trace * account) unit :=
  account <- gets snd ;;
  db_token <- on_fst (_load_token_from_db (name account)) ;;
  if truthy db_token then
    modify (fun s => (fst s, set_refresh_token (snd s) db_token))
  else ret tt.

(** The [while True] loop; [fuel] bounds the iterations still allowed. *)
Fixpoint fetch_loop (fuel : nat) (account : account) (access_token : value)
         (date_from date_to : string) (acc : totals) (offset : Z)
  : M trace totals :=
  match fuel with
  | O => fun h => (h, OutOfFuel)
  | S fuel' =>
      res <- call (OrdersSearch (user_id account) date_from date_to
                                limit offset access_token) ;;
      if negb (status_code res =? 200) then ret acc
      else
        data <- lift (json res) ;;
        next <- lift (process_page acc offset data) ;;
        let '(acc', offset', stop) := next in
        if stop : bool then ret acc'
        else fetch_loop fuel' account access_token date_from date_to
                        acc' offset'
  end.

Definition _fetch_paid_orders_total (fuel : nat) (account : account)
           (access_token : value) (date_str : string) : M trace summary :=
  let date_from := date_str ++ "T00:00:00.000-03:00" in
  let date_to := date_str ++ "T23:59:59.999-03:00" in
  acc <- fetch_loop fuel account access_token date_from date_to
                    zero_totals 0 ;;
  ret (summarize acc).

Definition _upsert_faturamento (empresa date_str : string) (valor : float)
  : M trace bool :=
  res <- call (FaturamentoUpsert empresa date_str valor) ;;
  ret ((200 <=? status_code res) && (status_code res <? 300)).

(** The [try] block of [sync_all] for the current account. *)
Definition sync_account_body (fuel : nat) (date_str : string)
  : M (trace * account) outcome_record :=
  token <- _get_access_token ;;
  account <- gets snd ;;
  if negb (truthy token) then
    ret (OutcomeRecord (empresa account) date_str None None None
                       "token_error" None)
  else
    data <- on_fst (_fetch_paid_orders_total fuel account token date_str) ;;
    status <- (if float_gt0 (valor data) then
                 ok <- on_fst (_upsert_faturamento (empresa account) date_str
                                                   (valor data)) ;;
                 ret (if ok : bool then "synced" else "upsert_error")
               else ret "no_sales") ;;
    ret (OutcomeRecord (empresa account) date_str (Some (valor data))
                       (Some (orders data)) (Some (fraud_skipped data))
                       status None).

(** One iteration of [for account in ACCOUNTS], [except] clause included. *)
Definition sync_account (fuel : nat) (date_str : string)
  : M (trace * account) outcome_record :=
  try_except (sync_account_body fuel date_str)
    (fun e =>
       account <- gets snd ;;
       ret (OutcomeRecord (empresa account) date_str None None None
                          "error" (Some (exn_str e)))).

(** The [for] loop: each account is updated in place and its record is
    appended to [results]. *)
Fixpoint sync_accounts (fuel : nat) (date_str : string)
         (accounts : list account) (h : trace)
  : trace * list account * outcome (list outcome_record) :=
  match accounts with
  | [] => (h, [], Return [])
  | a :: rest =>
      match sync_account fuel date_str (h, a) with
      | ((h1, a1), Return r) =>
          match sync_accounts fuel date_str rest h1 with
          | (h2, rest', Return rs) => (h2, a1 :: rest', Return (r :: rs))
          | (h2, rest', Throw e) => (h2, a1 :: rest', Throw e)
          | (h2, rest', OutOfFuel) => (h2, a1 :: rest', OutOfFuel)
          end
      | ((h1, a1), Throw e) => (h1, a1 :: rest, Throw e)
      | ((h1, a1), OutOfFuel) => (h1, a1 :: rest, OutOfFuel)
      end
  end.

(** The module globals [_last_sync] and [_last_results]. *)
Record run_report : Type := RunReport {
  last_sync : option string;
  last_results : list outcome_record
}.

Definition sync_all (fuel : nat) (accounts : list account) (h : trace)
  : trace * list account * outcome (list outcome_record * run_report) :=
  let now_brt := clock E h 0%nat in
  let date_str := strftime_ymd E now_brt in
  match sync_accounts fuel date_str accounts h with
  | (h', accounts', Return results) =>
      (h', accounts',
       Return (results, RunReport (Some (isoformat E now_brt)) results))
  | (h', accounts', Throw e) => (h', accounts', Throw e)
  | (h', accounts', OutOfFuel) => (h', accounts', OutOfFuel)
  end.

(** [_load_all_tokens]: nothing catches an exception here. *)
Fixpoint _load_all_tokens (accounts : list account) (h : trace)
  : trace * list account * outcome unit :=
  match accounts with
  | [] => (h, [], Return tt)
  | a :: rest =>
      match _load_token_step (h, a) with
      | ((h1, a1), Return _) =>
          let '(h2, rest', r) := _load_all_tokens rest h1 in
          (h2, a1 :: rest', r)
      | ((h1, a1), Throw e) => (h1, a1 :: rest, Throw e)
      | ((h1, a1), OutOfFuel) => (h1, a1 :: rest, OutOfFuel)
      end
  end.

End WithEnv.
End Sync.

(** ** Account discovery *)

Module Config.
Import Py Sync.

(** [os.environ]: variable names with their values. *)
Definition environ := list (string * string).

(** [os.getenv(k)]. *)
Fixpoint getenv (env : environ) (k : string) : option string :=
  match env with
  | [] => None
  | (k', v) :: env' => if String.eqb k' k then Some v else getenv env' k
  end.

(** [s.startswith(p)] and [s.endswith(p)]. *)
Definition startswith (s p : string) : bool := String.prefix p s.

Definition endswith (s p : string) : bool :=
  (String.length p <=? String.length s)%nat
  && String.eqb (substring (String.length s - String.length p)
                           (String.length p) s) p.

(** [s[a:-b]] for [b > 0]: from index [a] up to [b] characters before the
    end, empty when the two bounds cross. *)
Definition slice (s : string) (a b : nat) : string :=
  substring a (String.length s - b - a) s.

(** The f-strings of [_load_accounts]. *)
Definition meli_key (name field : string) : string :=
  ("MELI_" ++ name ++ field)%string.
Definition empresa_key (name : string) : string :=
  ("ACCOUNT_" ++ name ++ "_EMPRESA")%string.

(** The first loop: the names found in the variable names. *)
Fixpoint discover (keys : list string) : list string :=
  match keys with
  | [] => []
  | key :: keys' =>
      if startswith key "MELI_" && endswith key "_APP_ID"
      then slice key 5 7 :: discover keys'
      else discover keys'
  end.

(** [sorted(names)] for the set [names]: the strictly increasing list of
    its elements, built by insertion.  Strings are compared byte by byte,
    which on UTF-8 text is Python's order by code point. *)
Fixpoint insert_name (n : string) (l : list string) : list string :=
  match l with
  | [] => [n]
  | x :: l' =>
      match String.compare n x with
      | Lt => n :: l
      | Eq => l
      | Gt => x :: insert_name n l'
      end
  end.

Definition sorted_set (names : list string) : list string :=
  fold_right insert_name [] names.

(** A value read from the environment counts in [all([...])] when it is
    set and not empty. *)
Definition present (v : option string) : bool :=
  match v with
  | Some s => negb (String.eqb s "")
  | None => false
  end.

(** Body of the second loop: the account of [name], or nothing when its
    credentials are incomplete. *)
Definition account_of (env : environ) (name : string) : option account :=
  let app_id := getenv env (meli_key name "_APP_ID") in
  let secret := getenv env (meli_key name "_SECRET_KEY") in
  let refresh := getenv env (meli_key name "_REFRESH_TOKEN") in
  let user_id := getenv env (meli_key name "_USER_ID") in
  let empresa := match getenv env (empresa_key name) with
                 | Some e => e
                 | None => name
                 end in
  if present app_id && present secret && present refresh && present user_id
  then
    match app_id, secret, refresh, user_id with
    | Some a, Some s, Some r, Some u =>
        Some (Account name empresa a s (VStr r) u)
    | _, _, _, _ => None
    end
  else None.

Fixpoint collect (env : environ) (names : list string) : list account :=
  match names with
  | [] => []
  | name :: names' =>
      match account_of env name with
      | Some a => a :: collect env names'
      | None => collect env names'
      end
  end.

Definition _load_accounts (env : environ) : list account :=
  collect env (sorted_set (discover (map fst env))).

End Config.

(** ** The background task *)

Module Scheduler.
Import Py Http Eff Sync.

(** The module globals a run reads and writes, with the requests issued so
    far: [ACCOUNTS], [_last_sync] and [_last_results]. *)
Record process : Type := Process {
  accounts : list account;
  report : run_report;
  history : trace
}.

Definition start (accs : list account) (h : trace) : process :=
  Process accs (RunReport None []) h.

(** Where the task [_scheduler] stands. *)
Inductive task : Type :=
| Looping            (* in the [while True] loop, waiting for the next tick *)
| Died (e : exn)     (* an exception left [_scheduler] *)
| Unfinished.        (* a pagination loop ran out of fuel *)

Section WithEnv.
Variable E : env.

(** [await sync_all()] on the globals; they are published only when the
    run completes. *)
Definition run_sync (fuel : nat) (p : process) : process * outcome unit :=
  match sync_all E fuel (accounts p) (history p) with
  | (h', accs', Return (_, rep)) => (Process accs' rep h', Return tt)
  | (h', accs', Throw e) => (Process accs' (report p) h', Throw e)
  | (h', accs', OutOfFuel) => (Process accs' (report p) h', OutOfFuel)
  end.

(** The [while True] loop, for a number of ticks: sleep, then
    [try: await sync_all() except Exception: log].  The sleep only lets
    time pass; what the clock reads is the oracle's business. *)
Fixpoint ticking (ticks fuel : nat) (p : process) : process * task :=
  match ticks with
  | O => (p, Looping)
  | S ticks' =>
      match run_sync fuel p with
      | (p', Return _) => ticking ticks' fuel p'
      | (p', Throw _) => ticking ticks' fuel p'
      | (p', OutOfFuel) => (p', Unfinished)
      end
  end.

(** [_scheduler]: load the stored credentials, run once, then tick. *)
Definition _scheduler (ticks fuel : nat) (p : process) : process * task :=
  match _load_all_tokens E (accounts p) (history p) with
  | (h1, accs1, Return _) =>
      match run_sync fuel (Process accs1 (report p) h1) with
      | (p2, Return _) => ticking ticks fuel p2
      | (p2, Throw e) => (p2, Died e)
      | (p2, OutOfFuel) => (p2, Unfinished)
      end
  | (h1, accs1, Throw e) => (Process accs1 (report p) h1, Died e)
  | (h1, accs1, OutOfFuel) => (Process accs1 (report p) h1, Unfinished)
  end.

End WithEnv.
End Scheduler.

(** ** Vocabulary for the statements *)

Module Spec.
Import Py Http Eff Sync.

(** The token-exchange request an account sends. *)
Definition exchange_request (a : account) : request :=
  TokenExchange (app_id a) (secret_key a) (refresh_token a).

(** The order-search request of one page. *)
Definition page_request (a : account) (access_token : value)
           (date_from date_to : string) (offset : Z) : request :=
  OrdersSearch (user_id a) date_from date_to limit offset access_token.

(** [data.get(k)] on an object already known to be a dict. *)
Definition field (d : list (string * value)) (k : string) : value :=
  match dict_get d k with Some v => v | None => VNone end.

(** [d] carries no usable value under [k]: missing, null or otherwise falsy. *)
Definition lacks (d : list (string * value)) (k : string) : Prop :=
  match dict_get d k with Some v => truthy v = false | None => True end.


(** The fraud test of the loop body on a dict order:
    ["fraud_risk_detected" in (order.get("tags") or [])]. *)
Definition flagged (d : list (string * value)) : result bool :=
  contains fraud_marker (py_or (field d "tags") (VList [])).

(** The non-flagged branch of the loop body with [amount] as the value of
    the [or] expression. *)
Definition add_amount (acc : totals) (amount : value) : result totals :=
  (t <- float_add (total_valor acc) amount ;;
   Ok (Totals t (order_count acc + 1) (fraud_count acc)))%py.

(** [order.get("total_amount", 0)]. *)
Definition total_amount_or_0 (d : list (string * value)) : value :=
  match dict_get d "total_amount" with Some v => v | None => VInt 0 end.

(** [order.get("paid_amount", 0) or order.get("total_amount", 0)]. *)
Definition amount_of (d : list (string * value)) : value :=
  let paid := match dict_get d "paid_amount" with
              | Some v => v
              | None => VInt 0
              end in
  if truthy paid then paid else total_amount_or_0 d.

(** The loop has run through zero or more pages, each answered with status
    200 and processed without breaking, from the loop variables
    [(acc, offset)] and trace [h] to [(acc', offset')] and [h']. *)
Inductive pages_done (E : env) (a : account) (tok : value)
          (date_from date_to : string)
  : totals -> Z -> trace -> totals -> Z -> trace -> Prop :=
| pages_done_nil acc offset h :
    pages_done E a tok date_from date_to acc offset h acc offset h
| pages_done_cons acc offset h res data acc1 offset1 acc2 offset2 h2 :
    net E h (page_request a tok date_from date_to offset) = Replies res ->
    status_code res = 200 ->
    json res = Ok data ->
    process_page acc offset data = Ok (acc1, offset1, false) ->
    pages_done E a tok date_from date_to acc1 offset1
               (h ++ [page_request a tok date_from date_to offset])%list
               acc2 offset2 h2 ->
    pages_done E a tok date_from date_to acc offset h acc2 offset2 h2.

(** The day window [_fetch_paid_orders_total] builds from [date_str]. *)
Definition day_start (date_str : string) : string :=
  (date_str ++ "T00:00:00.000-03:00")%string.
Definition day_end (date_str : string) : string :=
  (date_str ++ "T23:59:59.999-03:00")%string.


(** Readers of one account's run: the record's status and the upserts in
    the trace. *)
Definition r_status_of (run : trace * account * outcome outcome_record)
  : option string :=
  match snd run with
  | Return r => Some (r_status r)
  | _ => None
  end.

Definition upserts_of (run : trace * account * outcome outcome_record)
  : list request :=
  filter is_upsert (fst (fst run)).


(** Readers of a whole run: what each record says. *)
Definition report_of
  (run : trace * list account * outcome (list outcome_record * run_report))
  : list (string * string * option string) :=
  match snd run with
  | Return (results, _) =>
      map (fun r => (r_empresa r, r_status r, r_error r)) results
  | _ => []
  end.

End Spec.

(** ** Concrete inputs *)

Module Examples.
Import Py Http Eff Sync Spec.

(** A paid order whose [paid_amount] is present and equal to 0. *)
Definition zero_paid_order : list (string * value) :=
  [("paid_amount", VInt 0); ("total_amount", VInt 30); ("tags", VList [])].

(** The three-order page: a plain order, a flagged one and one whose
    [paid_amount] is null. *)
Definition three_orders : list value :=
  [VDict [("paid_amount", VInt 100); ("tags", VList [])];
   VDict [("paid_amount", VInt 50); ("tags", VList [VStr "fraud_risk_detected"])];
   VDict [("total_amount", VInt 30); ("paid_amount", VNone)]].

Definition three_orders_page : value :=
  VDict [("results", VList three_orders);
         ("paging", VDict [("total", VInt 3); ("offset", VInt 0);
                           ("limit", VInt 50)])].

Definition acme : account :=
  Account "ACME" "Acme Ltda" "1111" "s3cr3t" (VStr "TG-old") "42".

Definition ok_json (v : value) : reply := Replies (Response 200 (Some v) "").

(** Servers that answer by request alone, at a fixed time of day. *)
Definition env_of (f : request -> reply) : env :=
  Env (fun _ r => f r)
      (fun _ _ => 1700000000)
      (fun _ => "2023-11-14T19:13:20-03:00")
      (fun _ => "2023-11-14").

Definition happy_reply (r : request) : reply :=
  match r with
  | TokenExchange _ _ _ =>
      ok_json (VDict [("access_token", VStr "APP_USR-1");
                      ("refresh_token", VStr "TG-new")])
  | OrdersSearch _ _ _ _ _ _ => ok_json three_orders_page
  | TokenLoad _ => ok_json (VList [VDict [("refresh_token", VStr "TG-db")]])
  | TokenSave _ => Replies (Response 201 None "")
  | FaturamentoUpsert _ _ _ => Replies (Response 201 None "")
  end.

Definition bravo : account :=
  Account "BRAVO" "Bravo SA" "2222" "hunter2" (VStr "TG-bravo") "43".
Definition charlie : account :=
  Account "CHARLIE" "Charlie ME" "3333" "swordfish" (VStr "TG-charlie") "44".

(** The exchange of the application 2222 fails in the transport. *)
Definition flaky_env : env :=
  env_of (fun r =>
            match r with
            | TokenExchange "2222" _ _ =>
                Fails (Exn TransportError "connection reset by peer")
            | _ => happy_reply r
            end).

(** The exchange is refused. *)
Definition rejected_env : env :=
  env_of (fun r =>
            match r with
            | TokenExchange _ _ _ =>
                Replies (Response 400 (Some (VDict [("error", VStr "invalid_grant")]))
                                  "invalid_grant")
            | _ => happy_reply r
            end).

(** The exchange succeeds but issues no new credential. *)
Definition stingy_env : env :=
  env_of (fun r =>
            match r with
            | TokenExchange _ _ _ =>
                ok_json (VDict [("access_token", VStr "APP_USR-1")])
            | _ => happy_reply r
            end).

(** The first page holds one order out of 120; every later page fails. *)
Definition first_page : value :=
  VDict [("results", VList [VDict [("paid_amount", VInt 100)]]);
         ("paging", VDict [("total", VInt 120)])].

Definition failing_page_env : env :=
  env_of (fun r =>
            match r with
            | OrdersSearch _ _ _ _ 0 _ => ok_json first_page
            | OrdersSearch _ _ _ _ _ _ =>
                Replies (Response 500 None "Internal Server Error")
            | _ => happy_reply r
            end).

(** Every page is empty and reports a million results. *)
Definition greedy_env : env :=
  env_of (fun r =>
            match r with
            | OrdersSearch _ _ _ _ _ _ =>
                ok_json (VDict [("results", VList []);
                                ("paging", VDict [("total", VInt 1000000)])])
            | _ => happy_reply r
            end).

(** A server that rotates the credential and serves the three-order page. *)
Definition happy_env : env := env_of happy_reply.

(** Every page is the empty object. *)
Definition bare_env : env :=
  env_of (fun r =>
            match r with
            | OrdersSearch _ _ _ _ _ _ => ok_json (VDict [])
            | _ => happy_reply r
            end).


(** The credential store has no row yet. *)
Definition cold_store_env : env :=
  env_of (fun r =>
            match r with
            | TokenLoad _ => ok_json (VList [])
            | _ => happy_reply r
            end).

(** The credential store is down. *)
Definition down_store_env : env :=
  env_of (fun r =>
            match r with
            | TokenLoad _ => Replies (Response 503 None "Service Unavailable")
            | _ => happy_reply r
            end).

(** The credential store holds a row with a null credential. *)
Definition null_store_env : env :=
  env_of (fun r =>
            match r with
            | TokenLoad _ => ok_json (VList [VDict [("refresh_token", VNone)]])
            | _ => happy_reply r
            end).

End Examples.

(** ** Vocabulary for the further statements *)

Module Shapes.
Import Py Http Eff Sync Spec Config.

(** Strict order of strings, as [sorted] compares them, and of accounts by
    name. *)
Definition str_lt (a b : string) : Prop := String.compare a b = Lt.

Definition name_lt (a b : account) : Prop := str_lt (name a) (name b).

(** Two accounts that differ at most in their [refresh_token]. *)
Definition same_identity (a b : account) : Prop :=
  name a = name b /\ empresa a = empresa b /\ app_id a = app_id b
  /\ secret_key a = secret_key b /\ user_id a = user_id b.


(** A JSON value that [float + value] rejects. *)
Definition not_a_number (v : value) : Prop :=
  match v with
  | VNone | VStr _ | VList _ | VDict _ => True
  | VBool _ | VInt _ | VFloat _ => False
  end.

(** A dict order that passes the fraud test. *)
Definition is_flagged (order : value) : Prop :=
  exists d, order = VDict d /\ flagged d = Ok true.


(** The requests one account's turn may issue, in order: the exchange, at
    most one save, at most eleven order searches at offsets 0, 50, ..., and
    at most one upsert, of a valor greater than zero. *)
Definition account_requests (date_str : string) (a : account)
           (d : list request) : Prop :=
  exists saves pages ups,
    d = (exchange_request a :: saves ++ pages ++ ups)%list
    /\ (saves = [] \/ exists payload, saves = [TokenSave payload])
    /\ (exists tok n,
           (n <= 11)%nat
           /\ pages = map (fun k => OrdersSearch (user_id a)
                                                 (day_start date_str)
                                                 (day_end date_str)
                                                 limit (50 * Z.of_nat k) tok)
                          (seq 0 n))
    /\ (ups = []
        \/ exists v, float_gt0 v = true
                     /\ ups = [FaturamentoUpsert (empresa a) date_str v]).

(** The account after its turn: the same, or with a new [refresh_token]. *)
Definition rotated (a a' : account) : Prop :=
  a' = a \/ exists nr, a' = set_refresh_token a nr.


(** What a record of the run report may look like: [token_error] with
    nothing else, [error] with a message, or the three figures with the
    status that the valor decides. *)
Definition well_formed_record (r : outcome_record) : Prop :=
  (r_status r = "token_error" /\ r_error r = None
   /\ r_valor r = None /\ r_orders r = None /\ r_fraud_skipped r = None)
  \/ (exists msg,
         r_status r = "error" /\ r_error r = Some msg
         /\ r_valor r = None /\ r_orders r = None /\ r_fraud_skipped r = None)
  \/ (exists v n k,
         r_valor r = Some v /\ r_orders r = Some n /\ r_fraud_skipped r = Some k
         /\ r_error r = None /\ 0 <= n /\ 0 <= k
         /\ ((float_gt0 v = true
              /\ (r_status r = "synced" \/ r_status r = "upsert_error"))
             \/ (float_gt0 v = false /\ r_status r = "no_sales"))).


Definition is_exchange (r : request) : bool :=
  match r with TokenExchange _ _ _ => true | _ => false end.


(** Every page request is answered with status 200 and a body that
    reports the total [t] and is processed without error. *)
Definition pages_all_ok (E : env) (a : account) (tok : value)
           (date_from date_to : string) (t : Z) : Prop :=
  forall h offset acc,
  exists res data acc' offset' stop,
    net E h (page_request a tok date_from date_to offset) = Replies res
    /\ status_code res = 200
    /\ json res = Ok data
    /\ total_results data = Ok (VInt t)
    /\ process_page acc offset data = Ok (acc', offset', stop).

(** [n] pages of 50 are the fewest that reach the total [t], with at least
    one page and at most eleven. *)
Definition pages_for (t : Z) (n : nat) : Prop :=
  (1 <= n <= 11)%nat
  /\ ((n < 11)%nat -> t <= 50 * Z.of_nat n)
  /\ ((1 < n)%nat -> 50 * (Z.of_nat n - 1) < t).

End Shapes.

(** ** Further concrete inputs *)

Module Cases.
Import Py Http Eff Sync Spec Config Shapes Examples.

(** An environment with one complete account, one whose secret is empty
    and some unrelated variables. *)
Definition sample_environ : environ :=
  [("PATH", "/usr/bin");
   ("MELI_ZETA_APP_ID", "9"); ("MELI_ZETA_SECRET_KEY", "zs");
   ("MELI_ZETA_REFRESH_TOKEN", "TG-z"); ("MELI_ZETA_USER_ID", "90");
   ("MELI_ALFA_APP_ID", "1"); ("MELI_ALFA_SECRET_KEY", "as");
   ("MELI_ALFA_REFRESH_TOKEN", "TG-a"); ("MELI_ALFA_USER_ID", "10");
   ("ACCOUNT_ALFA_EMPRESA", "Alfa Ltda");
   ("MELI_BETA_APP_ID", "2"); ("MELI_BETA_SECRET_KEY", "");
   ("MELI_BETA_REFRESH_TOKEN", "TG-b"); ("MELI_BETA_USER_ID", "20")].

Definition alfa : account :=
  Account "ALFA" "Alfa Ltda" "1" "as" (VStr "TG-a") "10".
Definition zeta : account :=
  Account "ZETA" "ZETA" "9" "zs" (VStr "TG-z") "90".

(** Flagged orders whose amounts are not numbers. *)
Definition flagged_garbage : list value :=
  [VDict [("tags", VList [VStr "fraud_risk_detected"]);
          ("paid_amount", VStr "n/a")];
   VDict [("tags", VList [VStr "other"; VStr "fraud_risk_detected"]);
          ("total_amount", VNone)]].

(** A page whose second order has a string as paid amount. *)
Definition bad_amount_order : list (string * value) :=
  [("paid_amount", VStr "12.50"); ("tags", VList [])].

Definition bad_amount_page : list (string * value) :=
  [("results", VList [VDict [("paid_amount", VInt 100)];
                      VDict bad_amount_order]);
   ("paging", VDict [("total", VInt 2)])].

Definition bad_amount_env : env :=
  env_of (fun r =>
            match r with
            | OrdersSearch _ _ _ _ _ _ => ok_json (VDict bad_amount_page)
            | _ => happy_reply r
            end).

Definition timeout_exn : exn := Exn TransportError "timed out".

(** The save call raises. *)
Definition save_down_env : env :=
  env_of (fun r =>
            match r with
            | TokenSave _ => Fails timeout_exn
            | _ => happy_reply r
            end).

(** The read for the account BRAVO raises. *)
Definition store_fails_env : env :=
  env_of (fun r =>
            match r with
            | TokenLoad "BRAVO" => Fails timeout_exn
            | _ => happy_reply r
            end).

(** The exchange answers 200 with an empty access token. *)
Definition empty_token_reply : list (string * value) :=
  [("access_token", VStr ""); ("refresh_token", VStr "TG-new")].

Definition empty_token_env : env :=
  env_of (fun r =>
            match r with
            | TokenExchange _ _ _ => ok_json (VDict empty_token_reply)
            | _ => happy_reply r
            end).

(** The first page is served, every later page request raises. *)
Definition page_raises_env : env :=
  env_of (fun r =>
            match r with
            | OrdersSearch _ _ _ _ 0 _ => ok_json first_page
            | OrdersSearch _ _ _ _ _ _ => Fails timeout_exn
            | _ => happy_reply r
            end).

(** The body every page of [greedy_env] carries. *)
Definition greedy_page : value :=
  VDict [("results", VList []);
         ("paging", VDict [("total", VInt 1000000)])].

End Cases.

(** ** Properties *)

Module Facts.
Import Py Http Eff Sync Spec.
Local Open Scope eff_scope.

Ltac unfold_eff :=
  unfold Eff.bind, Eff.ret, Eff.lift, Eff.gets, Eff.modify, Eff.on_fst,
         Eff.try_except, call in *.

Lemma lacks_field_falsy d k : lacks d k -> truthy (field d k) = false.
Proof.
  unfold lacks, field. destruct (dict_get d k); intros H; [exact H | reflexivity].
Qed.

Lemma neqb_200 st : st <> 200 -> (st =? 200) = false.
Proof. apply Z.eqb_neq. Qed.

Section CredentialStore.
Variable E : env.

Lemma save_token_to_db_run account_name refresh access h :
  _save_token_to_db E account_name refresh access h
  = ((h ++ [TokenSave (save_payload E h account_name refresh access)])%list,
     match net E h (TokenSave (save_payload E h account_name refresh access)) with
     | Fails e => Throw e
     | Replies _ => Return tt
     end).
Proof.
  unfold _save_token_to_db. unfold_eff.
  destruct (net E h _); reflexivity.
Qed.

Lemma load_token_from_db_trace account_name h :
  fst (_load_token_from_db E account_name h) = (h ++ [TokenLoad account_name])%list.
Proof.
  unfold _load_token_from_db. unfold_eff.
  destruct (net E h _) as [e | res]; [reflexivity |].
  destruct (status_code res =? 200); [| reflexivity].
  destruct (json res) as [rows | e]; [| reflexivity].
  destruct (truthy rows); [| reflexivity].
  destruct (getitem0 rows) as [row | e]; [| reflexivity].
  destruct (get row "refresh_token" VNone) as [tok | e]; [| reflexivity].
  destruct (truthy tok); [| reflexivity].
  destruct (getitem row "refresh_token"); reflexivity.
Qed.

End CredentialStore.

(** C8.  [_load_token_from_db] issues exactly one request, the select on
    [meli_tokens], so it writes nothing.  When the store answers, the result
    is [None] for a status other than 200, for an empty row list, and for a
    first row whose [refresh_token] is missing, null or empty; otherwise it
    is the stored [refresh_token] of the first row. *)
Theorem load_token_from_db_spec (E : env) (account_name : string) (h : trace) :
  fst (_load_token_from_db E account_name h)
    = (h ++ [TokenLoad account_name])%list
  /\ existsb is_write [TokenLoad account_name] = false
  /\ forall res,
      net E h (TokenLoad account_name) = Replies res ->
      (status_code res <> 200 ->
       snd (_load_token_from_db E account_name h) = Return VNone)
      /\ (status_code res = 200 -> body res = Some (VList []) ->
          snd (_load_token_from_db E account_name h) = Return VNone)
      /\ (forall d rest,
          status_code res = 200 -> body res = Some (VList (VDict d :: rest)) ->
          lacks d "refresh_token" ->
          snd (_load_token_from_db E account_name h) = Return VNone)
      /\ (forall d rest v,
          status_code res = 200 -> body res = Some (VList (VDict d :: rest)) ->
          dict_get d "refresh_token" = Some v -> truthy v = true ->
          snd (_load_token_from_db E account_name h) = Return v).
Proof.
  split; [apply load_token_from_db_trace |].
  split; [reflexivity |].
  intros res Hnet.
  unfold _load_token_from_db. unfold_eff. rewrite Hnet.
  repeat split.
  - intros Hst. rewrite (neqb_200 _ Hst). reflexivity.
  - intros Hst Hb. rewrite Hst. unfold json. rewrite Hb. reflexivity.
  - intros d rest Hst Hb Hl. rewrite Hst. unfold json. rewrite Hb. simpl.
    unfold lacks in Hl.
    destruct (dict_get d "refresh_token") as [v |]; [rewrite Hl |]; reflexivity.
  - intros d rest v Hst Hb Hd Hv. rewrite Hst. unfold json. rewrite Hb. simpl.
    rewrite Hd, Hv. reflexivity.
Qed.


Section TokenExchanger.
Variable E : env.

Lemma get_access_token_fails a h e :
  net E h (exchange_request a) = Fails e ->
  _get_access_token E (h, a) = (((h ++ [exchange_request a])%list, a), Throw e).
Proof.
  intros Hnet. unfold _get_access_token, exchange_request in *. unfold_eff.
  simpl. rewrite Hnet. reflexivity.
Qed.

Lemma get_access_token_not_200 a h res :
  net E h (exchange_request a) = Replies res ->
  status_code res <> 200 ->
  _get_access_token E (h, a)
  = (((h ++ [exchange_request a])%list, a), Return VNone).
Proof.
  intros Hnet Hst. unfold _get_access_token, exchange_request in *. unfold_eff.
  simpl. rewrite Hnet. simpl. rewrite (neqb_200 _ Hst). reflexivity.
Qed.

Lemma get_access_token_no_credential a h txt d :
  net E h (exchange_request a) = Replies (Response 200 (Some (VDict d)) txt) ->
  lacks d "refresh_token" ->
  _get_access_token E (h, a)
  = (((h ++ [exchange_request a])%list, a), Return (field d "access_token")).
Proof.
  intros Hnet Hl. apply lacks_field_falsy in Hl.
  unfold _get_access_token, exchange_request in *. unfold_eff.
  simpl. rewrite Hnet. simpl. fold (field d "refresh_token").
  rewrite Hl. reflexivity.
Qed.

Lemma get_access_token_credential a h txt d nr :
  net E h (exchange_request a) = Replies (Response 200 (Some (VDict d)) txt) ->
  dict_get d "refresh_token" = Some nr ->
  truthy nr = true ->
  _get_access_token E (h, a)
  = let h1 := (h ++ [exchange_request a])%list in
    let save := TokenSave (save_payload E h1 (name a) nr (field d "access_token")) in
    (((h1 ++ [save])%list, set_refresh_token a nr),
     match net E h1 save with
     | Fails e => Throw e
     | Replies _ => Return (field d "access_token")
     end).
Proof.
  intros Hnet Hd Hnr.
  unfold _get_access_token, exchange_request in *. unfold_eff.
  simpl. rewrite Hnet. simpl. rewrite Hd, Hnr.
  rewrite save_token_to_db_run. unfold field.
  destruct (net E _ (TokenSave _)); reflexivity.
Qed.

End TokenExchanger.

(** C1.  When the exchange is answered with status 200 and a body holding a
    (non-empty) [refresh_token], [_get_access_token] leaves the account's
    in-memory [refresh_token] equal to the newly issued value, and the
    requests it has issued are the exchange followed by exactly one save
    whose payload carries that new value for this account; the access token
    is returned only in that final state, once the save call has come back. *)
Theorem get_access_token_rotates
  (E : env) (a : account) (h : trace) (txt : string)
  (d : list (string * value)) (nr : value) :
  net E h (exchange_request a) = Replies (Response 200 (Some (VDict d)) txt) ->
  dict_get d "refresh_token" = Some nr ->
  truthy nr = true ->
  exists (payload : list (string * value)) (h' : trace) (a' : account)
         (r : outcome value),
    _get_access_token E (h, a) = ((h', a'), r)
    /\ h' = (h ++ [exchange_request a; TokenSave payload])%list
    /\ filter is_save [exchange_request a; TokenSave payload]
       = [TokenSave payload]
    /\ dict_get payload "refresh_token" = Some nr
    /\ dict_get payload "account_name" = Some (VStr (name a))
    /\ refresh_token a' = nr
    /\ (nr <> refresh_token a -> refresh_token a' <> refresh_token a)
    /\ r = match net E (h ++ [exchange_request a])%list (TokenSave payload) with
           | Fails e => Throw e
           | Replies _ => Return (field d "access_token")
           end.
Proof.
  intros Hnet Hd Hnr.
  rewrite (get_access_token_credential E a h txt d nr Hnet Hd Hnr).
  cbv zeta.
  eexists _, _, _, _. split; [reflexivity |].
  split; [rewrite <- app_assoc; reflexivity |].
  repeat split; try reflexivity.
  intros Hne. exact Hne.
Qed.

(** C9.  [_get_access_token] reassigns the account's [refresh_token] or
    issues a save only when the exchange is answered with status 200 and a
    body holding a (non-empty) [refresh_token].  When the client raises,
    when the status is not 200, and when a 200 body has no such field, the
    account is unchanged and the exchange is the only request issued; in the
    last case the body's [access_token] is still returned. *)
Theorem get_access_token_frame (E : env) (a : account) (h : trace) :
  (forall e,
      net E h (exchange_request a) = Fails e ->
      _get_access_token E (h, a)
      = (((h ++ [exchange_request a])%list, a), Throw e))
  /\ (forall res,
      net E h (exchange_request a) = Replies res ->
      status_code res <> 200 ->
      _get_access_token E (h, a)
      = (((h ++ [exchange_request a])%list, a), Return VNone))
  /\ (forall txt d,
      net E h (exchange_request a)
      = Replies (Response 200 (Some (VDict d)) txt) ->
      lacks d "refresh_token" ->
      _get_access_token E (h, a)
      = (((h ++ [exchange_request a])%list, a),
         Return (field d "access_token")))
  /\ (forall h' a' r,
      _get_access_token E (h, a) = ((h', a'), r) ->
      a' <> a \/ h' <> (h ++ [exchange_request a])%list ->
      exists txt d nr,
        net E h (exchange_request a)
        = Replies (Response 200 (Some (VDict d)) txt)
        /\ dict_get d "refresh_token" = Some nr
        /\ truthy nr = true).
Proof.
  split; [intros e; apply get_access_token_fails |].
  split; [intros res; apply get_access_token_not_200 |].
  split; [intros txt d; apply get_access_token_no_credential |].
  intros h' a' r Hrun Hchanged.
  assert (Hsame : forall r0,
             _get_access_token E (h, a)
             = (((h ++ [exchange_request a])%list, a), r0) -> False).
  { intros r0 Hr0. rewrite Hr0 in Hrun. inversion Hrun; subst.
    destruct Hchanged as [Hc | Hc]; apply Hc; reflexivity. }
  destruct (net E h (exchange_request a)) as [e | [st body txt]] eqn:Hnet.
  - exfalso. eapply Hsame. apply get_access_token_fails; exact Hnet.
  - destruct (Z.eq_dec st 200) as [-> | Hst].
    + destruct body as [data |].
      * destruct data as [| b | z | f | s | l | d];
          try (exfalso; eapply Hsame;
               unfold _get_access_token, exchange_request in *; unfold_eff;
               simpl; rewrite Hnet; reflexivity).
        destruct (dict_get d "refresh_token") as [nr |] eqn:Hd.
        -- destruct (truthy nr) eqn:Hnr.
           ++ exists txt, d, nr. repeat split; assumption.
           ++ exfalso. eapply Hsame.
              apply get_access_token_no_credential with (txt := txt); [exact Hnet |].
              unfold lacks. rewrite Hd. exact Hnr.
        -- exfalso. eapply Hsame.
           apply get_access_token_no_credential with (txt := txt); [exact Hnet |].
           unfold lacks. rewrite Hd. exact I.
      * exfalso. eapply Hsame.
        unfold _get_access_token, exchange_request in *. unfold_eff.
        simpl. rewrite Hnet. reflexivity.
    + exfalso. eapply Hsame.
      apply get_access_token_not_200 with (res := Response st body txt);
        [exact Hnet | exact Hst].
Qed.


(** *** The loop body *)

Lemma existsb_str_eq_In s l : existsb (str_eq s) l = true <-> In (VStr s) l.
Proof.
  rewrite existsb_exists. split.
  - intros [v [Hin Heq]]. destruct v; simpl in Heq; try discriminate.
    apply String.eqb_eq in Heq. subst. exact Hin.
  - intros Hin. exists (VStr s). split; [exact Hin |].
    simpl. apply String.eqb_refl.
Qed.

(** A tag list is flagged exactly when the marker is one of its elements. *)
Lemma flagged_tag_list d l :
  dict_get d "tags" = Some (VList l) ->
  (flagged d = Ok true <-> In (VStr fraud_marker) l)
  /\ (flagged d = Ok false <-> ~ In (VStr fraud_marker) l).
Proof.
  intros Hd. unfold flagged, field. rewrite Hd.
  destruct l as [| x l'].
  - simpl. split; split; try discriminate; try reflexivity; intros H; try exact H.
    + contradiction.
    + intros [].
  - unfold py_or. simpl truthy. cbv iota. unfold contains.
    rewrite <- existsb_str_eq_In.
    destruct (existsb (str_eq fraud_marker) (x :: l')); split; split;
      congruence.
Qed.

Lemma process_order_dict acc d :
  process_order acc (VDict d)
  = (fl <- flagged d ;;
     if fl : bool then
       Ok (Totals (total_valor acc) (order_count acc) (fraud_count acc + 1))
     else add_amount acc (amount_of d))%py.
Proof.
  unfold process_order, flagged, add_amount, amount_of, field,
         total_amount_or_0.
  simpl.
  destruct (contains fraud_marker _) as [[|] |]; simpl; try reflexivity.
  destruct (dict_get d "paid_amount") as [p |]; simpl.
  - destruct (truthy p); reflexivity.
  - reflexivity.
Qed.

Lemma amount_of_paid d p :
  dict_get d "paid_amount" = Some p -> truthy p = true -> amount_of d = p.
Proof.
  intros Hd Hp. unfold amount_of. rewrite Hd, Hp. reflexivity.
Qed.

Lemma amount_of_fallback d :
  lacks d "paid_amount" -> amount_of d = total_amount_or_0 d.
Proof.
  unfold lacks, amount_of.
  destruct (dict_get d "paid_amount") as [p |]; intros Hl.
  - rewrite Hl. reflexivity.
  - reflexivity.
Qed.

(** C2, as the code has it.  On a dict order: when the fraud test holds the
    fraud count goes up by one and neither the total nor the order count
    changes; when it does not, the order count goes up by one and the amount
    added to the total is [paid_amount] if that field is present and truthy
    (not null, not zero), and otherwise [total_amount], or 0 when that is
    missing too.  For a tag list the fraud test holds exactly when the
    marker is one of the tags. *)
Theorem process_order_spec (acc : totals) (d : list (string * value)) :
  (flagged d = Ok true ->
   process_order acc (VDict d)
   = Ok (Totals (total_valor acc) (order_count acc) (fraud_count acc + 1)))
  /\ (flagged d = Ok false ->
      (forall p, dict_get d "paid_amount" = Some p -> truthy p = true ->
                 process_order acc (VDict d) = add_amount acc p)
      /\ (lacks d "paid_amount" ->
          process_order acc (VDict d) = add_amount acc (total_amount_or_0 d)))
  /\ (forall l, dict_get d "tags" = Some (VList l) ->
                (flagged d = Ok true <-> In (VStr fraud_marker) l)
                /\ (flagged d = Ok false <-> ~ In (VStr fraud_marker) l)).
Proof.
  rewrite process_order_dict. split; [| split].
  - intros Hf. rewrite Hf. reflexivity.
  - intros Hf. rewrite Hf. simpl. split.
    + intros p Hd Hp. rewrite (amount_of_paid d p Hd Hp). reflexivity.
    + intros Hl. rewrite (amount_of_fallback d Hl). reflexivity.
  - intros l. apply flagged_tag_list.
Qed.

(** C2, counterexample.  The order [{paid_amount: 0, total_amount: 30,
    tags: []}] has its paid amount present, yet the total grows by 30, the
    total amount, and not by the paid amount 0. *)
Lemma paid_zero_falls_back_to_total :
  dict_get Examples.zero_paid_order "paid_amount" = Some (VInt 0)
  /\ flagged Examples.zero_paid_order = Ok false
  /\ process_order zero_totals (VDict Examples.zero_paid_order)
     = Ok (Totals (of_Z 30) 1 0)
  /\ add_amount zero_totals (VInt 0) = Ok (Totals fzero 1 0)
  /\ int_float_compare 30 (of_Z 30) = Some Eq
  /\ process_order zero_totals (VDict Examples.zero_paid_order)
     <> add_amount zero_totals (VInt 0).
Proof.
  repeat split; try reflexivity.
  vm_compute. discriminate.
Qed.


(** *** The pagination loop *)

Section Aggregator.
Variable E : env.
Variables (a : account) (tok : value) (date_from date_to : string).

Local Abbreviation loop fuel := (fetch_loop E fuel a tok date_from date_to).
Local Abbreviation req := (page_request a tok date_from date_to).

(** One iteration, written out. *)
Lemma fetch_loop_S fuel acc offset h :
  loop (S fuel) acc offset h
  = let h1 := (h ++ [req offset])%list in
    match net E h (req offset) with
    | Fails e => (h1, Throw e)
    | Replies res =>
        if negb (status_code res =? 200) then (h1, Return acc)
        else match json res with
             | Raise e => (h1, Throw e)
             | Ok data =>
                 match process_page acc offset data with
                 | Raise e => (h1, Throw e)
                 | Ok (acc', offset', stop) =>
                     if stop : bool then (h1, Return acc')
                     else loop fuel acc' offset' h1
                 end
             end
    end.
Proof.
  cbn [fetch_loop]. unfold page_request. unfold_eff. cbv zeta.
  destruct (net E h _) as [e | res]; [reflexivity |].
  destruct (negb (status_code res =? 200)); [reflexivity |].
  destruct (json res) as [data | e]; [| reflexivity].
  destruct (process_page acc offset data) as [[[acc' offset'] stop] | e];
    [| reflexivity].
  destruct stop; reflexivity.
Qed.

(** A page always moves the offset by the page size, and the loop goes on
    only while the new offset is at most 500. *)
Lemma process_page_offset acc offset data acc' offset' stop :
  process_page acc offset data = Ok (acc', offset', stop) ->
  offset' = offset + 50 /\ (stop = false -> offset' <= 500).
Proof.
  unfold process_page, limit.
  destruct (get data "results" (VList [])) as [results | e]; [| discriminate].
  simpl. destruct (iter results) as [l | e]; [| discriminate].
  simpl. destruct (process_orders acc l) as [acc1 | e]; [| discriminate].
  simpl. destruct (total_results data) as [t | e]; [| discriminate].
  simpl. destruct (int_ge (offset + 50) t) as [reached | e]; [| discriminate].
  simpl. intros Heq. inversion Heq; subst. split; [reflexivity |].
  intros Hstop. apply orb_false_iff in Hstop. destruct Hstop as [_ Hlt].
  apply Z.ltb_ge in Hlt. exact Hlt.
Qed.

(** With enough fuel to carry the offset past 500 the loop finishes. *)
Lemma fetch_loop_finishes fuel :
  forall acc offset h,
    (0 < fuel)%nat ->
    500 < offset + 50 * Z.of_nat fuel ->
    snd (loop fuel acc offset h) <> OutOfFuel.
Proof.
  induction fuel as [| fuel IH]; intros acc offset h Hpos Hfuel; [lia |].
  rewrite fetch_loop_S. cbv zeta.
  destruct (net E h _) as [e | res]; [discriminate |].
  destruct (negb (status_code res =? 200)); [discriminate |].
  destruct (json res) as [data | e]; [| discriminate].
  destruct (process_page acc offset data) as [[[acc' offset'] stop] | e] eqn:Hp;
    [| discriminate].
  destruct stop; [discriminate |].
  destruct (process_page_offset _ _ _ _ _ _ Hp) as [Ho Hb].
  specialize (Hb eq_refl).
  apply IH; lia.
Qed.

(** More fuel does not change a finished run. *)
Lemma fetch_loop_more_fuel fuel :
  forall acc offset h h' r,
    loop fuel acc offset h = (h', r) ->
    r <> OutOfFuel ->
    loop (S fuel) acc offset h = (h', r).
Proof.
  induction fuel as [| fuel IH]; intros acc offset h h' r Hrun Hr.
  - cbn in Hrun. inversion Hrun; subst. contradiction.
  - rewrite fetch_loop_S in *. cbv zeta in *.
    destruct (net E h _) as [e | res]; [exact Hrun |].
    destruct (negb (status_code res =? 200)); [exact Hrun |].
    destruct (json res) as [data | e]; [| exact Hrun].
    destruct (process_page acc offset data) as [[[acc' offset'] stop] | e];
      [| exact Hrun].
    destruct stop; [exact Hrun |].
    apply IH; assumption.
Qed.

Lemma fetch_loop_fuel_le fuel fuel' acc offset h h' r :
  (fuel <= fuel')%nat ->
  loop fuel acc offset h = (h', r) ->
  r <> OutOfFuel ->
  loop fuel' acc offset h = (h', r).
Proof.
  intros Hle Hrun Hr. induction Hle as [| m Hle IH]; [exact Hrun |].
  apply fetch_loop_more_fuel; assumption.
Qed.

(** Two finished runs from the same loop state agree. *)
Lemma fetch_loop_fuel_irrelevant f1 f2 acc offset h h1 r1 h2 r2 :
  loop f1 acc offset h = (h1, r1) -> r1 <> OutOfFuel ->
  loop f2 acc offset h = (h2, r2) -> r2 <> OutOfFuel ->
  (h1, r1) = (h2, r2).
Proof.
  intros H1 Hr1 H2 Hr2.
  destruct (Nat.le_ge_cases f1 f2) as [Hle | Hle].
  - rewrite <- H2. symmetry. eapply fetch_loop_fuel_le; eassumption.
  - rewrite <- H1. eapply fetch_loop_fuel_le; eassumption.
Qed.

(** The requests of a run are page requests at offsets [offset],
    [offset + 50], ..., and none of them lies beyond 500 when the first one
    does not. *)
Lemma fetch_loop_trace fuel :
  forall acc offset h,
  exists n,
    (n <= fuel)%nat
    /\ ((0 < fuel)%nat -> (0 < n)%nat)
    /\ fst (loop fuel acc offset h)
       = (h ++ map (fun k => req (offset + 50 * Z.of_nat k)) (seq 0 n))%list
    /\ ((0 < n)%nat -> offset <= 500 ->
        offset + 50 * (Z.of_nat n - 1) <= 500).
Proof.
  induction fuel as [| fuel IH]; intros acc offset h.
  - exists 0%nat. cbn. rewrite app_nil_r. repeat split; lia.
  - assert (Hone : forall r : outcome totals,
               exists n,
                 (n <= S fuel)%nat /\ ((0 < S fuel)%nat -> (0 < n)%nat)
                 /\ fst ((h ++ [req offset])%list, r)
                    = (h ++ map (fun k => req (offset + 50 * Z.of_nat k))
                                (seq 0 n))%list
                 /\ ((0 < n)%nat -> offset <= 500 ->
                     offset + 50 * (Z.of_nat n - 1) <= 500)).
    { intros r. exists 1%nat. cbn [seq map fst].
      replace (offset + 50 * Z.of_nat 0) with offset by lia.
      repeat split; lia. }
    rewrite fetch_loop_S. cbv zeta.
    destruct (net E h _) as [e | res]; [apply Hone |].
    destruct (negb (status_code res =? 200)); [apply Hone |].
    destruct (json res) as [data | e]; [| apply Hone].
    destruct (process_page acc offset data) as [[[acc' offset'] stop] | e] eqn:Hp;
      [| apply Hone].
    destruct stop; [apply Hone |].
    destruct (process_page_offset _ _ _ _ _ _ Hp) as [Ho Hb].
    specialize (Hb eq_refl). subst offset'.
    destruct (IH acc' (offset + 50) (h ++ [req offset])%list)
      as [n [Hn [Hpos [Htr Hbound]]]].
    exists (S n). split; [lia |]. split; [lia |]. split.
    + rewrite Htr. rewrite <- app_assoc. f_equal.
      cbn [seq map app]. replace (offset + 50 * Z.of_nat 0) with offset by lia.
      f_equal. rewrite <- seq_shift, map_map.
      apply map_ext. intros k. f_equal. lia.
    + intros _ Hoff. destruct n as [| n'].
      * cbn. lia.
      * assert (Hn' : (0 < S n')%nat) by lia.
        specialize (Hbound Hn' Hb). lia.
Qed.

(** Pages already done can be put in front of any finished run. *)
Lemma pages_done_run acc offset h acc1 offset1 h1 :
  pages_done E a tok date_from date_to acc offset h acc1 offset1 h1 ->
  forall fuel h' r,
    loop fuel acc1 offset1 h1 = (h', r) ->
    exists fuel', loop fuel' acc offset h = (h', r).
Proof.
  induction 1 as [acc offset h
                 | acc offset h res data acc1 offset1 acc2 offset2 h2
                     Hnet Hst Hjson Hpage _ IH];
    intros fuel h' r Hrun.
  - exists fuel. exact Hrun.
  - destruct (IH fuel h' r Hrun) as [fuel' Hfuel'].
    exists (S fuel'). rewrite fetch_loop_S. cbv zeta.
    rewrite Hnet, Hst. cbn [Z.eqb Pos.eqb negb].
    rewrite Hjson, Hpage. exact Hfuel'.
Qed.

(** A page answered with a status other than 200 ends the loop with the
    accumulators as they stand. *)
Lemma fetch_loop_not_200 fuel acc offset h res :
  net E h (req offset) = Replies res ->
  status_code res <> 200 ->
  loop (S fuel) acc offset h = ((h ++ [req offset])%list, Return acc).
Proof.
  intros Hnet Hst. rewrite fetch_loop_S. cbv zeta.
  rewrite Hnet, (neqb_200 _ Hst). reflexivity.
Qed.

End Aggregator.


Lemma process_page_stop acc offset data acc' offset' stop t :
  process_page acc offset data = Ok (acc', offset', stop) ->
  total_results data = Ok (VInt t) ->
  stop = (t <=? offset + 50) || (500 <? offset + 50).
Proof.
  unfold process_page, limit. intros Hp Ht.
  destruct (get data "results" (VList [])) as [results | e]; [| discriminate].
  simpl in Hp. destruct (iter results) as [l | e]; [| discriminate].
  simpl in Hp. destruct (process_orders acc l) as [acc1 | e]; [| discriminate].
  simpl in Hp. rewrite Ht in Hp. simpl in Hp.
  inversion Hp; subst. reflexivity.
Qed.

Lemma total_results_missing d :
  dict_get d "paging" = None
  \/ (exists p, dict_get d "paging" = Some (VDict p)
                /\ dict_get p "total" = None) ->
  total_results (VDict d) = Ok (VInt 0).
Proof.
  unfold total_results. simpl.
  intros [Hd | [p [Hd Hp]]]; rewrite Hd; simpl; [| rewrite Hp]; reflexivity.
Qed.

Lemma process_page_last acc offset d l acc' :
  0 <= offset ->
  total_results (VDict d) = Ok (VInt 0) ->
  (dict_get d "results" = None /\ l = []
   \/ dict_get d "results" = Some (VList l)) ->
  process_orders acc l = Ok acc' ->
  process_page acc offset (VDict d) = Ok (acc', offset + 50, true).
Proof.
  intros Hoff Ht Hres Hl. unfold process_page, limit.
  assert (Hget : get (VDict d) "results" (VList []) = Ok (VList l)).
  { simpl. destruct Hres as [[Hd ->] | Hd]; rewrite Hd; reflexivity. }
  rewrite Hget. simpl. rewrite Hl. simpl. rewrite Ht. simpl.
  replace (0 <=? offset + 50) with true by (symmetry; apply Z.leb_le; lia).
  reflexivity.
Qed.

(** C3.  From offset 0 and with fuel for eleven iterations or more, the
    loop finishes, whatever the server answers; the requests it has issued
    are page requests at offsets 0, 50, 100, ..., at most eleven of them, so
    none has an offset above 500.  After a page answered with status 200
    that reports an integer total [t], the offset has advanced by 50 and the
    loop stops exactly when the new offset is at least [t] or above 500;
    otherwise it goes on from the new offset. *)
Theorem pagination_bounded
  (E : env) (a : account) (tok : value) (date_from date_to : string) :
  (forall fuel acc h,
      (11 <= fuel)%nat ->
      exists n r,
        (1 <= n <= 11)%nat
        /\ r <> OutOfFuel
        /\ fetch_loop E fuel a tok date_from date_to acc 0 h
           = ((h ++ map (fun k => page_request a tok date_from date_to
                                               (50 * Z.of_nat k))
                        (seq 0 n))%list, r)
        /\ forall k, In k (seq 0 n) -> 50 * Z.of_nat k <= 500)
  /\ (forall fuel acc offset h res data acc' offset' stop t,
      net E h (page_request a tok date_from date_to offset) = Replies res ->
      status_code res = 200 ->
      json res = Ok data ->
      process_page acc offset data = Ok (acc', offset', stop) ->
      total_results data = Ok (VInt t) ->
      offset' = offset + 50
      /\ (stop = true <-> t <= offset' \/ 500 < offset')
      /\ fetch_loop E (S fuel) a tok date_from date_to acc offset h
         = if stop
           then ((h ++ [page_request a tok date_from date_to offset])%list,
                 Return acc')
           else fetch_loop E fuel a tok date_from date_to acc' offset'
                  (h ++ [page_request a tok date_from date_to offset])%list).
Proof.
  split.
  - intros fuel acc h Hfuel.
    destruct (fetch_loop_trace E a tok date_from date_to fuel acc 0 h)
      as [n [Hn [Hpos [Htr Hbound]]]].
    assert (Hfin := fetch_loop_finishes E a tok date_from date_to fuel acc 0 h).
    destruct (fetch_loop E fuel a tok date_from date_to acc 0 h) as [h' r].
    cbn [fst snd] in *.
    assert (Hn0 : (0 < n)%nat) by (apply Hpos; lia).
    specialize (Hbound Hn0 ltac:(lia)).
    exists n, r. split; [lia |]. split; [apply Hfin; lia |]. split.
    + rewrite Htr. reflexivity.
    + intros k Hk. apply in_seq in Hk. lia.
  - intros fuel acc offset h res data acc' offset' stop t
           Hnet Hst Hjson Hpage Htotal.
    destruct (process_page_offset _ _ _ _ _ _ Hpage) as [Ho _].
    pose proof (process_page_stop _ _ _ _ _ _ _ Hpage Htotal) as Hstop.
    split; [exact Ho |]. split.
    + rewrite Hstop, Ho. rewrite orb_true_iff, Z.leb_le, Z.ltb_lt. reflexivity.
    + rewrite fetch_loop_S. cbv zeta.
      rewrite Hnet, Hst. cbn [Z.eqb Pos.eqb negb].
      rewrite Hjson, Hpage. reflexivity.
Qed.

(** C6.  When the first page is answered with the three orders
    [{paid_amount: 100, tags: []}], [{paid_amount: 50, tags:
    ["fraud_risk_detected"]}] and [{total_amount: 30, paid_amount: null}]
    and a total of 3, [_fetch_paid_orders_total] returns valor 130.0 (the
    double that equals 130), 2 orders counted and 1 skipped for fraud, after
    that single request; the third order contributes its [total_amount]. *)
Theorem three_orders_aggregate
  (E : env) (fuel : nat) (a : account) (tok : value) (date_str : string)
  (h : trace) (txt : string) :
  net E h (page_request a tok (day_start date_str) (day_end date_str) 0)
  = Replies (Response 200 (Some Examples.three_orders_page) txt) ->
  _fetch_paid_orders_total E (S fuel) a tok date_str h
  = ((h ++ [page_request a tok (day_start date_str) (day_end date_str) 0])%list,
     Return (Summary (of_Z 130) 2 1))
  /\ int_float_compare 130 (of_Z 130) = Some Eq
  /\ process_orders zero_totals Examples.three_orders
     = Ok (Totals (of_Z 130) 2 1)
  /\ amount_of [("total_amount", VInt 30); ("paid_amount", VNone)] = VInt 30.
Proof.
  intros Hnet.
  assert (Hpage : process_page zero_totals 0 Examples.three_orders_page
                  = Ok (Totals (of_Z 130) 2 1, 50, true))
    by (vm_compute; reflexivity).
  split; [| repeat split; vm_compute; reflexivity].
  unfold _fetch_paid_orders_total. fold (day_start date_str) (day_end date_str).
  unfold Eff.bind. rewrite fetch_loop_S. cbv zeta.
  rewrite Hnet. cbn [status_code Z.eqb Pos.eqb negb json body].
  rewrite Hpage. unfold Eff.ret. f_equal.
Qed.

(** C7.  Once the loop has gone through any number of pages answered with
    status 200, a page answered with any other status ends it at once:
    [_fetch_paid_orders_total] returns, without raising, the rounded total
    and the counts accumulated over the earlier pages, and that page's
    request is the last one issued. *)
Theorem page_failure_keeps_partial
  (E : env) (fuel : nat) (a : account) (tok : value) (date_str : string)
  (h : trace) (acc : totals) (offset : Z) (h1 : trace) (res : response) :
  (11 <= fuel)%nat ->
  pages_done E a tok (day_start date_str) (day_end date_str)
             zero_totals 0 h acc offset h1 ->
  net E h1 (page_request a tok (day_start date_str) (day_end date_str) offset)
  = Replies res ->
  status_code res <> 200 ->
  _fetch_paid_orders_total E fuel a tok date_str h
  = ((h1 ++ [page_request a tok (day_start date_str) (day_end date_str)
                          offset])%list,
     Return (Summary (round2 (total_valor acc)) (order_count acc)
                     (fraud_count acc))).
Proof.
  intros Hfuel Hdone Hnet Hst.
  pose proof (fetch_loop_not_200 E a tok _ _ 0 acc offset h1 res Hnet Hst)
    as Hlast.
  destruct (pages_done_run E a tok _ _ _ _ _ _ _ _ Hdone _ _ _ Hlast)
    as [fuel' Hrun'].
  assert (Hfin := fetch_loop_finishes E a tok (day_start date_str)
                    (day_end date_str) fuel zero_totals 0 h).
  unfold _fetch_paid_orders_total. fold (day_start date_str) (day_end date_str).
  unfold Eff.bind.
  destruct (fetch_loop E fuel a tok (day_start date_str) (day_end date_str)
                       zero_totals 0 h) as [h' r] eqn:Hrun.
  cbn [snd] in Hfin.
  assert (Heq : (h', r)
                = ((h1 ++ [page_request a tok (day_start date_str)
                                        (day_end date_str) offset])%list,
                   Return acc)).
  { eapply fetch_loop_fuel_irrelevant;
      [exact Hrun | apply Hfin; lia | exact Hrun' | discriminate]. }
  inversion Heq; subst. reflexivity.
Qed.

(** C10.  A 200 page whose JSON object lacks some fields is processed
    without error.  With no ["results"] key the page contributes no order;
    an order whose ["tags"] is missing or null is not flagged and goes
    through the amount branch; with no ["paging"] key, or a paging object
    with no ["total"], the reported total is 0; and such a page is the last
    one: the loop returns the accumulators right after it. *)
Theorem aggregation_tolerates_missing_fields :
  (forall acc offset d t,
      dict_get d "results" = None ->
      total_results (VDict d) = Ok (VInt t) ->
      process_page acc offset (VDict d)
      = Ok (acc, offset + 50, (t <=? offset + 50) || (500 <? offset + 50)))
  /\ (forall acc d,
      dict_get d "tags" = None \/ dict_get d "tags" = Some VNone ->
      flagged d = Ok false
      /\ process_order acc (VDict d) = add_amount acc (amount_of d))
  /\ (forall d,
      dict_get d "paging" = None
      \/ (exists p, dict_get d "paging" = Some (VDict p)
                    /\ dict_get p "total" = None) ->
      total_results (VDict d) = Ok (VInt 0))
  /\ (forall (E : env) fuel a tok date_from date_to acc offset h txt d l acc',
      0 <= offset ->
      net E h (page_request a tok date_from date_to offset)
      = Replies (Response 200 (Some (VDict d)) txt) ->
      dict_get d "paging" = None
      \/ (exists p, dict_get d "paging" = Some (VDict p)
                    /\ dict_get p "total" = None) ->
      (dict_get d "results" = None /\ l = []
       \/ dict_get d "results" = Some (VList l)) ->
      process_orders acc l = Ok acc' ->
      fetch_loop E (S fuel) a tok date_from date_to acc offset h
      = ((h ++ [page_request a tok date_from date_to offset])%list,
         Return acc')).
Proof.
  split; [| split; [| split]].
  - intros acc offset d t Hres Ht. unfold process_page, limit. simpl.
    rewrite Hres. simpl. rewrite Ht. reflexivity.
  - intros acc d Htags.
    assert (Hf : flagged d = Ok false).
    { unfold flagged, field. destruct Htags as [-> | ->]; reflexivity. }
    split; [exact Hf |]. rewrite process_order_dict, Hf. reflexivity.
  - exact total_results_missing.
  - intros E fuel a tok date_from date_to acc offset h txt d l acc'
           Hoff Hnet Hpaging Hres Hl.
    rewrite fetch_loop_S. cbv zeta.
    rewrite Hnet. cbn [status_code Z.eqb Pos.eqb negb json body].
    rewrite (process_page_last acc offset d l acc' Hoff
               (total_results_missing d Hpaging) Hres Hl).
    reflexivity.
Qed.


(** *** The orchestrator *)

Section Orchestrator.
Variable E : env.

(** [_get_access_token] either leaves the account alone after the exchange
    request, or installs a new credential and issues one save. *)
Lemma get_access_token_cases a h :
  (exists r, r <> OutOfFuel
             /\ _get_access_token E (h, a)
                = (((h ++ [exchange_request a])%list, a), r))
  \/ (exists payload nr r,
         r <> OutOfFuel
         /\ _get_access_token E (h, a)
            = (((h ++ [exchange_request a; TokenSave payload])%list,
                set_refresh_token a nr), r)).
Proof.
  destruct (net E h (exchange_request a)) as [e | [st body txt]] eqn:Hnet.
  - left. exists (Throw e). split; [discriminate |].
    apply get_access_token_fails; exact Hnet.
  - destruct (Z.eq_dec st 200) as [-> | Hst].
    + assert (Hraise : forall data,
                 body = Some data ->
                 (forall d, data <> VDict d) ->
                 exists r, r <> OutOfFuel
                           /\ _get_access_token E (h, a)
                              = (((h ++ [exchange_request a])%list, a), r)).
      { intros data -> Hnd. exists (Throw no_get). split; [discriminate |].
        unfold _get_access_token, exchange_request in *. unfold_eff.
        simpl. rewrite Hnet. simpl.
        destruct data; try reflexivity. exfalso. eapply Hnd. reflexivity. }
      destruct body as [data |].
      * destruct data as [| b | z | f | s | l | d];
          try (left; eapply Hraise; [reflexivity | intros d0; discriminate]).
        destruct (dict_get d "refresh_token") as [nr |] eqn:Hd.
        -- destruct (truthy nr) eqn:Hnr.
           ++ right.
              pose proof (get_access_token_credential E a h txt d nr
                            Hnet Hd Hnr) as Hrun.
              cbv zeta in Hrun. rewrite <- app_assoc in Hrun.
              eexists _, nr, _. split; [| exact Hrun].
              destruct (net E _ (TokenSave _)); discriminate.
           ++ left. exists (Return (field d "access_token")).
              split; [discriminate |].
              apply get_access_token_no_credential with (txt := txt);
                [exact Hnet |].
              unfold lacks. rewrite Hd. exact Hnr.
        -- left. exists (Return (field d "access_token")).
           split; [discriminate |].
           apply get_access_token_no_credential with (txt := txt);
             [exact Hnet |].
           unfold lacks. rewrite Hd. exact I.
      * left. exists (Throw (Exn JSONDecodeError "Expecting value")).
        split; [discriminate |].
        unfold _get_access_token, exchange_request in *. unfold_eff.
        simpl. rewrite Hnet. reflexivity.
    + left. exists (Return VNone). split; [discriminate |].
      apply get_access_token_not_200 with (res := Response st body txt);
        [exact Hnet | exact Hst].
Qed.

(** The exchange step issues neither order searches nor ledger upserts, and
    keeps every field of the account but [refresh_token]. *)
Lemma get_access_token_footprint a h h1 a1 r :
  _get_access_token E (h, a) = ((h1, a1), r) ->
  r <> OutOfFuel
  /\ empresa a1 = empresa a
  /\ user_id a1 = user_id a
  /\ exists d, h1 = (h ++ d)%list
               /\ existsb is_orders_search d = false
               /\ existsb is_upsert d = false.
Proof.
  intros Hrun.
  destruct (get_access_token_cases a h)
    as [[r0 [Hr0 Heq]] | [payload [nr [r0 [Hr0 Heq]]]]];
    rewrite Heq in Hrun; inversion Hrun; subst;
    (split; [exact Hr0 |]); (split; [reflexivity |]);
    (split; [reflexivity |]); eexists; (split; [reflexivity |]);
    split; reflexivity.
Qed.

Lemma page_requests_not_upserts a tok date_from date_to (f : nat -> Z) l :
  existsb is_upsert (map (fun k => page_request a tok date_from date_to (f k)) l)
  = false.
Proof.
  induction l as [| k l IH]; [reflexivity | exact IH].
Qed.

(** The aggregator only issues order searches. *)
Lemma fetch_paid_orders_total_footprint fuel a tok date_str h :
  fst (_fetch_paid_orders_total E fuel a tok date_str h)
  = fst (fetch_loop E fuel a tok (day_start date_str) (day_end date_str)
                    zero_totals 0 h)
  /\ exists d,
      fst (_fetch_paid_orders_total E fuel a tok date_str h) = (h ++ d)%list
      /\ existsb is_upsert d = false.
Proof.
  assert (Hfst : fst (_fetch_paid_orders_total E fuel a tok date_str h)
                 = fst (fetch_loop E fuel a tok (day_start date_str)
                                   (day_end date_str) zero_totals 0 h)).
  { unfold _fetch_paid_orders_total.
    fold (day_start date_str) (day_end date_str). unfold Eff.bind, Eff.ret.
    destruct (fetch_loop E fuel a tok _ _ zero_totals 0 h) as [h' [acc | e |]];
      reflexivity. }
  split; [exact Hfst |].
  destruct (fetch_loop_trace E a tok (day_start date_str) (day_end date_str)
                             fuel zero_totals 0 h) as [n [_ [_ [Htr _]]]].
  eexists. split; [rewrite Hfst; exact Htr |].
  apply page_requests_not_upserts.
Qed.

Lemma fetch_paid_orders_total_finishes fuel a tok date_str h :
  (11 <= fuel)%nat ->
  snd (_fetch_paid_orders_total E fuel a tok date_str h) <> OutOfFuel.
Proof.
  intros Hfuel.
  assert (Hfin := fetch_loop_finishes E a tok (day_start date_str)
                    (day_end date_str) fuel zero_totals 0 h).
  unfold _fetch_paid_orders_total.
  fold (day_start date_str) (day_end date_str). unfold Eff.bind, Eff.ret.
  destruct (fetch_loop E fuel a tok _ _ zero_totals 0 h) as [h' [acc | e |]];
    cbn [snd] in *; try discriminate.
  exfalso. apply Hfin; [lia | lia | reflexivity].
Qed.

Lemma upsert_faturamento_run emp date_str v h :
  _upsert_faturamento E emp date_str v h
  = ((h ++ [FaturamentoUpsert emp date_str v])%list,
     match net E h (FaturamentoUpsert emp date_str v) with
     | Fails e => Throw e
     | Replies res =>
         Return ((200 <=? status_code res) && (status_code res <? 300))
     end).
Proof.
  unfold _upsert_faturamento. unfold_eff.
  destruct (net E h _); reflexivity.
Qed.

(** The [try] block, once the exchange has been run. *)
Lemma sync_account_body_after_exchange fuel date_str a h h1 a1 r :
  _get_access_token E (h, a) = ((h1, a1), r) ->
  sync_account_body E fuel date_str (h, a)
  = match r with
    | Return token =>
        if negb (truthy token) then
          ((h1, a1),
           Return (OutcomeRecord (empresa a1) date_str None None None
                                 "token_error" None))
        else
          match _fetch_paid_orders_total E fuel a1 token date_str h1 with
          | (h2, Return data) =>
              if float_gt0 (valor data) then
                match _upsert_faturamento E (empresa a1) date_str
                                          (valor data) h2 with
                | (h3, Return ok) =>
                    ((h3, a1),
                     Return (OutcomeRecord
                               (empresa a1) date_str (Some (valor data))
                               (Some (orders data))
                               (Some (fraud_skipped data))
                               (if ok : bool then "synced" else "upsert_error")
                               None))
                | (h3, Throw e) => ((h3, a1), Throw e)
                | (h3, OutOfFuel) => ((h3, a1), OutOfFuel)
                end
              else
                ((h2, a1),
                 Return (OutcomeRecord
                           (empresa a1) date_str (Some (valor data))
                           (Some (orders data)) (Some (fraud_skipped data))
                           "no_sales" None))
          | (h2, Throw e) => ((h2, a1), Throw e)
          | (h2, OutOfFuel) => ((h2, a1), OutOfFuel)
          end
    | Throw e => ((h1, a1), Throw e)
    | OutOfFuel => ((h1, a1), OutOfFuel)
    end.
Proof.
  intros Hrun. unfold sync_account_body.
  unfold Eff.bind at 1. rewrite Hrun.
  destruct r as [token | e |]; try reflexivity.
  unfold Eff.bind at 1. unfold Eff.gets at 1. cbn [snd].
  destruct (negb (truthy token)); [reflexivity |].
  unfold Eff.bind at 1. unfold Eff.on_fst at 1. cbn [fst snd].
  destruct (_fetch_paid_orders_total E fuel a1 token date_str h1)
    as [h2 [data | e |]]; try reflexivity.
  destruct (float_gt0 (valor data)).
  - unfold _upsert_faturamento. unfold_eff. cbn [fst snd].
    destruct (net E h2 _) as [e | res]; reflexivity.
  - reflexivity.
Qed.

End Orchestrator.


Lemma float_zero_not_gt0 f : float_is_zero f = true -> float_gt0 f = false.
Proof. destruct f; simpl; intros H; try discriminate; reflexivity. Qed.

(** With fuel for the whole pagination, one loop iteration of [sync_all]
    always ends with one record for the account, under its [empresa]. *)
Lemma sync_account_returns (E : env) fuel date_str a h :
  (11 <= fuel)%nat ->
  exists h1 a1 r,
    sync_account E fuel date_str (h, a) = ((h1, a1), Return r)
    /\ r_empresa r = empresa a
    /\ r_date r = date_str.
Proof.
  intros Hfuel. unfold sync_account, Eff.try_except.
  destruct (_get_access_token E (h, a)) as [[h1 a1] r] eqn:Hex.
  destruct (get_access_token_footprint E a h h1 a1 r Hex)
    as [Hr [Hemp [_ _]]].
  rewrite (sync_account_body_after_exchange E fuel date_str a h h1 a1 r Hex).
  destruct r as [token | e |]; [| | contradiction].
  - destruct (negb (truthy token)).
    + eexists _, _, _. split; [reflexivity |]. split; [exact Hemp | reflexivity].
    + pose proof (fetch_paid_orders_total_finishes E fuel a1 token date_str h1
                    Hfuel) as Hfin.
      destruct (_fetch_paid_orders_total E fuel a1 token date_str h1)
        as [h2 [data | e |]]; cbn [snd] in Hfin; [| | contradiction].
      * destruct (float_gt0 (valor data)).
        -- rewrite upsert_faturamento_run.
           destruct (net E h2 _) as [e | res];
             eexists _, _, _; (split; [reflexivity |]);
             (split; [exact Hemp | reflexivity]).
        -- eexists _, _, _. split; [reflexivity |].
           split; [exact Hemp | reflexivity].
      * eexists _, _, _. unfold Eff.bind, Eff.gets, Eff.ret. cbn [snd].
        split; [reflexivity |]. split; [exact Hemp | reflexivity].
  - eexists _, _, _. unfold Eff.bind, Eff.gets, Eff.ret. cbn [snd].
    split; [reflexivity |]. split; [exact Hemp | reflexivity].
Qed.

Lemma sync_accounts_returns (E : env) fuel date_str accounts :
  (11 <= fuel)%nat ->
  forall h,
  exists h' accounts' results,
    sync_accounts E fuel date_str accounts h = (h', accounts', Return results)
    /\ map r_empresa results = map empresa accounts
    /\ Forall (fun r => r_date r = date_str) results
    /\ List.length accounts' = List.length accounts.
Proof.
  intros Hfuel. induction accounts as [| a rest IH]; intros h.
  - exists h, [], []. repeat split. constructor.
  - cbn [sync_accounts].
    destruct (sync_account_returns E fuel date_str a h Hfuel)
      as [h1 [a1 [r [Hrun [Hemp Hdate]]]]].
    rewrite Hrun.
    destruct (IH h1) as [h2 [rest' [rs [Hrest [Hmap [Hdates Hlen]]]]]].
    rewrite Hrest.
    exists h2, (a1 :: rest'), (r :: rs).
    split; [reflexivity |]. split; [cbn; rewrite Hemp, Hmap; reflexivity |].
    split; [constructor; assumption | cbn; rewrite Hlen; reflexivity].
Qed.

(** C4.  For one account of a run: when the exchange returns [None] the
    record is [token_error] and the run has issued neither an order search
    nor an upsert for the account; when the aggregated valor is greater
    than zero the upsert is issued, once, and the record is [synced] or
    [upsert_error] as the upsert's status is 2xx or not; when the aggregated
    valor is zero the record is [no_sales] and no upsert is issued. *)
Theorem sync_account_outcome
  (E : env) (fuel : nat) (date_str : string) (a : account)
  (h h1 : trace) (a1 : account) :
  (_get_access_token E (h, a) = ((h1, a1), Return VNone) ->
   sync_account E fuel date_str (h, a)
   = ((h1, a1),
      Return (OutcomeRecord (empresa a) date_str None None None
                            "token_error" None))
   /\ exists d, h1 = (h ++ d)%list
                /\ existsb is_orders_search d = false
                /\ existsb is_upsert d = false)
  /\ (forall token h2 data,
      _get_access_token E (h, a) = ((h1, a1), Return token) ->
      truthy token = true ->
      _fetch_paid_orders_total E fuel a1 token date_str h1
      = (h2, Return data) ->
      (exists d, h2 = (h ++ d)%list /\ existsb is_upsert d = false)
      /\ (float_gt0 (valor data) = true ->
          forall res,
            net E h2 (FaturamentoUpsert (empresa a) date_str (valor data))
            = Replies res ->
            sync_account E fuel date_str (h, a)
            = (((h2 ++ [FaturamentoUpsert (empresa a) date_str (valor data)])%list,
                a1),
               Return (OutcomeRecord
                         (empresa a) date_str (Some (valor data))
                         (Some (orders data)) (Some (fraud_skipped data))
                         (if (200 <=? status_code res)
                             && (status_code res <? 300)
                          then "synced" else "upsert_error")
                         None)))
      /\ (float_is_zero (valor data) = true ->
          sync_account E fuel date_str (h, a)
          = ((h2, a1),
             Return (OutcomeRecord
                       (empresa a) date_str (Some (valor data))
                       (Some (orders data)) (Some (fraud_skipped data))
                       "no_sales" None)))).
Proof.
  split.
  - intros Hex.
    destruct (get_access_token_footprint E a h h1 a1 _ Hex)
      as [_ [Hemp [_ Hd]]].
    split; [| exact Hd].
    unfold sync_account, Eff.try_except.
    rewrite (sync_account_body_after_exchange E fuel date_str a h h1 a1 _ Hex).
    cbn [truthy negb]. rewrite Hemp. reflexivity.
  - intros token h2 data Hex Htok Hfetch.
    destruct (get_access_token_footprint E a h h1 a1 _ Hex)
      as [_ [Hemp [_ [d1 [Hh1 [_ Hup1]]]]]].
    destruct (fetch_paid_orders_total_footprint E fuel a1 token date_str h1)
      as [_ [d2 [Hh2 Hup2]]].
    rewrite Hfetch in Hh2. cbn [fst] in Hh2.
    assert (Hbody := sync_account_body_after_exchange E fuel date_str a h h1 a1
                       _ Hex).
    cbv beta iota in Hbody.
    rewrite Htok, Hfetch in Hbody. cbn [negb] in Hbody.
    split; [| split].
    + exists (d1 ++ d2)%list. split.
      * rewrite Hh2, Hh1, app_assoc. reflexivity.
      * rewrite existsb_app, Hup1, Hup2. reflexivity.
    + intros Hgt res Hnet.
      unfold sync_account, Eff.try_except. rewrite Hbody, Hgt.
      rewrite upsert_faturamento_run, Hemp, Hnet. reflexivity.
    + intros Hzero.
      unfold sync_account, Eff.try_except. rewrite Hbody.
      rewrite (float_zero_not_gt0 _ Hzero), Hemp. reflexivity.
Qed.

(** C5.  With fuel for the whole pagination, [sync_all] returns one record
    per account of the list, in the list's order and under each account's
    [empresa], so the result is as long as the list; the same list is
    published as [_last_results].  An exception raised while an account is
    processed becomes that account's record, with status [error] and the
    exception's string, and the accounts after it are processed from the
    state it left. *)
Theorem sync_all_one_record_per_account
  (E : env) (fuel : nat) (accounts : list account) (h : trace) :
  (11 <= fuel)%nat ->
  (exists h' accounts' results,
      sync_all E fuel accounts h
      = (h', accounts',
         Return (results,
                 RunReport (Some (isoformat E (clock E h 0%nat))) results))
      /\ map r_empresa results = map empresa accounts
      /\ List.length results = List.length accounts
      /\ List.length accounts' = List.length accounts)
  /\ (forall date_str a h0 s e,
      sync_account_body E fuel date_str (h0, a) = (s, Throw e) ->
      sync_account E fuel date_str (h0, a)
      = (s, Return (OutcomeRecord (empresa a) date_str None None None
                                  "error" (Some (exn_str e)))))
  /\ (forall date_str a rest h0,
      exists h1 a1 r h2 rest' rs,
        sync_account E fuel date_str (h0, a) = ((h1, a1), Return r)
        /\ sync_accounts E fuel date_str rest h1 = (h2, rest', Return rs)
        /\ sync_accounts E fuel date_str (a :: rest) h0
           = (h2, a1 :: rest', Return (r :: rs))).
Proof.
  intros Hfuel. split; [| split].
  - unfold sync_all.
    destruct (sync_accounts_returns E fuel (strftime_ymd E (clock E h 0%nat))
                                    accounts Hfuel h)
      as [h' [accounts' [results [Hrun [Hmap [_ Hlen]]]]]].
    rewrite Hrun. exists h', accounts', results.
    split; [reflexivity |]. split; [exact Hmap |]. split; [| exact Hlen].
    rewrite <- (List.length_map r_empresa), Hmap, List.length_map. reflexivity.
  - intros date_str a h0 [h1 a1] e Hbody.
    unfold sync_account, Eff.try_except. rewrite Hbody.
    unfold Eff.bind, Eff.gets, Eff.ret. cbn [snd].
    destruct (_get_access_token E (h0, a)) as [[hx ax] rx] eqn:Hex.
    destruct (get_access_token_footprint E a h0 hx ax rx Hex)
      as [_ [Hemp _]].
    rewrite (sync_account_body_after_exchange E fuel date_str a h0 hx ax rx Hex)
      in Hbody.
    assert (Ha : a1 = ax).
    { destruct rx as [token | e0 |]; [| congruence | congruence].
      destruct (negb (truthy token)); [congruence |].
      destruct (_fetch_paid_orders_total E fuel ax token date_str hx)
        as [h2 [data | e0 |]]; [| congruence | congruence].
      destruct (float_gt0 (valor data)); [| congruence].
      destruct (_upsert_faturamento E (empresa ax) date_str (valor data) h2)
        as [h3 [ok | e0 |]]; congruence. }
    subst a1. rewrite Hemp. reflexivity.
  - intros date_str a rest h0.
    destruct (sync_account_returns E fuel date_str a h0 Hfuel)
      as [h1 [a1 [r [Hrun _]]]].
    destruct (sync_accounts_returns E fuel date_str rest Hfuel h1)
      as [h2 [rest' [rs [Hrest _]]]].
    exists h1, a1, r, h2, rest', rs.
    split; [exact Hrun |]. split; [exact Hrest |].
    cbn [sync_accounts]. rewrite Hrun, Hrest. reflexivity.
Qed.


(** *** The theorems at concrete inputs *)

Import Examples.

(** C1 on [happy_env]: the account ends with ["TG-new"] after one save. *)
Lemma get_access_token_rotates_witness :
  net happy_env [] (exchange_request acme)
  = Replies (Response 200
               (Some (VDict [("access_token", VStr "APP_USR-1");
                             ("refresh_token", VStr "TG-new")])) "")
  /\ exists payload h' a' r,
      _get_access_token happy_env ([], acme) = ((h', a'), r)
      /\ h' = [exchange_request acme; TokenSave payload]
      /\ dict_get payload "refresh_token" = Some (VStr "TG-new")
      /\ refresh_token a' = VStr "TG-new"
      /\ r = Return (VStr "APP_USR-1").
Proof.
  split; [reflexivity |].
  destruct (get_access_token_rotates
              happy_env acme [] ""
              [("access_token", VStr "APP_USR-1");
               ("refresh_token", VStr "TG-new")]
              (VStr "TG-new") eq_refl eq_refl eq_refl)
    as (payload & h' & a' & r & Hrun & Hh & _ & Hp & _ & Ha & _ & Hr).
  exists payload, h', a', r.
  repeat split; assumption.
Defined.

(** C2 on the zero-paid order: the fall-back branch applies. *)
Lemma process_order_spec_witness :
  flagged zero_paid_order = Ok false
  /\ lacks zero_paid_order "paid_amount"
  /\ process_order zero_totals (VDict zero_paid_order)
     = add_amount zero_totals (VInt 30).
Proof.
  split; [reflexivity |]. split; [reflexivity |].
  exact (proj2 (proj1 (proj2 (process_order_spec zero_totals zero_paid_order))
                      eq_refl) eq_refl).
Defined.

(** C3 on [greedy_env]: a reported total of a million still ends after the
    page at offset 500. *)
Lemma pagination_bounded_witness :
  (11 <= 11)%nat
  /\ (exists n r,
         (1 <= n <= 11)%nat
         /\ r <> OutOfFuel
         /\ fetch_loop greedy_env 11 acme (VStr "APP_USR-1") "from" "to"
                       zero_totals 0 []
            = (map (fun k => page_request acme (VStr "APP_USR-1") "from" "to"
                                          (50 * Z.of_nat k)) (seq 0 n), r)
         /\ forall k, In k (seq 0 n) -> 50 * Z.of_nat k <= 500)
  /\ fst (fetch_loop greedy_env 11 acme (VStr "APP_USR-1") "from" "to"
                     zero_totals 0 [])
     = map (page_request acme (VStr "APP_USR-1") "from" "to")
           [0; 50; 100; 150; 200; 250; 300; 350; 400; 450; 500]
  /\ process_page zero_totals 0 three_orders_page
     = Ok (Totals (of_Z 130) 2 1, 50, true)
  /\ (50 = 0 + 50
      /\ (true = true <-> 3 <= 50 \/ 500 < 50)
      /\ fetch_loop happy_env 1 acme (VStr "APP_USR-1") "from" "to"
                    zero_totals 0 []
         = ([page_request acme (VStr "APP_USR-1") "from" "to" 0],
            Return (Totals (of_Z 130) 2 1))).
Proof.
  split; [apply le_n |]. split; [| split; [| split]].
  - exact (proj1 (pagination_bounded greedy_env acme (VStr "APP_USR-1")
                                     "from" "to")
                 11%nat zero_totals [] (le_n 11)).
  - vm_compute. reflexivity.
  - vm_compute. reflexivity.
  - apply (proj2 (pagination_bounded happy_env acme (VStr "APP_USR-1")
                                     "from" "to")
                 0%nat zero_totals 0 []
                 (Response 200 (Some three_orders_page) "")
                 three_orders_page (Totals (of_Z 130) 2 1) 50 true 3);
      vm_compute; reflexivity.
Defined.


(** C4 on three servers: a refused exchange, the three-order page and an
    empty page. *)
Lemma sync_account_outcome_witness :
  (_get_access_token rejected_env ([], acme)
   = (([exchange_request acme], acme), Return VNone)
   /\ sync_account rejected_env 11 "2023-11-14" ([], acme)
      = (([exchange_request acme], acme),
         Return (OutcomeRecord "Acme Ltda" "2023-11-14" None None None
                               "token_error" None)))
  /\ (float_gt0 (of_Z 130) = true
      /\ r_status_of (sync_account happy_env 11 "2023-11-14" ([], acme))
         = Some "synced"
      /\ upserts_of (sync_account happy_env 11 "2023-11-14" ([], acme))
         = [FaturamentoUpsert "Acme Ltda" "2023-11-14" (of_Z 130)])
  /\ (float_is_zero fzero = true
      /\ r_status_of (sync_account bare_env 11 "2023-11-14" ([], acme))
         = Some "no_sales"
      /\ upserts_of (sync_account bare_env 11 "2023-11-14" ([], acme)) = []).
Proof.
  split; [| split].
  - split; [reflexivity |].
    exact (proj1 (proj1 (sync_account_outcome
                           rejected_env 11 "2023-11-14" acme []
                           [exchange_request acme] acme) eq_refl)).
  - split; [reflexivity |].
    pose proof (proj2 (sync_account_outcome
                   happy_env 11 "2023-11-14" acme []
                   (fst (fst (_get_access_token happy_env ([], acme))))
                   (set_refresh_token acme (VStr "TG-new")))
                 (VStr "APP_USR-1")
                 (fst (_fetch_paid_orders_total
                         happy_env 11
                         (set_refresh_token acme (VStr "TG-new"))
                         (VStr "APP_USR-1") "2023-11-14"
                         (fst (fst (_get_access_token happy_env ([], acme))))))
                 (Summary (of_Z 130) 2 1)
                 eq_refl eq_refl eq_refl) as [_ [Hsynced _]].
    specialize (Hsynced eq_refl (Response 201 None "") eq_refl).
    split; [exact (f_equal r_status_of Hsynced)
           | exact (f_equal upserts_of Hsynced)].
  - split; [reflexivity |].
    pose proof (proj2 (sync_account_outcome
                   bare_env 11 "2023-11-14" acme []
                   (fst (fst (_get_access_token bare_env ([], acme))))
                   (set_refresh_token acme (VStr "TG-new")))
                 (VStr "APP_USR-1")
                 (fst (_fetch_paid_orders_total
                         bare_env 11
                         (set_refresh_token acme (VStr "TG-new"))
                         (VStr "APP_USR-1") "2023-11-14"
                         (fst (fst (_get_access_token bare_env ([], acme))))))
                 (Summary fzero 0 0)
                 eq_refl eq_refl eq_refl) as [_ [_ Hnone]].
    specialize (Hnone eq_refl).
    split; [exact (f_equal r_status_of Hnone)
           | exact (f_equal upserts_of Hnone)].
Defined.


(** C5 on [flaky_env]: the second account's exchange raises, and the third
    account is synced all the same. *)
Lemma sync_all_one_record_per_account_witness :
  (11 <= 11)%nat
  /\ (exists h' accounts' results,
         sync_all flaky_env 11 [acme; bravo; charlie] []
         = (h', accounts',
            Return (results,
                    RunReport (Some "2023-11-14T19:13:20-03:00") results))
         /\ map r_empresa results = ["Acme Ltda"; "Bravo SA"; "Charlie ME"]
         /\ List.length results = 3%nat
         /\ List.length accounts' = 3%nat)
  /\ report_of (sync_all flaky_env 11 [acme; bravo; charlie] [])
     = [("Acme Ltda", "synced", None);
        ("Bravo SA", "error", Some "connection reset by peer");
        ("Charlie ME", "synced", None)]
  /\ (sync_account_body flaky_env 11 "2023-11-14" ([], bravo)
      = (([exchange_request bravo], bravo),
         Throw (Exn TransportError "connection reset by peer"))
      /\ sync_account flaky_env 11 "2023-11-14" ([], bravo)
         = (([exchange_request bravo], bravo),
            Return (OutcomeRecord "Bravo SA" "2023-11-14" None None None
                                  "error"
                                  (Some "connection reset by peer")))).
Proof.
  split; [apply le_n |]. split; [| split; [| split]].
  - exact (proj1 (sync_all_one_record_per_account
                    flaky_env 11 [acme; bravo; charlie] [] (le_n 11))).
  - vm_compute. reflexivity.
  - reflexivity.
  - exact (proj1 (proj2 (sync_all_one_record_per_account
                           flaky_env 11 [] [] (le_n 11)))
                 "2023-11-14" bravo [] _ _ eq_refl).
Defined.

(** C6 on [happy_env]. *)
Lemma three_orders_aggregate_witness :
  net happy_env []
      (page_request acme (VStr "APP_USR-1") (day_start "2023-11-14")
                    (day_end "2023-11-14") 0)
  = Replies (Response 200 (Some three_orders_page) "")
  /\ _fetch_paid_orders_total happy_env 11 acme (VStr "APP_USR-1")
                              "2023-11-14" []
     = ([page_request acme (VStr "APP_USR-1") (day_start "2023-11-14")
                      (day_end "2023-11-14") 0],
        Return (Summary (of_Z 130) 2 1)).
Proof.
  split; [reflexivity |].
  exact (proj1 (three_orders_aggregate happy_env 10 acme (VStr "APP_USR-1")
                                       "2023-11-14" [] "" eq_refl)).
Defined.

(** C7 on [failing_page_env]: the first page counts one order of 100 out
    of 120, the second page answers 500, and the result is that one order. *)
Lemma page_failure_keeps_partial_witness :
  (11 <= 11)%nat
  /\ pages_done failing_page_env acme (VStr "APP_USR-1")
                (day_start "2023-11-14") (day_end "2023-11-14")
                zero_totals 0 []
                (Totals (of_Z 100) 1 0) 50
                [page_request acme (VStr "APP_USR-1") (day_start "2023-11-14")
                              (day_end "2023-11-14") 0]
  /\ status_code (Response 500 None "Internal Server Error") <> 200
  /\ _fetch_paid_orders_total failing_page_env 11 acme (VStr "APP_USR-1")
                              "2023-11-14" []
     = ([page_request acme (VStr "APP_USR-1") (day_start "2023-11-14")
                      (day_end "2023-11-14") 0;
         page_request acme (VStr "APP_USR-1") (day_start "2023-11-14")
                      (day_end "2023-11-14") 50],
        Return (Summary (of_Z 100) 1 0)).
Proof.
  assert (Hdone :
            pages_done failing_page_env acme (VStr "APP_USR-1")
                       (day_start "2023-11-14") (day_end "2023-11-14")
                       zero_totals 0 []
                       (Totals (of_Z 100) 1 0) 50
                       [page_request acme (VStr "APP_USR-1")
                                     (day_start "2023-11-14")
                                     (day_end "2023-11-14") 0]).
  { eapply pages_done_cons with (res := Response 200 (Some first_page) "")
                                (data := first_page);
      [reflexivity | reflexivity | reflexivity
       | vm_compute; reflexivity | apply pages_done_nil]. }
  assert (Hst : status_code (Response 500 None "Internal Server Error") <> 200)
    by discriminate.
  split; [apply le_n |]. split; [exact Hdone |]. split; [exact Hst |].
  exact (page_failure_keeps_partial
           failing_page_env 11 acme (VStr "APP_USR-1") "2023-11-14" []
           (Totals (of_Z 100) 1 0) 50 _
           (Response 500 None "Internal Server Error")
           (le_n 11) Hdone eq_refl Hst).
Defined.

(** C8 on four stores: one holding a credential, one that is down, one with
    no row and one whose row holds null. *)
Lemma load_token_from_db_spec_witness :
  (net happy_env [] (TokenLoad "ACME")
   = Replies (Response 200
                (Some (VList [VDict [("refresh_token", VStr "TG-db")]])) "")
   /\ fst (_load_token_from_db happy_env "ACME" []) = [TokenLoad "ACME"]
   /\ snd (_load_token_from_db happy_env "ACME" []) = Return (VStr "TG-db"))
  /\ (status_code (Response 503 None "Service Unavailable") <> 200
      /\ snd (_load_token_from_db down_store_env "ACME" []) = Return VNone)
  /\ snd (_load_token_from_db cold_store_env "ACME" []) = Return VNone
  /\ (lacks [("refresh_token", VNone)] "refresh_token"
      /\ snd (_load_token_from_db null_store_env "ACME" []) = Return VNone).
Proof.
  assert (Hst : status_code (Response 503 None "Service Unavailable") <> 200)
    by discriminate.
  split; [| split; [| split]].
  - split; [reflexivity |].
    destruct (load_token_from_db_spec happy_env "ACME" [])
      as [Htrace [_ Hres]].
    split; [exact Htrace |].
    destruct (Hres _ eq_refl) as [_ [_ [_ Hstored]]].
    exact (Hstored [("refresh_token", VStr "TG-db")] [] (VStr "TG-db")
                   eq_refl eq_refl eq_refl eq_refl).
  - split; [exact Hst |].
    exact (proj1 (proj2 (proj2 (load_token_from_db_spec
                                  down_store_env "ACME" [])) _ eq_refl) Hst).
  - exact (proj1 (proj2 (proj2 (proj2 (load_token_from_db_spec
                                         cold_store_env "ACME" [])) _ eq_refl))
                 eq_refl eq_refl).
  - split; [reflexivity |].
    exact (proj1 (proj2 (proj2 (proj2 (proj2 (load_token_from_db_spec
                                                null_store_env "ACME" []))
                                      _ eq_refl)))
                 [("refresh_token", VNone)] [] eq_refl eq_refl eq_refl).
Defined.

(** C9 on a refused exchange, on one that issues no new credential, and on
    one that does: only the last changes the account. *)
Lemma get_access_token_frame_witness :
  (status_code (Response 400 (Some (VDict [("error", VStr "invalid_grant")]))
                         "invalid_grant") <> 200
   /\ _get_access_token rejected_env ([], acme)
      = (([exchange_request acme], acme), Return VNone))
  /\ (lacks [("access_token", VStr "APP_USR-1")] "refresh_token"
      /\ _get_access_token stingy_env ([], acme)
         = (([exchange_request acme], acme), Return (VStr "APP_USR-1")))
  /\ (snd (fst (_get_access_token happy_env ([], acme))) <> acme
      /\ exists txt d nr,
          net happy_env [] (exchange_request acme)
          = Replies (Response 200 (Some (VDict d)) txt)
          /\ dict_get d "refresh_token" = Some nr
          /\ truthy nr = true).
Proof.
  assert (Hst : status_code
                  (Response 400 (Some (VDict [("error", VStr "invalid_grant")]))
                            "invalid_grant") <> 200) by discriminate.
  assert (Hne : snd (fst (_get_access_token happy_env ([], acme))) <> acme)
    by discriminate.
  split; [| split].
  - split; [exact Hst |].
    exact (proj1 (proj2 (get_access_token_frame rejected_env acme []))
                 _ eq_refl Hst).
  - split; [exact I |].
    exact (proj1 (proj2 (proj2 (get_access_token_frame stingy_env acme [])))
                 "" [("access_token", VStr "APP_USR-1")] eq_refl I).
  - split; [exact Hne |].
    exact (proj2 (proj2 (proj2 (get_access_token_frame happy_env acme [])))
                 (fst (fst (_get_access_token happy_env ([], acme))))
                 (snd (fst (_get_access_token happy_env ([], acme))))
                 (snd (_get_access_token happy_env ([], acme)))
                 eq_refl (or_introl Hne)).
Defined.

(** C10 on [bare_env]: the empty object ends the aggregation with nothing
    counted. *)
Lemma aggregation_tolerates_missing_fields_witness :
  0 <= 0
  /\ net bare_env [] (page_request acme (VStr "APP_USR-1") "from" "to" 0)
     = Replies (Response 200 (Some (VDict [])) "")
  /\ fetch_loop bare_env 1 acme (VStr "APP_USR-1") "from" "to"
                zero_totals 0 []
     = ([page_request acme (VStr "APP_USR-1") "from" "to" 0],
        Return zero_totals)
  /\ process_order zero_totals (VDict [("paid_amount", VInt 7);
                                       ("tags", VNone)])
     = add_amount zero_totals (VInt 7).
Proof.
  split; [apply Z.le_refl |]. split; [reflexivity |]. split.
  - exact (proj2 (proj2 (proj2 aggregation_tolerates_missing_fields))
                 bare_env 0%nat acme (VStr "APP_USR-1") "from" "to"
                 zero_totals 0 [] "" [] [] zero_totals
                 (Z.le_refl 0) eq_refl (or_introl eq_refl)
                 (or_introl (conj eq_refl eq_refl)) eq_refl).
  - exact (proj2 (proj1 (proj2 aggregation_tolerates_missing_fields)
                        zero_totals
                        [("paid_amount", VInt 7); ("tags", VNone)]
                        (or_intror eq_refl))).
Defined.

End Facts.

(** ** Further properties *)

Module Coverage.
Import Py Http Eff Sync Spec Config Shapes Facts.
Local Open Scope eff_scope.

(** *** Strings *)

Lemma length_append (a b : string) :
  String.length (a ++ b)%string = (String.length a + String.length b)%nat.
Proof.
  induction a as [| c a IH]; [reflexivity |]. cbn. rewrite IH. reflexivity.
Qed.

Lemma prefix_append (p s : string) : String.prefix p (p ++ s)%string = true.
Proof.
  induction p as [| c p IH]; cbn.
  - destruct s; reflexivity.
  - destruct (ascii_dec c c) as [_ | Hne]; [exact IH | contradiction].
Qed.

Lemma substring_skip (a s : string) (n m : nat) :
  substring (String.length a + n) m (a ++ s)%string = substring n m s.
Proof.
  induction a as [| c a IH]; [reflexivity | exact IH].
Qed.

Lemma substring_take (a s : string) :
  substring 0 (String.length a) (a ++ s)%string = a.
Proof.
  induction a as [| c a IH]; cbn.
  - destruct s; reflexivity.
  - rewrite IH. reflexivity.
Qed.

Lemma substring_all (s : string) : substring 0 (String.length s) s = s.
Proof.
  induction s as [| c s IH]; cbn; [reflexivity | rewrite IH; reflexivity].
Qed.

(** A string is its first [a] characters followed by the rest. *)
Lemma substring_split (s : string) (a : nat) :
  (a <= String.length s)%nat ->
  s = (substring 0 a s ++ substring a (String.length s - a) s)%string.
Proof.
  revert a. induction s as [| c s IH]; intros a Ha.
  - cbn in Ha. assert (a = 0%nat) by lia. subst. reflexivity.
  - destruct a as [| a].
    + cbn. rewrite substring_all. reflexivity.
    + cbn. cbn in Ha. rewrite <- IH by lia. reflexivity.
Qed.

Lemma substring_substring_tail (s : string) (a b : nat) :
  (a + b <= String.length s)%nat ->
  substring a (String.length s - a) s
  = (substring a b s ++ substring (a + b) (String.length s - (a + b)) s)%string.
Proof.
  revert a. induction s as [| c s IH]; intros a Hab.
  - cbn in Hab. assert (a = 0%nat) by lia. assert (b = 0%nat) by lia.
    subst. reflexivity.
  - destruct a as [| a].
    + cbn [Nat.add]. rewrite Nat.sub_0_r.
      rewrite substring_all. apply substring_split. exact Hab.
    + cbn. cbn in Hab. apply IH. lia.
Qed.

Lemma prefix_substring (p s : string) :
  String.prefix p s = true -> substring 0 (String.length p) s = p.
Proof. apply prefix_correct. Qed.

Lemma prefix_length (p s : string) :
  String.prefix p s = true -> (String.length p <= String.length s)%nat.
Proof.
  revert s. induction p as [| c p IH]; intros s H; cbn; [lia |].
  destruct s as [| d s]; cbn in H; [discriminate |].
  destruct (ascii_dec c d); [| discriminate].
  cbn. apply IH in H. lia.
Qed.


(** *** Account discovery *)

Lemma meli_key_length n f :
  String.length (meli_key n f) = (5 + String.length n + String.length f)%nat.
Proof.
  unfold meli_key. cbn. rewrite length_append. lia.
Qed.

Lemma meli_key_discovered n :
  startswith (meli_key n "_APP_ID") "MELI_" = true
  /\ endswith (meli_key n "_APP_ID") "_APP_ID" = true
  /\ slice (meli_key n "_APP_ID") 5 7 = n.
Proof.
  split; [| split].
  - unfold startswith, meli_key. apply (prefix_append "MELI_").
  - unfold endswith. rewrite meli_key_length. cbn [String.length].
    apply andb_true_iff. split; [apply Nat.leb_le; lia |].
    replace (5 + String.length n + 7 - 7)%nat
      with (String.length ("MELI_" ++ n)%string + 0)%nat
      by (rewrite length_append; cbn; lia).
    unfold meli_key.
    replace ("MELI_" ++ n ++ "_APP_ID")%string
      with (("MELI_" ++ n) ++ "_APP_ID")%string by reflexivity.
    rewrite substring_skip. reflexivity.
  - unfold slice. rewrite meli_key_length. cbn [String.length].
    replace (5 + String.length n + 7 - 7 - 5)%nat with (String.length n) by lia.
    unfold meli_key.
    change 5%nat with (String.length "MELI_" + 0)%nat.
    rewrite substring_skip. apply substring_take.
Qed.

Lemma key_rebuilt key :
  startswith key "MELI_" = true ->
  endswith key "_APP_ID" = true ->
  (12 <= String.length key)%nat ->
  meli_key (slice key 5 7) "_APP_ID" = key.
Proof.
  unfold startswith, endswith, slice, meli_key. intros Hp He Hlen.
  apply andb_true_iff in He. destruct He as [_ He].
  apply String.eqb_eq in He. cbn [String.length] in He.
  apply prefix_substring in Hp. cbn [String.length] in Hp.
  rewrite (substring_split key 5) at 3 by lia.
  rewrite Hp. f_equal.
  rewrite (substring_substring_tail key 5 (String.length key - 7 - 5)) by lia.
  f_equal.
  replace (5 + (String.length key - 7 - 5))%nat
    with (String.length key - 7)%nat by lia.
  replace (String.length key - (String.length key - 7))%nat with 7%nat by lia.
  symmetry. exact He.
Qed.

(** X1.  The name is read back from the variable name it was written into:
    for every [n], ["MELI_" + n + "_APP_ID"] passes both tests of the first
    loop and its slice [5:-7] is [n]; and any variable name of twelve
    characters or more that passes the tests is rebuilt from its slice, so
    the [APP_ID] looked up for a discovered name is the variable it was
    discovered from. *)
Theorem account_name_round_trip :
  (forall n,
      startswith (meli_key n "_APP_ID") "MELI_" = true
      /\ endswith (meli_key n "_APP_ID") "_APP_ID" = true
      /\ slice (meli_key n "_APP_ID") 5 7 = n)
  /\ (forall key,
      startswith key "MELI_" = true ->
      endswith key "_APP_ID" = true ->
      (12 <= String.length key)%nat ->
      meli_key (slice key 5 7) "_APP_ID" = key).
Proof.
  split; [exact meli_key_discovered | exact key_rebuilt].
Qed.


Lemma str_lt_trans a b c : str_lt a b -> str_lt b c -> str_lt a c.
Proof.
  unfold str_lt. intros H1 H2.
  apply String_as_OT.cmp_lt. apply String_as_OT.cmp_lt in H1, H2.
  eapply String_as_OT.lt_trans; eassumption.
Qed.

Lemma str_lt_irrefl a : ~ str_lt a a.
Proof.
  unfold str_lt. intros H.
  assert (Heq : String.compare a a = Eq)
    by (apply String_as_OT.cmp_eq; reflexivity).
  congruence.
Qed.

Lemma compare_Gt_lt a b : String.compare a b = Gt -> str_lt b a.
Proof.
  unfold str_lt. intros H. rewrite String.compare_antisym, H. reflexivity.
Qed.

Lemma insert_name_In n x l : In n (insert_name x l) <-> n = x \/ In n l.
Proof.
  induction l as [| y l IH]; cbn.
  - intuition congruence.
  - destruct (String.compare x y) eqn:Hc; cbn.
    + apply String_as_OT.cmp_eq in Hc. subst y. intuition congruence.
    + intuition congruence.
    + rewrite IH. intuition congruence.
Qed.

Lemma sorted_set_In n l : In n (sorted_set l) <-> In n l.
Proof.
  induction l as [| x l IH]; cbn; [reflexivity |].
  rewrite insert_name_In, IH. intuition congruence.
Qed.

Lemma insert_name_HdRel x n l :
  HdRel str_lt x l -> str_lt x n -> HdRel str_lt x (insert_name n l).
Proof.
  intros Hhd Hlt. destruct l as [| y l]; cbn.
  - constructor. exact Hlt.
  - inversion Hhd; subst.
    destruct (String.compare n y); constructor; assumption.
Qed.

Lemma insert_name_Sorted n l :
  Sorted str_lt l -> Sorted str_lt (insert_name n l).
Proof.
  induction l as [| y l IH]; intros Hs; cbn.
  - repeat constructor.
  - inversion Hs as [| ? ? Hs' Hhd]; subst.
    destruct (String.compare n y) eqn:Hc.
    + exact Hs.
    + constructor; [exact Hs | constructor; exact Hc].
    + constructor; [apply IH; exact Hs' |].
      apply insert_name_HdRel; [exact Hhd | apply compare_Gt_lt; exact Hc].
Qed.

Lemma sorted_set_Sorted l : StronglySorted str_lt (sorted_set l).
Proof.
  apply Sorted_StronglySorted; [exact str_lt_trans |].
  induction l as [| x l IH]; cbn; [constructor |].
  apply insert_name_Sorted. exact IH.
Qed.

Lemma discover_In n keys :
  In n (discover keys)
  <-> exists key, In key keys
                  /\ startswith key "MELI_" = true
                  /\ endswith key "_APP_ID" = true
                  /\ slice key 5 7 = n.
Proof.
  induction keys as [| k keys IH]; cbn [discover].
  - split; [intros [] | intros [key [[] _]]].
  - destruct (startswith k "MELI_" && endswith k "_APP_ID") eqn:Ht.
    + apply andb_true_iff in Ht. destruct Ht as [Hs He].
      cbn [In]. rewrite IH. split.
      * intros [Heq | [key [Hin Hk]]].
        -- exists k. split; [left; reflexivity |]. repeat split; assumption.
        -- exists key. split; [right; exact Hin | exact Hk].
      * intros [key [[Heq | Hin] [Hs' [He' Hsl]]]].
        -- subst key. left. exact Hsl.
        -- right. exists key. repeat split; assumption.
    + rewrite IH. split.
      * intros [key [Hin Hk]]. exists key. split; [right; exact Hin | exact Hk].
      * intros [key [[Heq | Hin] [Hs' [He' Hsl]]]].
        -- subst key. rewrite Hs', He' in Ht. discriminate.
        -- exists key. repeat split; assumption.
Qed.

Lemma getenv_In env k v : getenv env k = Some v -> In k (map fst env).
Proof.
  induction env as [| [k' v'] env IH]; cbn; [discriminate |].
  destruct (String.eqb k' k) eqn:Hk.
  - apply String.eqb_eq in Hk. intros _. left. exact Hk.
  - intros H. right. apply IH. exact H.
Qed.

Lemma present_Some v : present v = true <-> exists s, v = Some s /\ s <> "".
Proof.
  destruct v as [s |]; cbn.
  - rewrite negb_true_iff, String.eqb_neq. split.
    + intros H. exists s. split; [reflexivity | exact H].
    + intros [s' [Heq H]]. inversion Heq; subst. exact H.
  - split; [discriminate | intros [s [H _]]; discriminate].
Qed.

(** The account built for a name, when its four credentials are set and
    not empty. *)
Lemma account_of_Some env n a :
  account_of env n = Some a
  <-> exists app sec ref uid,
      getenv env (meli_key n "_APP_ID") = Some app /\ app <> ""
      /\ getenv env (meli_key n "_SECRET_KEY") = Some sec /\ sec <> ""
      /\ getenv env (meli_key n "_REFRESH_TOKEN") = Some ref /\ ref <> ""
      /\ getenv env (meli_key n "_USER_ID") = Some uid /\ uid <> ""
      /\ a = Account n
                     (match getenv env (empresa_key n) with
                      | Some e => e
                      | None => n
                      end)
                     app sec (VStr ref) uid.
Proof.
  unfold account_of. split.
  - destruct (present (getenv env (meli_key n "_APP_ID"))) eqn:H1;
      [| discriminate].
    destruct (present (getenv env (meli_key n "_SECRET_KEY"))) eqn:H2;
      [| discriminate].
    destruct (present (getenv env (meli_key n "_REFRESH_TOKEN"))) eqn:H3;
      [| discriminate].
    destruct (present (getenv env (meli_key n "_USER_ID"))) eqn:H4;
      [| discriminate].
    apply present_Some in H1, H2, H3, H4.
    destruct H1 as [app [E1 N1]], H2 as [sec [E2 N2]],
             H3 as [ref [E3 N3]], H4 as [uid [E4 N4]].
    rewrite E1, E2, E3, E4. cbn. intros Heq. inversion Heq; subst.
    exists app, sec, ref, uid. repeat split; assumption.
  - intros [app [sec [ref [uid [E1 [N1 [E2 [N2 [E3 [N3 [E4 [N4 Ha]]]]]]]]]]]].
    rewrite E1, E2, E3, E4. cbn.
    apply String.eqb_neq in N1, N2, N3, N4.
    rewrite N1, N2, N3, N4. cbn. subst a. reflexivity.
Qed.

Lemma account_of_name env n a : account_of env n = Some a -> name a = n.
Proof.
  intros H. apply account_of_Some in H.
  destruct H as [app [sec [ref [uid H]]]].
  decompose [and] H. subst a. reflexivity.
Qed.

Lemma collect_In env names a :
  In a (collect env names)
  <-> exists n, In n names /\ account_of env n = Some a.
Proof.
  induction names as [| x names IH]; cbn [collect].
  - split; [intros [] | intros [n [[] _]]].
  - destruct (account_of env x) as [b |] eqn:Hx; cbn [In]; rewrite IH; split.
    + intros [Heq | [n [Hin Hn]]].
      * subst b. exists x. split; [left; reflexivity | exact Hx].
      * exists n. split; [right; exact Hin | exact Hn].
    + intros [n [[Heq | Hin] Hn]].
      * subst n. left. congruence.
      * right. exists n. split; assumption.
    + intros [n [Hin Hn]]. exists n. split; [right; exact Hin | exact Hn].
    + intros [n [[Heq | Hin] Hn]].
      * subst n. congruence.
      * exists n. split; assumption.
Qed.

Lemma collect_sorted env names :
  StronglySorted str_lt names ->
  StronglySorted name_lt (collect env names).
Proof.
  induction names as [| x names IH]; intros Hs; cbn [collect].
  - constructor.
  - inversion Hs as [| ? ? Hs' Hall]; subst.
    destruct (account_of env x) as [b |] eqn:Hx; [| apply IH; exact Hs'].
    constructor; [apply IH; exact Hs' |].
    apply Forall_forall. intros c Hc.
    apply collect_In in Hc. destruct Hc as [n [Hin Hn]].
    unfold name_lt.
    rewrite (account_of_name _ _ _ Hx), (account_of_name _ _ _ Hn).
    rewrite Forall_forall in Hall. apply Hall. exact Hin.
Qed.

Lemma strongly_sorted_NoDup (l : list account) :
  StronglySorted name_lt l -> NoDup (map name l).
Proof.
  induction 1 as [| a l Hs IH Hall]; cbn; constructor; [| exact IH].
  intros Hin. apply in_map_iff in Hin. destruct Hin as [b [Hb Hinb]].
  rewrite Forall_forall in Hall. specialize (Hall b Hinb).
  unfold name_lt in Hall. rewrite Hb in Hall.
  exact (str_lt_irrefl _ Hall).
Qed.

(** X2.  [_load_accounts] returns exactly the accounts whose four
    credentials are set and not empty in the environment: an account is in
    the list if and only if [MELI_<name>_APP_ID], [_SECRET_KEY],
    [_REFRESH_TOKEN] and [_USER_ID] are all set to non-empty values, and its
    fields are those values, with [ACCOUNT_<name>_EMPRESA] as empresa, or
    the name itself when that variable is not set. *)
Theorem load_accounts_membership (env : environ) (a : account) :
  In a (_load_accounts env)
  <-> exists app sec ref uid,
      getenv env (meli_key (name a) "_APP_ID") = Some app /\ app <> ""
      /\ getenv env (meli_key (name a) "_SECRET_KEY") = Some sec /\ sec <> ""
      /\ getenv env (meli_key (name a) "_REFRESH_TOKEN") = Some ref
      /\ ref <> ""
      /\ getenv env (meli_key (name a) "_USER_ID") = Some uid /\ uid <> ""
      /\ a = Account (name a)
                     (match getenv env (empresa_key (name a)) with
                      | Some e => e
                      | None => name a
                      end)
                     app sec (VStr ref) uid.
Proof.
  unfold _load_accounts. rewrite collect_In. split.
  - intros [n [_ Hn]].
    pose proof (account_of_name _ _ _ Hn) as Hname. subst n.
    apply account_of_Some. exact Hn.
  - intros H. exists (name a). split.
    + apply sorted_set_In. apply discover_In.
      exists (meli_key (name a) "_APP_ID").
      destruct H as [app [sec [ref [uid [E1 _]]]]].
      split; [eapply getenv_In; exact E1 |].
      apply meli_key_discovered.
    + apply account_of_Some. exact H.
Qed.

(** X3.  The accounts [_load_accounts] returns are in strictly increasing
    order of name, so no name occurs twice. *)
Theorem load_accounts_sorted (env : environ) :
  StronglySorted name_lt (_load_accounts env)
  /\ NoDup (map name (_load_accounts env)).
Proof.
  assert (Hs : StronglySorted name_lt (_load_accounts env)).
  { unfold _load_accounts. apply collect_sorted. apply sorted_set_Sorted. }
  split; [exact Hs | apply strongly_sorted_NoDup; exact Hs].
Qed.


(** *** The aggregator's accumulators *)

Lemma process_order_counts acc order acc' :
  process_order acc order = Ok acc' ->
  (order_count acc' = order_count acc + 1
   /\ fraud_count acc' = fraud_count acc)
  \/ (order_count acc' = order_count acc
      /\ fraud_count acc' = fraud_count acc + 1
      /\ total_valor acc' = total_valor acc).
Proof.
  unfold process_order.
  destruct (get order "tags" VNone) as [tags | e]; [| discriminate].
  cbn [Py.bind].
  destruct (contains fraud_marker (py_or tags (VList []))) as [[|] | e];
    cbn [Py.bind]; [| | discriminate].
  - intros H. inversion H; subst. right. repeat split.
  - destruct (get order "paid_amount" (VInt 0)) as [paid | e]; [| discriminate].
    cbn [Py.bind].
    destruct (if truthy paid then Ok paid
              else get order "total_amount" (VInt 0)) as [amount | e];
      [| discriminate].
    cbn [Py.bind].
    destruct (float_add (total_valor acc) amount) as [t | e]; [| discriminate].
    cbn [Py.bind]. intros H. inversion H; subst. left. split; reflexivity.
Qed.

Lemma process_orders_counts l :
  forall acc acc',
    process_orders acc l = Ok acc' ->
    order_count acc' + fraud_count acc'
    = order_count acc + fraud_count acc + Z.of_nat (List.length l)
    /\ order_count acc <= order_count acc'
    /\ fraud_count acc <= fraud_count acc'.
Proof.
  induction l as [| o l IH]; intros acc acc' H.
  - cbn in H. inversion H; subst. cbn. lia.
  - cbn [process_orders] in H.
    destruct (process_order acc o) as [acc1 | e] eqn:Ho; [| discriminate].
    cbn [Py.bind] in H. apply IH in H.
    apply process_order_counts in Ho.
    cbn [List.length]. lia.
Qed.

Lemma process_page_counts acc offset data acc' offset' stop :
  process_page acc offset data = Ok (acc', offset', stop) ->
  order_count acc <= order_count acc' /\ fraud_count acc <= fraud_count acc'.
Proof.
  unfold process_page.
  destruct (get data "results" (VList [])) as [results | e]; [| discriminate].
  cbn [Py.bind]. destruct (iter results) as [l | e]; [| discriminate].
  cbn [Py.bind].
  destruct (process_orders acc l) as [acc1 | e] eqn:Hl; [| discriminate].
  cbn [Py.bind]. destruct (total_results data) as [t | e]; [| discriminate].
  cbn [Py.bind].
  destruct (int_ge (offset + limit) t) as [reached | e]; [| discriminate].
  cbn [Py.bind]. intros H. inversion H; subst.
  apply process_orders_counts in Hl. lia.
Qed.

Lemma fetch_loop_counts (E : env) a tok date_from date_to fuel :
  forall acc offset h h' acc',
    fetch_loop E fuel a tok date_from date_to acc offset h = (h', Return acc') ->
    order_count acc <= order_count acc' /\ fraud_count acc <= fraud_count acc'.
Proof.
  induction fuel as [| fuel IH]; intros acc offset h h' acc' Hrun.
  - cbn in Hrun. inversion Hrun.
  - rewrite fetch_loop_S in Hrun. cbv zeta in Hrun.
    destruct (net E h _) as [e | res]; [inversion Hrun |].
    destruct (negb (status_code res =? 200)).
    { inversion Hrun; subst. lia. }
    destruct (json res) as [data | e]; [| inversion Hrun].
    destruct (process_page acc offset data) as [[[acc1 offset1] stop] | e] eqn:Hp;
      [| inversion Hrun].
    apply process_page_counts in Hp.
    destruct stop.
    + inversion Hrun; subst. exact Hp.
    + apply IH in Hrun. lia.
Qed.

Lemma fetch_paid_orders_total_nonneg (E : env) fuel a tok date_str h h' data :
  _fetch_paid_orders_total E fuel a tok date_str h = (h', Return data) ->
  0 <= orders data /\ 0 <= fraud_skipped data.
Proof.
  unfold _fetch_paid_orders_total. unfold Eff.bind, Eff.ret.
  destruct (fetch_loop E fuel a tok _ _ zero_totals 0 h)
    as [h1 [acc | e |]] eqn:Hrun; intros H; inversion H; subst.
  apply fetch_loop_counts in Hrun. cbn in *. lia.
Qed.

(** X4.  No order of a page is lost: when [process_orders] gets through a
    list, the orders counted and the orders skipped for fraud grow together
    by the length of the list, and neither count decreases.  Hence both
    counts that [_fetch_paid_orders_total] returns are non-negative. *)
Theorem order_counts_conserved :
  (forall acc l acc',
      process_orders acc l = Ok acc' ->
      order_count acc' + fraud_count acc'
      = order_count acc + fraud_count acc + Z.of_nat (List.length l)
      /\ order_count acc <= order_count acc'
      /\ fraud_count acc <= fraud_count acc')
  /\ (forall (E : env) fuel a tok date_str h h' data,
      _fetch_paid_orders_total E fuel a tok date_str h = (h', Return data) ->
      0 <= orders data /\ 0 <= fraud_skipped data).
Proof.
  split.
  - intros acc l acc'. apply process_orders_counts.
  - intros E fuel a tok date_str h h' data.
    apply fetch_paid_orders_total_nonneg.
Qed.

Lemma process_order_flagged acc order :
  is_flagged order ->
  process_order acc order
  = Ok (Totals (total_valor acc) (order_count acc) (fraud_count acc + 1)).
Proof.
  intros [d [-> Hf]]. rewrite process_order_dict, Hf. reflexivity.
Qed.

(** X5.  The amounts of flagged orders are never read: a list of orders
    that all pass the fraud test leaves the total and the order count as
    they were and adds its length to the fraud count, whatever the orders
    carry as [paid_amount] or [total_amount]. *)
Theorem flagged_orders_only_counted (acc : totals) (l : list value) :
  Forall is_flagged l ->
  process_orders acc l
  = Ok (Totals (total_valor acc) (order_count acc)
               (fraud_count acc + Z.of_nat (List.length l))).
Proof.
  revert acc. induction l as [| o l IH]; intros acc Hall.
  - cbn. rewrite Z.add_0_r. destruct acc; reflexivity.
  - inversion Hall as [| ? ? Ho Hl]; subst.
    cbn [process_orders]. rewrite (process_order_flagged acc o Ho).
    cbn [Py.bind]. rewrite (IH _ Hl). cbn [total_valor order_count fraud_count].
    f_equal. f_equal. cbn [List.length]. lia.
Qed.


Lemma process_orders_app l1 :
  forall acc l2,
    process_orders acc (l1 ++ l2)%list
    = (acc1 <- process_orders acc l1 ;; process_orders acc1 l2)%py.
Proof.
  induction l1 as [| o l1 IH]; intros acc l2; cbn [process_orders app].
  - reflexivity.
  - destruct (process_order acc o) as [acc1 | e]; cbn [Py.bind];
      [apply IH | reflexivity].
Qed.

Lemma float_add_not_a_number t v :
  not_a_number v ->
  exists e, float_add t v = Raise e /\ exn_cls e = TypeError.
Proof.
  destruct v; cbn; intros H; try contradiction;
    eexists; split; reflexivity.
Qed.

(** X6.  An amount that is not a number is not skipped: when an order that
    is not flagged carries null, a string, a list or an object as the amount
    to add, the whole page raises [TypeError].  The loop then ends with that
    exception right after the page's request, and the totals gathered on
    earlier pages are not returned. *)
Theorem malformed_amount_raises
  (E : env) (fuel : nat) (a : account) (tok : value)
  (date_from date_to : string) (acc : totals) (offset : Z) (h : trace)
  (txt : string) (page : list (string * value))
  (l1 l2 : list value) (d : list (string * value)) (acc1 : totals) :
  net E h (page_request a tok date_from date_to offset)
  = Replies (Response 200 (Some (VDict page)) txt) ->
  dict_get page "results" = Some (VList (l1 ++ VDict d :: l2)%list) ->
  process_orders acc l1 = Ok acc1 ->
  flagged d = Ok false ->
  not_a_number (amount_of d) ->
  exists e,
    exn_cls e = TypeError
    /\ fetch_loop E (S fuel) a tok date_from date_to acc offset h
       = ((h ++ [page_request a tok date_from date_to offset])%list, Throw e).
Proof.
  intros Hnet Hres Hl1 Hf Hnan.
  destruct (float_add_not_a_number (total_valor acc1) _ Hnan) as [e [He Hcls]].
  exists e. split; [exact Hcls |].
  rewrite fetch_loop_S. cbv zeta.
  rewrite Hnet. cbn [status_code Z.eqb Pos.eqb negb json body].
  unfold process_page. cbn [get]. rewrite Hres. cbn [Py.bind iter].
  rewrite process_orders_app, Hl1. cbn [Py.bind process_orders].
  rewrite process_order_dict, Hf. cbn [Py.bind].
  unfold add_amount. rewrite He. reflexivity.
Qed.

(** *** Rounding *)

Lemma binary_round_aux_sign sx mx ex lx :
  sx = true ->
  float_gt0 (binary_round_aux prec emax sx mx ex lx) = false.
Proof.
  intros ->. unfold binary_round_aux.
  destruct (shr_fexp prec emax mx ex lx) as [mrs' e'].
  destruct (shr_fexp prec emax _ e' loc_Exact) as [mrs'' e''].
  destruct (shr_m mrs'') as [| m | m]; try reflexivity.
  destruct (e'' <=? emax - prec); reflexivity.
Qed.

Lemma round2_positive x :
  float_gt0 (round2 x) = true -> float_gt0 x = true.
Proof.
  destruct x as [s | s | | s m e]; cbn [round2]; try (intros H; exact H).
  destruct s; [| reflexivity].
  intros H. exfalso.
  destruct (if 0 <=? e then Z.pos m * 100 * 2 ^ e
            else round_half_even_div (Z.pos m * 100) (2 ^ (- e)))
    as [| n | n]; try discriminate.
  unfold SFdiv in H.
  destruct (SFdiv_core_binary prec emax (Z.pos n) 0 100 0) as [[mz ez] lz].
  rewrite binary_round_aux_sign in H by reflexivity. discriminate.
Qed.

(** X7.  Rounding never turns a total that is not positive into a positive
    valor: if the valor of the returned summary is greater than zero, so was
    the unrounded running total.  A zero, negative or NaN total therefore
    never leads to an upsert. *)
Theorem positive_valor_from_positive_total (acc : totals) :
  float_gt0 (valor (summarize acc)) = true ->
  float_gt0 (total_valor acc) = true.
Proof.
  unfold summarize. cbn [valor]. apply round2_positive.
Qed.


(** *** The requests of a run *)

Lemma fetch_paid_orders_total_pages (E : env) fuel a tok date_str h :
  exists n,
    (n <= 11)%nat
    /\ fst (_fetch_paid_orders_total E fuel a tok date_str h)
       = (h ++ map (fun k => OrdersSearch (user_id a) (day_start date_str)
                                          (day_end date_str) limit
                                          (50 * Z.of_nat k) tok)
                   (seq 0 n))%list.
Proof.
  destruct (fetch_paid_orders_total_footprint E fuel a tok date_str h)
    as [Hfst _].
  destruct (fetch_loop_trace E a tok (day_start date_str) (day_end date_str)
                             fuel zero_totals 0 h) as [n [_ [_ [Htr Hb]]]].
  exists n. split.
  - destruct n as [| n]; [lia |].
    assert (H : 0 + 50 * (Z.of_nat (S n) - 1) <= 500) by (apply Hb; lia).
    lia.
  - rewrite Hfst, Htr. reflexivity.
Qed.

Lemma rotated_identity a a' : rotated a a' -> same_identity a a'.
Proof.
  intros [-> | [nr ->]]; repeat split.
Qed.

(** One account's turn, request by request. *)
Lemma sync_account_shape (E : env) fuel date_str a h h' a' r :
  sync_account E fuel date_str (h, a) = ((h', a'), r) ->
  rotated a a'
  /\ exists d, h' = (h ++ d)%list /\ account_requests date_str a d.
Proof.
  intros Hrun.
  unfold sync_account, Eff.try_except in Hrun.
  destruct (_get_access_token E (h, a)) as [[h1 a1] r1] eqn:Hex.
  rewrite (sync_account_body_after_exchange E fuel date_str a h h1 a1 r1 Hex)
    in Hrun.
  assert (Htok : rotated a a1
                 /\ exists saves,
                     h1 = (h ++ exchange_request a :: saves)%list
                     /\ (saves = [] \/ exists payload, saves = [TokenSave payload])).
  { destruct (get_access_token_cases E a h)
      as [[r0 [_ Heq]] | [payload [nr [r0 [_ Heq]]]]];
      rewrite Heq in Hex; inversion Hex; subst.
    - split; [left; reflexivity |]. exists [].
      split; [reflexivity | left; reflexivity].
    - split; [right; exists nr; reflexivity |].
      exists [TokenSave payload].
      split; [reflexivity | right; eexists; reflexivity]. }
  destruct Htok as [Hrot [saves [Hh1 Hsaves]]].
  assert (Huid : user_id a1 = user_id a /\ empresa a1 = empresa a).
  { destruct Hrot as [-> | [nr ->]]; split; reflexivity. }
  destruct Huid as [Huid Hemp].
  (* the turn ends in the state the exchange left *)
  assert (Hstop : h' = h1 /\ a' = a1 ->
                  rotated a a'
                  /\ exists d, h' = (h ++ d)%list
                               /\ account_requests date_str a d).
  { intros [-> ->]. split; [exact Hrot |].
    exists (exchange_request a :: saves). split; [exact Hh1 |].
    exists saves, [], []. split; [rewrite !app_nil_r; reflexivity |].
    split; [exact Hsaves |]. split; [| left; reflexivity].
    exists VNone, 0%nat. split; [lia | reflexivity]. }
  destruct r1 as [token | e |];
    [| apply Hstop; unfold Eff.bind, Eff.gets, Eff.ret in Hrun;
       cbn [snd] in Hrun; inversion Hrun; split; reflexivity
     | apply Hstop; inversion Hrun; split; reflexivity].
  destruct (negb (truthy token));
    [apply Hstop; inversion Hrun; split; reflexivity |].
  clear Hstop.
  destruct (fetch_paid_orders_total_pages E fuel a1 token date_str h1)
    as [n [Hn Hpages]].
  destruct (_fetch_paid_orders_total E fuel a1 token date_str h1)
    as [h2 rf] eqn:Hfetch.
  cbn [fst] in Hpages. rewrite Huid in Hpages.
  (* the turn ends in the state the aggregation left *)
  assert (Hstop : h' = h2 /\ a' = a1 ->
                  rotated a a'
                  /\ exists d, h' = (h ++ d)%list
                               /\ account_requests date_str a d).
  { intros [-> ->]. split; [exact Hrot |].
    eexists. split.
    - rewrite Hpages, Hh1, <- app_assoc. reflexivity.
    - exists saves,
        (map (fun k => OrdersSearch (user_id a) (day_start date_str)
                                    (day_end date_str) limit
                                    (50 * Z.of_nat k) token) (seq 0 n)),
        []. split; [rewrite app_nil_r; reflexivity |].
      split; [exact Hsaves |]. split; [| left; reflexivity].
      exists token, n. split; [exact Hn | reflexivity]. }
  destruct rf as [data | e |];
    [| apply Hstop; unfold Eff.bind, Eff.gets, Eff.ret in Hrun;
       cbn [snd] in Hrun; inversion Hrun; split; reflexivity
     | apply Hstop; inversion Hrun; split; reflexivity].
  destruct (float_gt0 (valor data)) eqn:Hgt;
    [| apply Hstop; inversion Hrun; split; reflexivity].
  clear Hstop.
  rewrite upsert_faturamento_run in Hrun.
  assert (Hst : h' = (h2 ++ [FaturamentoUpsert (empresa a1) date_str
                                               (valor data)])%list
                /\ a' = a1).
  { destruct (net E h2 _) as [e | res].
    - unfold Eff.bind, Eff.gets, Eff.ret in Hrun. cbn [snd] in Hrun.
      inversion Hrun; split; reflexivity.
    - inversion Hrun; split; reflexivity. }
  destruct Hst as [-> ->]. split; [exact Hrot |].
  exists (exchange_request a
          :: saves
          ++ map (fun k => OrdersSearch (user_id a) (day_start date_str)
                                        (day_end date_str) limit
                                        (50 * Z.of_nat k) token) (seq 0 n)
          ++ [FaturamentoUpsert (empresa a) date_str (valor data)])%list.
  split.
  - rewrite Hpages, Hh1, Hemp, <- !app_assoc. reflexivity.
  - eexists saves, _, _. split; [reflexivity |].
    split; [exact Hsaves |]. split.
    + exists token, n. split; [exact Hn | reflexivity].
    + right. exists (valor data). split; [exact Hgt | reflexivity].
Qed.


Lemma account_requests_length date_str a d :
  account_requests date_str a d ->
  (1 <= List.length d <= 14)%nat.
Proof.
  intros [saves [pages [ups [-> [Hs [[tok [n [Hn ->]]] Hu]]]]]].
  cbn [List.length]. rewrite !length_app, length_map, length_seq.
  assert (List.length saves <= 1)%nat
    by (destruct Hs as [-> | [p ->]]; cbn; lia).
  assert (List.length ups <= 1)%nat
    by (destruct Hu as [-> | [v [_ ->]]]; cbn; lia).
  lia.
Qed.


(** A whole run, account by account. *)
Lemma sync_accounts_deltas (E : env) fuel date_str accounts :
  (11 <= fuel)%nat ->
  forall h,
  exists h' accounts' results deltas,
    sync_accounts E fuel date_str accounts h = (h', accounts', Return results)
    /\ h' = (h ++ List.concat deltas)%list
    /\ Forall2 (account_requests date_str) accounts deltas
    /\ Forall2 rotated accounts accounts'.
Proof.
  intros Hfuel. induction accounts as [| a rest IH]; intros h.
  - exists h, [], [], []. cbn. rewrite app_nil_r.
    repeat split; constructor.
  - cbn [sync_accounts].
    destruct (sync_account_returns E fuel date_str a h Hfuel)
      as [h1 [a1 [r [Hrun _]]]].
    destruct (sync_account_shape E fuel date_str a h h1 a1 _ Hrun)
      as [Hrot [d [Hh1 Hd]]].
    rewrite Hrun.
    destruct (IH h1) as [h2 [rest' [rs [ds [Hrest [Hh2 [Hds Hrots]]]]]]].
    rewrite Hrest.
    exists h2, (a1 :: rest'), (r :: rs), (d :: ds).
    split; [reflexivity |]. split.
    + rewrite Hh2, Hh1. cbn [List.concat]. rewrite app_assoc. reflexivity.
    + split; constructor; assumption.
Qed.

Lemma sync_all_deltas (E : env) fuel accounts h :
  (11 <= fuel)%nat ->
  exists accounts' deltas,
    fst (sync_all E fuel accounts h) = ((h ++ List.concat deltas)%list, accounts')
    /\ Forall2 (account_requests (strftime_ymd E (clock E h 0%nat)))
               accounts deltas
    /\ Forall2 rotated accounts accounts'.
Proof.
  intros Hfuel. unfold sync_all.
  destruct (sync_accounts_deltas E fuel (strftime_ymd E (clock E h 0%nat))
                                 accounts Hfuel h)
    as [h' [accounts' [results [deltas [Hrun [Hh [Hds Hrot]]]]]]].
  rewrite Hrun. exists accounts', deltas. cbn [fst]. rewrite Hh.
  repeat split; assumption.
Qed.

(** X8.  The requests of one account's turn come in a fixed order: the
    token exchange first, then at most one credential save, then the order
    searches at offsets 0, 50, ..., at most eleven of them and all with the
    same bearer token, then at most one ledger upsert, whose valor is
    greater than zero.  A turn thus issues between one and fourteen
    requests, and leaves the account as it was or with a new
    [refresh_token] only. *)
Theorem sync_account_request_order
  (E : env) (fuel : nat) (date_str : string) (a : account) (h : trace)
  (h' : trace) (a' : account) (r : outcome outcome_record) :
  sync_account E fuel date_str (h, a) = ((h', a'), r) ->
  rotated a a'
  /\ exists d,
      h' = (h ++ d)%list
      /\ account_requests date_str a d
      /\ (1 <= List.length d <= 14)%nat.
Proof.
  intros Hrun.
  destruct (sync_account_shape E fuel date_str a h h' a' r Hrun)
    as [Hrot [d [Hh Hd]]].
  split; [exact Hrot |]. exists d.
  split; [exact Hh |]. split; [exact Hd |].
  eapply account_requests_length. exact Hd.
Qed.



(** X11.  A run of [sync_all] changes nothing in [ACCOUNTS] but
    [refresh_token] values: the list keeps its length and order, and every
    account keeps its name, empresa, application id, secret and user id. *)
Theorem sync_all_keeps_identity
  (E : env) (fuel : nat) (accounts : list account) (h : trace) :
  (11 <= fuel)%nat ->
  Forall2 same_identity accounts (snd (fst (sync_all E fuel accounts h)))
  /\ map name (snd (fst (sync_all E fuel accounts h))) = map name accounts.
Proof.
  intros Hfuel.
  destruct (sync_all_deltas E fuel accounts h Hfuel)
    as [accounts' [deltas [Hrun [_ Hrot]]]].
  rewrite Hrun. cbn [snd]. clear Hrun.
  induction Hrot as [| a a' accs accs' Hr _ [IH1 IH2]].
  - split; [constructor | reflexivity].
  - pose proof (rotated_identity _ _ Hr) as Hid.
    split; [constructor; assumption |].
    cbn [map]. rewrite IH2. destruct Hid as [Hn _]. rewrite Hn. reflexivity.
Qed.


(** *** The run report *)

Lemma sync_account_record (E : env) fuel date_str a h s r :
  sync_account E fuel date_str (h, a) = (s, Return r) ->
  well_formed_record r.
Proof.
  intros Hrun. unfold sync_account, Eff.try_except in Hrun.
  destruct (_get_access_token E (h, a)) as [[h1 a1] r1] eqn:Hex.
  rewrite (sync_account_body_after_exchange E fuel date_str a h h1 a1 r1 Hex)
    in Hrun.
  assert (Herr : forall e s0,
             Eff.bind (Eff.gets snd)
               (fun account : account =>
                  Eff.ret (OutcomeRecord (empresa account) date_str
                             None None None "error" (Some (exn_str e))))
               s0 = (s, Return r) ->
             well_formed_record r).
  { intros e s0 H. unfold Eff.bind, Eff.gets, Eff.ret in H.
    inversion H; subst. right. left. exists (exn_str e). repeat split. }
  destruct r1 as [token | e |]; [| eapply Herr; exact Hrun | discriminate].
  destruct (negb (truthy token)).
  { inversion Hrun; subst. left. repeat split. }
  destruct (_fetch_paid_orders_total E fuel a1 token date_str h1)
    as [h2 [data | e |]] eqn:Hfetch;
    [| eapply Herr; exact Hrun | discriminate].
  destruct (fetch_paid_orders_total_nonneg _ _ _ _ _ _ _ _ Hfetch)
    as [Ho Hf].
  destruct (float_gt0 (valor data)) eqn:Hgt.
  - rewrite upsert_faturamento_run in Hrun.
    destruct (net E h2 _) as [e | res]; [eapply Herr; exact Hrun |].
    inversion Hrun; subst. right. right.
    exists (valor data), (orders data), (fraud_skipped data).
    cbn. repeat split; try assumption. left. split; [exact Hgt |].
    destruct ((200 <=? status_code res) && (status_code res <? 300));
      [left | right]; reflexivity.
  - inversion Hrun; subst. right. right.
    exists (valor data), (orders data), (fraud_skipped data).
    cbn. repeat split; try assumption. right. split; [exact Hgt | reflexivity].
Qed.

Lemma sync_accounts_records (E : env) fuel date_str accounts :
  forall h h' accounts' results,
    sync_accounts E fuel date_str accounts h = (h', accounts', Return results) ->
    Forall well_formed_record results.
Proof.
  induction accounts as [| a rest IH]; intros h h' accounts' results Hrun.
  - cbn in Hrun. inversion Hrun; subst. constructor.
  - cbn [sync_accounts] in Hrun.
    destruct (sync_account E fuel date_str (h, a)) as [[h1 a1] [r | e |]] eqn:Ha;
      [| inversion Hrun | inversion Hrun].
    destruct (sync_accounts E fuel date_str rest h1)
      as [[h2 rest'] [rs | e |]] eqn:Hrest; inversion Hrun; subst.
    constructor.
    + eapply sync_account_record. exact Ha.
    + eapply IH. exact Hrest.
Qed.

(** X12.  Every record of the list [sync_all] returns has one of three
    shapes: status [token_error] and no other field; status [error] with the
    error text and no figures; or valor, order count and fraud count, both
    counts non-negative, with status [synced] or [upsert_error] exactly when
    the valor is greater than zero and [no_sales] otherwise.  The list
    published as [_last_results] is the same list. *)
Theorem sync_all_records_well_formed
  (E : env) (fuel : nat) (accounts : list account) (h : trace)
  (h' : trace) (accounts' : list account)
  (results : list outcome_record) (rep : run_report) :
  sync_all E fuel accounts h = (h', accounts', Return (results, rep)) ->
  Forall well_formed_record results /\ last_results rep = results.
Proof.
  unfold sync_all.
  destruct (sync_accounts E fuel (strftime_ymd E (clock E h 0%nat)) accounts h)
    as [[h1 accs1] [rs | e |]] eqn:Hrun; intros H; inversion H; subst.
  split; [| reflexivity].
  eapply sync_accounts_records. exact Hrun.
Qed.


(** *** Loading the stored credentials *)

Lemma load_token_from_db_stored (E : env) n h res d rest v :
  net E h (TokenLoad n) = Replies res ->
  status_code res = 200 ->
  body res = Some (VList (VDict d :: rest)) ->
  dict_get d "refresh_token" = Some v ->
  truthy v = true ->
  _load_token_from_db E n h = ((h ++ [TokenLoad n])%list, Return v).
Proof.
  intros Hnet Hst Hb Hd Hv.
  unfold _load_token_from_db. unfold_eff. rewrite Hnet, Hst.
  unfold json. rewrite Hb. cbn. rewrite Hd, Hv. reflexivity.
Qed.

Lemma load_token_from_db_not_out_of_fuel (E : env) n h :
  snd (_load_token_from_db E n h) <> OutOfFuel.
Proof.
  unfold _load_token_from_db. unfold_eff.
  destruct (net E h _) as [e | res]; [discriminate |].
  destruct (status_code res =? 200); [| discriminate].
  destruct (json res) as [rows | e]; [| discriminate].
  destruct (truthy rows); [| discriminate].
  destruct (getitem0 rows) as [row | e]; [| discriminate].
  destruct (get row "refresh_token" VNone) as [tok | e]; [| discriminate].
  destruct (truthy tok); [| discriminate].
  destruct (getitem row "refresh_token"); discriminate.
Qed.

(** One step of [_load_all_tokens], by what the read returned. *)
Lemma load_token_step_run (E : env) a h :
  _load_token_step E (h, a)
  = match _load_token_from_db E (name a) h with
    | (h1, Return db_token) =>
        ((h1, if truthy db_token then set_refresh_token a db_token else a),
         Return tt)
    | (h1, Throw e) => ((h1, a), Throw e)
    | (h1, OutOfFuel) => ((h1, a), OutOfFuel)
    end.
Proof.
  unfold _load_token_step.
  unfold Eff.bind at 1. unfold Eff.gets at 1. cbn [snd].
  unfold Eff.bind at 1. unfold Eff.on_fst at 1. cbn [fst snd].
  destruct (_load_token_from_db E (name a) h) as [h1 [tok | e |]];
    try reflexivity.
  destruct (truthy tok); reflexivity.
Qed.

Lemma load_token_step_shape (E : env) a h h1 a1 r :
  _load_token_step E (h, a) = ((h1, a1), r) ->
  h1 = (h ++ [TokenLoad (name a)])%list
  /\ rotated a a1
  /\ r <> OutOfFuel
  /\ (r <> Return tt -> a1 = a).
Proof.
  rewrite load_token_step_run.
  pose proof (load_token_from_db_trace E (name a) h) as Htr.
  pose proof (load_token_from_db_not_out_of_fuel E (name a) h) as Hnf.
  destruct (_load_token_from_db E (name a) h) as [h0 [tok | e |]];
    cbn [fst snd] in *; intros H; inversion H; subst.
  - split; [reflexivity |]. split.
    + destruct (truthy tok); [right; exists tok | left]; reflexivity.
    + split; [discriminate | intros Hne; contradiction].
  - repeat split; try discriminate. left. reflexivity.
  - contradiction.
Qed.

Lemma load_all_tokens_reads_only_aux (E : env) accounts h :
  Forall2 rotated accounts (snd (fst (_load_all_tokens E accounts h)))
  /\ snd (_load_all_tokens E accounts h) <> OutOfFuel.
Proof.
  revert h. induction accounts as [| a rest IH]; intros h.
  - cbn. split; [constructor | discriminate].
  - cbn [_load_all_tokens].
    destruct (_load_token_step E (h, a)) as [[h1 a1] r] eqn:Hstep.
    destruct (load_token_step_shape E a h h1 a1 r Hstep)
      as [_ [Hrot [Hnf Hsame]]].
    assert (Hrefl : Forall2 rotated rest rest).
    { clear. induction rest; constructor; [left; reflexivity | assumption]. }
    destruct r as [[] | e |]; [| | contradiction].
    + destruct (IH h1) as [Hrots Hfuel].
      destruct (_load_all_tokens E rest h1) as [[h2 rest'] r2].
      cbn [fst snd] in *. split; [constructor; assumption | exact Hfuel].
    + cbn [fst snd]. rewrite (Hsame ltac:(discriminate)).
      split; [constructor; [left; reflexivity | exact Hrefl] | discriminate].
Qed.

(** X13.  [_load_all_tokens] only reads: the requests it issues are one
    select per account, by name and in list order, for the accounts it got
    to, and none of them is a write.  When it returns normally it has
    queried every account; otherwise it has raised.  It changes nothing in
    the accounts but [refresh_token] values. *)
Theorem load_all_tokens_reads_only
  (E : env) (accounts : list account) (h : trace) :
  exists k,
    (k <= List.length accounts)%nat
    /\ fst (fst (_load_all_tokens E accounts h))
       = (h ++ map (fun a => TokenLoad (name a)) (firstn k accounts))%list
    /\ existsb is_write
               (map (fun a => TokenLoad (name a)) (firstn k accounts)) = false
    /\ Forall2 rotated accounts (snd (fst (_load_all_tokens E accounts h)))
    /\ (snd (_load_all_tokens E accounts h) = Return tt ->
        k = List.length accounts)
    /\ snd (_load_all_tokens E accounts h) <> OutOfFuel.
Proof.
  revert h. induction accounts as [| a rest IH]; intros h.
  - exists 0%nat. cbn. rewrite app_nil_r.
    repeat split; try constructor; try reflexivity. discriminate.
  - cbn [_load_all_tokens].
    destruct (_load_token_step E (h, a)) as [[h1 a1] r] eqn:Hstep.
    destruct (load_token_step_shape E a h h1 a1 r Hstep)
      as [Hh1 [Hrot [Hnf Hsame]]].
    assert (Hrefl : Forall2 rotated rest rest).
    { clear. induction rest; constructor; [left; reflexivity | assumption]. }
    destruct r as [[] | e |]; [| | contradiction].
    + destruct (IH h1) as [k [Hk [Htr [Hw [Hrots [Hret Hfuel]]]]]].
      destruct (_load_all_tokens E rest h1) as [[h2 rest'] r2].
      cbn [fst snd] in *.
      exists (S k). split; [cbn; lia |]. split.
      * rewrite Htr, Hh1. cbn [firstn map]. rewrite <- app_assoc. reflexivity.
      * split; [cbn [firstn map existsb]; exact Hw |].
        split; [constructor; assumption |].
        split; [| exact Hfuel].
        intros Hr. cbn [List.length]. rewrite (Hret Hr). reflexivity.
    + exists 1%nat. cbn [fst snd firstn map List.length].
      rewrite (Hsame ltac:(discriminate)).
      split; [lia |]. split; [exact Hh1 |]. split; [reflexivity |].
      split; [constructor; [left; reflexivity | exact Hrefl] |].
      split; discriminate.
Qed.

Lemma load_all_tokens_app (E : env) l1 :
  forall l2 h h1 l1',
    _load_all_tokens E l1 h = (h1, l1', Return tt) ->
    _load_all_tokens E (l1 ++ l2)%list h
    = (let '(h2, l2', r) := _load_all_tokens E l2 h1 in
       (h2, (l1' ++ l2')%list, r)).
Proof.
  induction l1 as [| a l1 IH]; intros l2 h h1 l1' Hrun.
  - cbn in Hrun. inversion Hrun; subst. cbn [app].
    destruct (_load_all_tokens E l2 h1) as [[h2 l2'] r]. reflexivity.
  - cbn [_load_all_tokens app] in *.
    destruct (_load_token_step E (h, a)) as [[hx ax] [[] | e |]];
      [| inversion Hrun | inversion Hrun].
    destruct (_load_all_tokens E l1 hx) as [[hy l1y] ry] eqn:Hl1.
    inversion Hrun; subst.
    rewrite (IH l2 hx h1 l1y Hl1).
    destruct (_load_all_tokens E l2 h1) as [[h2 l2'] r]. reflexivity.
Qed.

(** X14.  Loading is not isolated per account: when the read for one
    account raises, [_load_all_tokens] raises the same exception at once;
    that account and all accounts after it keep the credentials they had,
    and the accounts after it are never queried. *)
Theorem load_all_tokens_not_isolated
  (E : env) (l1 l2 : list account) (a : account) (h h1 h2 : trace)
  (l1' : list account) (e : exn) :
  _load_all_tokens E l1 h = (h1, l1', Return tt) ->
  _load_token_from_db E (name a) h1 = (h2, Throw e) ->
  _load_all_tokens E (l1 ++ a :: l2)%list h
  = (h2, (l1' ++ a :: l2)%list, Throw e)
  /\ h2 = (h1 ++ [TokenLoad (name a)])%list.
Proof.
  intros Hl1 Hread. split.
  - rewrite (load_all_tokens_app E l1 (a :: l2) h h1 l1' Hl1).
    cbn [_load_all_tokens]. rewrite load_token_step_run, Hread. reflexivity.
  - pose proof (load_token_from_db_trace E (name a) h1) as Htr.
    rewrite Hread in Htr. exact Htr.
Qed.

(** *** From the stored credential to the exchange *)

Lemma get_access_token_first_request (E : env) a h :
  exists rest,
    fst (fst (_get_access_token E (h, a)))
    = (h ++ exchange_request a :: rest)%list.
Proof.
  destruct (get_access_token_cases E a h)
    as [[r0 [_ Heq]] | [payload [nr [r0 [_ Heq]]]]]; rewrite Heq; cbn [fst].
  - exists []. reflexivity.
  - exists [TokenSave payload]. reflexivity.
Qed.

(** X15.  The stored credential wins over the configured one: when the
    store answers the read with a row holding a non-empty [refresh_token],
    the load step installs it and the exchange that follows sends it; when
    the read returns nothing usable, the account is untouched and the
    exchange sends the credential the account already had. *)
Theorem stored_credential_is_exchanged
  (E : env) (a : account) (h : trace) :
  (forall res d rest v,
      net E h (TokenLoad (name a)) = Replies res ->
      status_code res = 200 ->
      body res = Some (VList (VDict d :: rest)) ->
      dict_get d "refresh_token" = Some v ->
      truthy v = true ->
      _load_token_step E (h, a)
      = (((h ++ [TokenLoad (name a)])%list, set_refresh_token a v), Return tt)
      /\ exists more,
          fst (fst (_get_access_token
                      E ((h ++ [TokenLoad (name a)])%list,
                         set_refresh_token a v)))
          = ((h ++ [TokenLoad (name a)])
             ++ TokenExchange (app_id a) (secret_key a) v :: more)%list)
  /\ (forall h1 tok,
      _load_token_from_db E (name a) h = (h1, Return tok) ->
      truthy tok = false ->
      _load_token_step E (h, a) = ((h1, a), Return tt)
      /\ exists more,
          fst (fst (_get_access_token E (h1, a)))
          = (h1 ++ TokenExchange (app_id a) (secret_key a) (refresh_token a)
                :: more)%list).
Proof.
  split.
  - intros res d rest v Hnet Hst Hb Hd Hv. split.
    + rewrite load_token_step_run.
      rewrite (load_token_from_db_stored E (name a) h res d rest v
                 Hnet Hst Hb Hd Hv).
      rewrite Hv. reflexivity.
    + apply (get_access_token_first_request E (set_refresh_token a v)).
  - intros h1 tok Hread Htok. split.
    + rewrite load_token_step_run, Hread, Htok. reflexivity.
    + apply (get_access_token_first_request E a).
Qed.

(** *** Failures around the save *)

Lemma sync_account_keeps_exchange_account (E : env) fuel date_str a h h' a' r :
  sync_account E fuel date_str (h, a) = ((h', a'), r) ->
  a' = snd (fst (_get_access_token E (h, a))).
Proof.
  intros Hrun. unfold sync_account, Eff.try_except in Hrun.
  destruct (_get_access_token E (h, a)) as [[h1 a1] r1] eqn:Hex.
  rewrite (sync_account_body_after_exchange E fuel date_str a h h1 a1 r1 Hex)
    in Hrun.
  cbn [fst snd].
  destruct r1 as [token | e |];
    [| unfold Eff.bind, Eff.gets, Eff.ret in Hrun; cbn [snd] in Hrun;
       inversion Hrun; reflexivity
     | inversion Hrun; reflexivity].
  destruct (negb (truthy token)); [inversion Hrun; reflexivity |].
  destruct (_fetch_paid_orders_total E fuel a1 token date_str h1)
    as [h2 [data | e |]];
    [| unfold Eff.bind, Eff.gets, Eff.ret in Hrun; cbn [snd] in Hrun;
       inversion Hrun; reflexivity
     | inversion Hrun; reflexivity].
  destruct (float_gt0 (valor data)); [| inversion Hrun; reflexivity].
  rewrite upsert_faturamento_run in Hrun.
  destruct (net E h2 _) as [e | res].
  - unfold Eff.bind, Eff.gets, Eff.ret in Hrun. cbn [snd] in Hrun.
    inversion Hrun; reflexivity.
  - inversion Hrun; reflexivity.
Qed.

(** X16.  When the save call itself raises after a successful exchange,
    the account's turn ends at once with an [error] record carrying the
    exception's text: no order search and no upsert is issued.  The new
    credential stays in memory all the same; it is not rolled back. *)
Theorem save_exception_ends_turn
  (E : env) (fuel : nat) (date_str : string) (a : account) (h : trace)
  (txt : string) (d : list (string * value)) (nr : value) (e : exn) :
  net E h (exchange_request a) = Replies (Response 200 (Some (VDict d)) txt) ->
  dict_get d "refresh_token" = Some nr ->
  truthy nr = true ->
  net E (h ++ [exchange_request a])%list
      (TokenSave (save_payload E (h ++ [exchange_request a])%list (name a) nr
                               (field d "access_token")))
  = Fails e ->
  sync_account E fuel date_str (h, a)
  = (((h ++ [exchange_request a;
             TokenSave (save_payload E (h ++ [exchange_request a])%list
                                     (name a) nr (field d "access_token"))])%list,
      set_refresh_token a nr),
     Return (OutcomeRecord (empresa a) date_str None None None "error"
                           (Some (exn_str e)))).
Proof.
  intros Hnet Hd Hnr Hsave.
  pose proof (get_access_token_credential E a h txt d nr Hnet Hd Hnr) as Hex.
  cbv zeta in Hex. rewrite Hsave, <- app_assoc in Hex. cbn [app] in Hex.
  unfold sync_account, Eff.try_except.
  rewrite (sync_account_body_after_exchange E fuel date_str a h _ _ _ Hex).
  reflexivity.
Qed.

(** X17.  A credential issued by the exchange outlives whatever happens
    next in the turn: after a 200 reply with a non-empty [refresh_token],
    the account holds the new value at the end of the turn, however the
    save, the aggregation and the upsert went, and the exchange of the
    account's next turn sends that value. *)
Theorem rotated_credential_sent_next
  (E : env) (fuel : nat) (date_str date_str' : string) (a : account)
  (h : trace) (txt : string) (d : list (string * value)) (nr : value)
  (h1 : trace) (a1 : account) (r1 : outcome outcome_record)
  (h1' h2 : trace) (a2 : account) (r2 : outcome outcome_record) :
  net E h (exchange_request a) = Replies (Response 200 (Some (VDict d)) txt) ->
  dict_get d "refresh_token" = Some nr ->
  truthy nr = true ->
  sync_account E fuel date_str (h, a) = ((h1, a1), r1) ->
  sync_account E fuel date_str' (h1', a1) = ((h2, a2), r2) ->
  a1 = set_refresh_token a nr
  /\ exists more,
      h2 = (h1' ++ TokenExchange (app_id a) (secret_key a) nr :: more)%list.
Proof.
  intros Hnet Hd Hnr Hturn1 Hturn2.
  pose proof (sync_account_keeps_exchange_account _ _ _ _ _ _ _ _ Hturn1)
    as Ha1.
  rewrite (get_access_token_credential E a h txt d nr Hnet Hd Hnr) in Ha1.
  cbn [fst snd] in Ha1. split; [exact Ha1 |].
  destruct (sync_account_shape E fuel date_str' a1 h1' h2 a2 r2 Hturn2)
    as [_ [dl [Hh2 [saves [pages [ups [Hdl _]]]]]]].
  exists (saves ++ pages ++ ups)%list. rewrite Hh2, Hdl, Ha1. reflexivity.
Qed.


(** *** The background task *)

Lemma searches_not_exchanges uid df dt tok (f : nat -> Z) l :
  filter is_exchange
         (map (fun k => OrdersSearch uid df dt limit (f k) tok) l) = [].
Proof.
  induction l as [| k l IH]; [reflexivity | exact IH].
Qed.

Lemma account_requests_exchanges date_str a d :
  account_requests date_str a d ->
  List.length (filter is_exchange d) = 1%nat.
Proof.
  intros [saves [pages [ups [-> [Hs [[tok [n [Hn ->]]] Hu]]]]]].
  cbn [filter exchange_request is_exchange].
  rewrite !filter_app, searches_not_exchanges.
  assert (Hsv : filter is_exchange saves = [])
    by (destruct Hs as [-> | [p ->]]; reflexivity).
  assert (Hup : filter is_exchange ups = [])
    by (destruct Hu as [-> | [v [_ ->]]]; reflexivity).
  rewrite Hsv, Hup. reflexivity.
Qed.

Lemma rotated_names l l' :
  Forall2 rotated l l' -> map name l' = map name l.
Proof.
  induction 1 as [| a a' l l' Hr _ IH]; [reflexivity |].
  cbn [map]. rewrite IH.
  destruct (rotated_identity _ _ Hr) as [Hn _]. rewrite Hn. reflexivity.
Qed.

Lemma deltas_exchanges date_str accounts deltas :
  Forall2 (account_requests date_str) accounts deltas ->
  List.length (filter is_exchange (List.concat deltas)) = List.length accounts.
Proof.
  induction 1 as [| a d accs ds Hd _ IH]; [reflexivity |].
  cbn [List.concat List.length]. rewrite filter_app, length_app, IH.
  rewrite (account_requests_exchanges _ _ _ Hd). reflexivity.
Qed.

(** One run on the globals, with fuel for the pagination. *)
Lemma run_sync_returns (E : env) fuel p :
  (11 <= fuel)%nat ->
  exists p' d,
    Scheduler.run_sync E fuel p = (p', Return tt)
    /\ map name (Scheduler.accounts p') = map name (Scheduler.accounts p)
    /\ List.length (last_results (Scheduler.report p'))
       = List.length (Scheduler.accounts p)
    /\ last_sync (Scheduler.report p') <> None
    /\ Scheduler.history p' = (Scheduler.history p ++ d)%list
    /\ List.length (filter is_exchange d)
       = List.length (Scheduler.accounts p).
Proof.
  intros Hfuel. unfold Scheduler.run_sync, sync_all.
  set (date_str := strftime_ymd E (clock E (Scheduler.history p) 0%nat)).
  destruct (sync_accounts_deltas E fuel date_str (Scheduler.accounts p)
                                 Hfuel (Scheduler.history p))
    as [h' [accounts' [results [deltas [Hrun [Hh [Hds Hrot]]]]]]].
  destruct (sync_accounts_returns E fuel date_str (Scheduler.accounts p)
                                  Hfuel (Scheduler.history p))
    as [h'' [accounts'' [results' [Hrun' [Hmap _]]]]].
  rewrite Hrun in Hrun'. inversion Hrun'; subst h'' accounts'' results'.
  rewrite Hrun.
  eexists _, (List.concat deltas). split; [reflexivity |].
  cbn [Scheduler.accounts Scheduler.report Scheduler.history last_results
       last_sync].
  split; [apply rotated_names; exact Hrot |].
  split; [rewrite <- (List.length_map r_empresa), Hmap, List.length_map;
          reflexivity |].
  split; [discriminate |].
  split; [exact Hh |].
  eapply deltas_exchanges. exact Hds.
Qed.

Lemma ticking_keeps_looping (E : env) fuel ticks :
  (11 <= fuel)%nat ->
  forall p,
  exists p' d,
    Scheduler.ticking E ticks fuel p = (p', Scheduler.Looping)
    /\ map name (Scheduler.accounts p') = map name (Scheduler.accounts p)
    /\ Scheduler.history p' = (Scheduler.history p ++ d)%list
    /\ List.length (filter is_exchange d)
       = (ticks * List.length (Scheduler.accounts p))%nat
    /\ (ticks = 0%nat -> p' = p)
    /\ ((0 < ticks)%nat ->
        List.length (last_results (Scheduler.report p'))
        = List.length (Scheduler.accounts p)).
Proof.
  intros Hfuel. induction ticks as [| ticks IH]; intros p.
  - exists p, []. cbn. rewrite app_nil_r.
    repeat split; try reflexivity. lia.
  - cbn [Scheduler.ticking].
    destruct (run_sync_returns E fuel p Hfuel)
      as [p1 [d1 [Hrun [Hn1 [Hlen1 [_ [Hh1 Hx1]]]]]]].
    rewrite Hrun.
    destruct (IH p1) as [p2 [d2 [Htick [Hn2 [Hh2 [Hx2 [Hzero Hpos]]]]]]].
    assert (Hlen : List.length (Scheduler.accounts p1)
                   = List.length (Scheduler.accounts p)).
    { rewrite <- (List.length_map name), Hn1, List.length_map. reflexivity. }
    exists p2, (d1 ++ d2)%list. split; [exact Htick |].
    split; [rewrite Hn2; exact Hn1 |].
    split; [rewrite Hh2, Hh1, app_assoc; reflexivity |].
    split; [rewrite filter_app, length_app, Hx1, Hx2, Hlen; lia |].
    split; [discriminate |].
    intros _. destruct ticks as [| ticks'].
    + rewrite (Hzero eq_refl). exact Hlen1.
    + rewrite Hpos by lia. exact Hlen.
Qed.

(** X18.  A failure of the credential store at startup stops the
    background task for good: when the read for one account raises, the
    exception leaves [_scheduler], whatever number of ticks it is given.
    No run has taken place: the only requests issued are the reads, and
    the run report is as it was. *)
Theorem scheduler_dies_at_startup
  (E : env) (ticks fuel : nat) (l1 l2 : list account) (a : account)
  (rep : run_report) (h h1 h2 : trace) (l1' : list account) (e : exn) :
  _load_all_tokens E l1 h = (h1, l1', Return tt) ->
  _load_token_from_db E (name a) h1 = (h2, Throw e) ->
  Scheduler._scheduler E ticks fuel (Scheduler.Process (l1 ++ a :: l2) rep h)
  = (Scheduler.Process (l1' ++ a :: l2) rep h2, Scheduler.Died e)
  /\ h2 = (h ++ map (fun x => TokenLoad (name x)) (l1 ++ [a]))%list.
Proof.
  intros Hl1 Hread.
  assert (Hall : _load_all_tokens E (l1 ++ a :: l2)%list h
                 = (h2, (l1' ++ a :: l2)%list, Throw e)).
  { rewrite (load_all_tokens_app E l1 (a :: l2) h h1 l1' Hl1).
    cbn [_load_all_tokens]. rewrite load_token_step_run, Hread. reflexivity. }
  split.
  - unfold Scheduler._scheduler.
    cbn [Scheduler.accounts Scheduler.history Scheduler.report].
    rewrite Hall. reflexivity.
  - pose proof (load_token_from_db_trace E (name a) h1) as Htr.
    rewrite Hread in Htr. cbn [fst] in Htr. rewrite Htr.
    assert (Hh1 : h1 = (h ++ map (fun x => TokenLoad (name x)) l1)%list).
    { clear Hread Hall Htr. revert h h1 l1' Hl1.
      induction l1 as [| b l1 IH]; intros h h1 l1' Hl1.
      - cbn in Hl1. inversion Hl1; subst. cbn. rewrite app_nil_r. reflexivity.
      - cbn [_load_all_tokens] in Hl1.
        destruct (_load_token_step E (h, b)) as [[hx bx] rx] eqn:Hstep.
        destruct (load_token_step_shape E b h hx bx rx Hstep) as [Hhx _].
        destruct rx as [[] | ex |]; [| inversion Hl1 | inversion Hl1].
        destruct (_load_all_tokens E l1 hx) as [[hy ly] ry] eqn:Hrest.
        inversion Hl1; subst hy ry. clear Hl1.
        rewrite (IH _ _ _ Hrest), Hhx. cbn [map].
        rewrite <- app_assoc. reflexivity. }
    rewrite Hh1, map_app, <- app_assoc. reflexivity.
Qed.

(** X19.  Once the stored credentials are loaded, nothing stops the
    background task: with fuel for the pagination, after any number of
    ticks [_scheduler] is still in its loop.  It has run [sync_all] once
    per tick and once before the first, so it has sent one token exchange
    per account and run; the account names are unchanged and the run report
    holds one record per account. *)
Theorem scheduler_keeps_running
  (E : env) (ticks fuel : nat) (accs : list account) (rep : run_report)
  (h h1 : trace) (accs1 : list account) :
  (11 <= fuel)%nat ->
  _load_all_tokens E accs h = (h1, accs1, Return tt) ->
  exists p' d,
    Scheduler._scheduler E ticks fuel (Scheduler.Process accs rep h)
    = (p', Scheduler.Looping)
    /\ map name (Scheduler.accounts p') = map name accs
    /\ List.length (last_results (Scheduler.report p')) = List.length accs
    /\ Scheduler.history p' = (h1 ++ d)%list
    /\ List.length (filter is_exchange d)
       = (S ticks * List.length accs)%nat.
Proof.
  intros Hfuel Hload.
  assert (Hnames : map name accs1 = map name accs).
  { destruct (load_all_tokens_reads_only_aux E accs h) as [Hrot _].
    rewrite Hload in Hrot. cbn [fst snd] in Hrot.
    apply rotated_names. exact Hrot. }
  assert (Hlen : List.length accs1 = List.length accs).
  { rewrite <- (List.length_map name), Hnames, List.length_map. reflexivity. }
  unfold Scheduler._scheduler.
  cbn [Scheduler.accounts Scheduler.history Scheduler.report].
  rewrite Hload.
  destruct (run_sync_returns E fuel (Scheduler.Process accs1 rep h1) Hfuel)
    as [p1 [d1 [Hrun [Hn1 [Hlen1 [_ [Hh1 Hx1]]]]]]].
  cbn [Scheduler.accounts Scheduler.history] in *.
  rewrite Hrun.
  destruct (ticking_keeps_looping E fuel ticks Hfuel p1)
    as [p2 [d2 [Htick [Hn2 [Hh2 [Hx2 [Hzero Hpos]]]]]]].
  assert (Hlen' : List.length (Scheduler.accounts p1) = List.length accs).
  { rewrite <- (List.length_map name), Hn1, Hnames, List.length_map.
    reflexivity. }
  exists p2, (d1 ++ d2)%list. split; [exact Htick |].
  split; [rewrite Hn2, Hn1; exact Hnames |].
  split.
  - destruct ticks as [| ticks'].
    + rewrite (Hzero eq_refl), Hlen1. exact Hlen.
    + rewrite Hpos by lia. exact Hlen'.
  - split; [rewrite Hh2, Hh1, app_assoc; reflexivity |].
    rewrite filter_app, length_app, Hx1, Hx2, Hlen', Hlen. lia.
Qed.


(** *** How many pages are fetched *)

Lemma fetch_loop_page_count (E : env) a tok date_from date_to t n :
  pages_all_ok E a tok date_from date_to t ->
  pages_for t n ->
  forall m j fuel acc h,
    (j + m = n)%nat -> (1 <= m)%nat -> (m <= fuel)%nat ->
    exists acc',
      fetch_loop E fuel a tok date_from date_to acc (50 * Z.of_nat j) h
      = ((h ++ map (fun k => page_request a tok date_from date_to
                                          (50 * Z.of_nat k)) (seq j m))%list,
         Return acc').
Proof.
  intros Hok [Hn [Hsmall Hbig]].
  induction m as [| m IH]; intros j fuel acc h Hjm Hm Hfuel; [lia |].
  destruct fuel as [| fuel]; [lia |].
  rewrite fetch_loop_S. cbv zeta.
  destruct (Hok h (50 * Z.of_nat j) acc)
    as [res [data [acc1 [offset1 [stop [Hnet [Hst [Hjson [Htot Hpage]]]]]]]]].
  rewrite Hnet, Hst. cbn [Z.eqb Pos.eqb negb]. rewrite Hjson, Hpage.
  destruct (process_page_offset _ _ _ _ _ _ Hpage) as [Hoff _].
  pose proof (process_page_stop _ _ _ _ _ _ _ Hpage Htot) as Hstop.
  subst offset1.
  destruct m as [| m].
  - (* the last page *)
    assert (Hs : stop = true).
    { rewrite Hstop. apply orb_true_iff.
      destruct (Nat.eq_dec n 11) as [H11 | H11].
      - right. apply Z.ltb_lt. lia.
      - left. apply Z.leb_le. assert (t <= 50 * Z.of_nat n) by (apply Hsmall; lia).
        lia. }
    rewrite Hs. exists acc1. reflexivity.
  - assert (Hs : stop = false).
    { rewrite Hstop. apply orb_false_iff. split.
      - apply Z.leb_gt. assert (50 * (Z.of_nat n - 1) < t) by (apply Hbig; lia).
        lia.
      - apply Z.ltb_ge. lia. }
    rewrite Hs.
    replace (50 * Z.of_nat j + 50) with (50 * Z.of_nat (S j)) by lia.
    destruct (IH (S j) fuel acc1
                 (h ++ [page_request a tok date_from date_to
                                     (50 * Z.of_nat j)])%list)
      as [acc' Hrun]; [lia | lia | lia |].
    exists acc'. rewrite Hrun. rewrite <- app_assoc. reflexivity.
Qed.

(** X20.  When every page is answered with status 200, reports the same
    integer total [t] and is processed without error, the loop fetches
    the fewest pages of 50 that reach [t], but at least one and never more
    than eleven, and then returns normally.  A total above 550 is therefore
    cut short without any error: the orders past the eleventh page are
    never requested. *)
Theorem pages_fetched_for_total
  (E : env) (fuel : nat) (a : account) (tok : value)
  (date_str : string) (t : Z) (n : nat) (h : trace) :
  (11 <= fuel)%nat ->
  pages_all_ok E a tok (day_start date_str) (day_end date_str) t ->
  pages_for t n ->
  exists data,
    _fetch_paid_orders_total E fuel a tok date_str h
    = ((h ++ map (fun k => page_request a tok (day_start date_str)
                                        (day_end date_str) (50 * Z.of_nat k))
                 (seq 0 n))%list,
       Return data).
Proof.
  intros Hfuel Hok Hn.
  destruct (fetch_loop_page_count E a tok _ _ t n Hok Hn n 0%nat fuel
                                  zero_totals h)
    as [acc' Hrun]; [lia | destruct Hn; lia | destruct Hn; lia |].
  exists (summarize acc').
  unfold _fetch_paid_orders_total. fold (day_start date_str) (day_end date_str).
  unfold Eff.bind, Eff.ret. cbn [Z.of_nat Z.mul] in Hrun. rewrite Hrun.
  reflexivity.
Qed.

(** *** Other ways a turn ends *)

(** X21.  Any falsy result of the exchange counts as no token: when
    [_get_access_token] returns [None], an empty string, zero or any other
    falsy value, the turn ends there with a [token_error] record and no
    further request, in the state the exchange left, so a credential
    rotated by that exchange stays rotated. *)
Theorem falsy_token_is_token_error
  (E : env) (fuel : nat) (date_str : string) (a : account) (h : trace)
  (s : trace * account) (token : value) :
  _get_access_token E (h, a) = (s, Return token) ->
  truthy token = false ->
  sync_account E fuel date_str (h, a)
  = (s, Return (OutcomeRecord (empresa a) date_str None None None
                              "token_error" None)).
Proof.
  destruct s as [h1 a1]. intros Hex Htok.
  destruct (get_access_token_footprint E a h h1 a1 _ Hex) as [_ [Hemp _]].
  unfold sync_account, Eff.try_except.
  rewrite (sync_account_body_after_exchange E fuel date_str a h h1 a1 _ Hex).
  rewrite Htok. cbn [negb]. rewrite Hemp. reflexivity.
Qed.

(** X22.  An exception on a page is not a partial result: after any number
    of pages answered with status 200, a page request that raises in the
    client, or a 200 reply whose body is not JSON, makes
    [_fetch_paid_orders_total] raise, and the totals of the earlier pages
    are not returned. *)
Theorem page_exception_discards_partial
  (E : env) (fuel : nat) (a : account) (tok : value) (date_str : string)
  (h : trace) (acc : totals) (offset : Z) (h1 : trace) :
  (11 <= fuel)%nat ->
  pages_done E a tok (day_start date_str) (day_end date_str)
             zero_totals 0 h acc offset h1 ->
  (forall e,
      net E h1 (page_request a tok (day_start date_str) (day_end date_str)
                             offset) = Fails e ->
      _fetch_paid_orders_total E fuel a tok date_str h
      = ((h1 ++ [page_request a tok (day_start date_str) (day_end date_str)
                              offset])%list, Throw e))
  /\ (forall txt,
      net E h1 (page_request a tok (day_start date_str) (day_end date_str)
                             offset) = Replies (Response 200 None txt) ->
      exists e,
        exn_cls e = JSONDecodeError
        /\ _fetch_paid_orders_total E fuel a tok date_str h
           = ((h1 ++ [page_request a tok (day_start date_str)
                                   (day_end date_str) offset])%list, Throw e)).
Proof.
  intros Hfuel Hdone.
  assert (Hglue : forall e,
             fetch_loop E 1 a tok (day_start date_str) (day_end date_str)
                        acc offset h1
             = ((h1 ++ [page_request a tok (day_start date_str)
                                     (day_end date_str) offset])%list, Throw e) ->
             _fetch_paid_orders_total E fuel a tok date_str h
             = ((h1 ++ [page_request a tok (day_start date_str)
                                     (day_end date_str) offset])%list, Throw e)).
  { intros e Hlast.
    destruct (pages_done_run E a tok _ _ _ _ _ _ _ _ Hdone _ _ _ Hlast)
      as [fuel' Hrun'].
    assert (Hfin := fetch_loop_finishes E a tok (day_start date_str)
                      (day_end date_str) fuel zero_totals 0 h).
    unfold _fetch_paid_orders_total.
    fold (day_start date_str) (day_end date_str). unfold Eff.bind.
    destruct (fetch_loop E fuel a tok (day_start date_str) (day_end date_str)
                         zero_totals 0 h) as [h' r] eqn:Hrun.
    cbn [snd] in Hfin.
    assert (Heq : (h', r)
                  = ((h1 ++ [page_request a tok (day_start date_str)
                                          (day_end date_str) offset])%list,
                     @Throw totals e)).
    { eapply fetch_loop_fuel_irrelevant;
        [exact Hrun | apply Hfin; lia | exact Hrun' | discriminate]. }
    inversion Heq; subst. reflexivity. }
  split.
  - intros e Hnet. apply Hglue.
    rewrite fetch_loop_S. cbv zeta. rewrite Hnet. reflexivity.
  - intros txt Hnet. exists (Exn JSONDecodeError "Expecting value").
    split; [reflexivity |]. apply Hglue.
    rewrite fetch_loop_S. cbv zeta. rewrite Hnet. reflexivity.
Qed.


(** *** The further theorems at concrete inputs *)

Lemma surjective_pairing_3 {A B C : Type} (x : A * B * C) :
  x = (fst (fst x), snd (fst x), snd x).
Proof. destruct x as [[a b] c]. reflexivity. Defined.

Import Examples Cases.

(** X1 on the variable name of the account ACME. *)
Lemma account_name_round_trip_witness :
  slice "MELI_ACME_APP_ID" 5 7 = "ACME"
  /\ (startswith "MELI_ACME_APP_ID" "MELI_" = true
      /\ endswith "MELI_ACME_APP_ID" "_APP_ID" = true
      /\ (12 <= String.length "MELI_ACME_APP_ID")%nat
      /\ meli_key (slice "MELI_ACME_APP_ID" 5 7) "_APP_ID"
         = "MELI_ACME_APP_ID").
Proof.
  split.
  - exact (proj2 (proj2 (proj1 account_name_round_trip "ACME"))).
  - assert (Hlen : (12 <= String.length "MELI_ACME_APP_ID")%nat)
      by (cbn; repeat constructor).
    split; [reflexivity |]. split; [reflexivity |]. split; [exact Hlen |].
    exact (proj2 account_name_round_trip "MELI_ACME_APP_ID"
                 eq_refl eq_refl Hlen).
Defined.

(** X2 on [sample_environ]: ALFA is loaded with its own empresa. *)
Lemma load_accounts_membership_witness :
  getenv sample_environ (meli_key "ALFA" "_APP_ID") = Some "1"
  /\ getenv sample_environ (meli_key "ALFA" "_SECRET_KEY") = Some "as"
  /\ getenv sample_environ (meli_key "ALFA" "_REFRESH_TOKEN") = Some "TG-a"
  /\ getenv sample_environ (meli_key "ALFA" "_USER_ID") = Some "10"
  /\ In alfa (_load_accounts sample_environ).
Proof.
  repeat (split; [reflexivity |]).
  apply (proj2 (load_accounts_membership sample_environ alfa)).
  exists "1", "as", "TG-a", "10".
  repeat (split; [first [reflexivity | discriminate] |]).
  reflexivity.
Defined.

(** X4 on the three-order page. *)
Lemma order_counts_conserved_witness :
  process_orders zero_totals three_orders = Ok (Totals (of_Z 130) 2 1)
  /\ 2 + 1 = 0 + 0 + Z.of_nat (List.length three_orders).
Proof.
  assert (H : process_orders zero_totals three_orders
              = Ok (Totals (of_Z 130) 2 1)) by (vm_compute; reflexivity).
  split; [exact H |].
  exact (proj1 (proj1 order_counts_conserved zero_totals three_orders _ H)).
Defined.

(** X5 on two flagged orders whose amounts are a string and null. *)
Lemma flagged_orders_only_counted_witness :
  Forall is_flagged flagged_garbage
  /\ process_orders zero_totals flagged_garbage = Ok (Totals fzero 0 2).
Proof.
  assert (H : Forall is_flagged flagged_garbage).
  { repeat constructor; eexists; (split; [reflexivity | reflexivity]). }
  split; [exact H |].
  exact (flagged_orders_only_counted zero_totals flagged_garbage H).
Defined.

(** X6 on [bad_amount_env]: the second order's amount is a string. *)
Lemma malformed_amount_raises_witness :
  dict_get bad_amount_page "results"
  = Some (VList ([VDict [("paid_amount", VInt 100)]]
                 ++ VDict bad_amount_order :: [])%list)
  /\ flagged bad_amount_order = Ok false
  /\ not_a_number (amount_of bad_amount_order)
  /\ exists e,
      exn_cls e = TypeError
      /\ fetch_loop bad_amount_env 1 acme (VStr "APP_USR-1") "from" "to"
                    zero_totals 0 []
         = ([page_request acme (VStr "APP_USR-1") "from" "to" 0], Throw e).
Proof.
  split; [reflexivity |]. split; [reflexivity |]. split; [exact I |].
  exact (malformed_amount_raises
           bad_amount_env 0 acme (VStr "APP_USR-1") "from" "to"
           zero_totals 0 [] "" bad_amount_page
           [VDict [("paid_amount", VInt 100)]] [] bad_amount_order
           (Totals (of_Z 100) 1 0)
           eq_refl eq_refl ltac:(vm_compute; reflexivity) eq_refl I).
Defined.

(** X7 on a running total of 130. *)
Lemma positive_valor_from_positive_total_witness :
  float_gt0 (valor (summarize (Totals (of_Z 130) 2 1))) = true
  /\ float_gt0 (of_Z 130) = true.
Proof.
  assert (H : float_gt0 (valor (summarize (Totals (of_Z 130) 2 1))) = true)
    by (vm_compute; reflexivity).
  split; [exact H |].
  exact (positive_valor_from_positive_total (Totals (of_Z 130) 2 1) H).
Defined.

(** X8 on [happy_env]: exchange, save, one search, one upsert. *)
Lemma sync_account_request_order_witness :
  List.length (fst (fst (sync_account happy_env 11 "2023-11-14" ([], acme))))
  = 4%nat
  /\ rotated acme (snd (fst (sync_account happy_env 11 "2023-11-14" ([], acme))))
  /\ exists d,
      fst (fst (sync_account happy_env 11 "2023-11-14" ([], acme)))
      = ([] ++ d)%list
      /\ account_requests "2023-11-14" acme d
      /\ (1 <= List.length d <= 14)%nat.
Proof.
  split; [vm_compute; reflexivity |].
  exact (sync_account_request_order
           happy_env 11 "2023-11-14" acme []
           (fst (fst (sync_account happy_env 11 "2023-11-14" ([], acme))))
           (snd (fst (sync_account happy_env 11 "2023-11-14" ([], acme))))
           (snd (sync_account happy_env 11 "2023-11-14" ([], acme)))
           eq_refl).
Defined.



(** X11 on [happy_env]: the names stay, the credentials rotate. *)
Lemma sync_all_keeps_identity_witness :
  (11 <= 11)%nat
  /\ map name (snd (fst (sync_all happy_env 11 [acme; bravo] [])))
     = ["ACME"; "BRAVO"]
  /\ map refresh_token (snd (fst (sync_all happy_env 11 [acme; bravo] [])))
     = [VStr "TG-new"; VStr "TG-new"].
Proof.
  split; [apply le_n |]. split.
  - exact (proj2 (sync_all_keeps_identity happy_env 11 [acme; bravo] []
                                          (le_n 11))).
  - vm_compute. reflexivity.
Defined.

(** X12 on [flaky_env]. *)
Lemma sync_all_records_well_formed_witness :
  exists h' accounts' results rep,
    sync_all flaky_env 11 [acme; bravo; charlie] []
    = (h', accounts', Return (results, rep))
    /\ map r_status results = ["synced"; "error"; "synced"]
    /\ Forall well_formed_record results
    /\ last_results rep = results.
Proof.
  destruct (sync_all flaky_env 11 [acme; bravo; charlie] [])
    as [[h' accounts'] r] eqn:Hrun.
  assert (Hr : exists results rep,
             r = Return (results, rep)
             /\ map r_status results = ["synced"; "error"; "synced"]).
  { assert (Hs : snd (sync_all flaky_env 11 [acme; bravo; charlie] []) = r)
      by (rewrite Hrun; reflexivity).
    vm_compute in Hs. subst r. eexists _, _. split; reflexivity. }
  destruct Hr as [results [rep [-> Hst]]].
  exists h', accounts', results, rep.
  split; [reflexivity |]. split; [exact Hst |].
  exact (sync_all_records_well_formed
           flaky_env 11 [acme; bravo; charlie] [] h' accounts' results rep Hrun).
Defined.


(** X13 on [happy_env]: three reads, three stored credentials. *)
Lemma load_all_tokens_reads_only_witness :
  _load_all_tokens happy_env [acme; bravo; charlie] []
  = ([TokenLoad "ACME"; TokenLoad "BRAVO"; TokenLoad "CHARLIE"],
     [set_refresh_token acme (VStr "TG-db");
      set_refresh_token bravo (VStr "TG-db");
      set_refresh_token charlie (VStr "TG-db")],
     Return tt)
  /\ exists k,
      (k <= 3)%nat
      /\ fst (fst (_load_all_tokens happy_env [acme; bravo; charlie] []))
         = ([] ++ map (fun a => TokenLoad (name a))
                      (firstn k [acme; bravo; charlie]))%list
      /\ k = 3%nat.
Proof.
  split; [reflexivity |].
  destruct (load_all_tokens_reads_only happy_env [acme; bravo; charlie] [])
    as [k [Hk [Htr [_ [_ [Hret _]]]]]].
  exists k. split; [exact Hk |]. split; [exact Htr |].
  exact (Hret eq_refl).
Defined.

(** X14 on [store_fails_env]: the read for BRAVO raises, CHARLIE is never
    queried. *)
Lemma load_all_tokens_not_isolated_witness :
  _load_all_tokens store_fails_env [acme] []
  = ([TokenLoad "ACME"], [set_refresh_token acme (VStr "TG-db")], Return tt)
  /\ _load_token_from_db store_fails_env "BRAVO" [TokenLoad "ACME"]
     = ([TokenLoad "ACME"; TokenLoad "BRAVO"], Throw timeout_exn)
  /\ _load_all_tokens store_fails_env ([acme] ++ bravo :: [charlie])%list []
     = ([TokenLoad "ACME"; TokenLoad "BRAVO"],
        ([set_refresh_token acme (VStr "TG-db")] ++ bravo :: [charlie])%list,
        Throw timeout_exn).
Proof.
  split; [reflexivity |]. split; [reflexivity |].
  exact (proj1 (load_all_tokens_not_isolated
                  store_fails_env [acme] [charlie] bravo []
                  [TokenLoad "ACME"] [TokenLoad "ACME"; TokenLoad "BRAVO"]
                  [set_refresh_token acme (VStr "TG-db")] timeout_exn
                  eq_refl eq_refl)).
Defined.

(** X15 on [happy_env], whose store holds ["TG-db"], and on
    [cold_store_env], whose store has no row. *)
Lemma stored_credential_is_exchanged_witness :
  (_load_token_step happy_env ([], acme)
   = (([TokenLoad "ACME"], set_refresh_token acme (VStr "TG-db")), Return tt)
   /\ exists more,
       fst (fst (_get_access_token
                   happy_env ([TokenLoad "ACME"],
                              set_refresh_token acme (VStr "TG-db"))))
       = ([TokenLoad "ACME"]
          ++ TokenExchange "1111" "s3cr3t" (VStr "TG-db") :: more)%list)
  /\ (truthy VNone = false
      /\ _load_token_step cold_store_env ([], acme)
         = (([TokenLoad "ACME"], acme), Return tt)
      /\ exists more,
          fst (fst (_get_access_token cold_store_env ([TokenLoad "ACME"], acme)))
          = ([TokenLoad "ACME"]
             ++ TokenExchange "1111" "s3cr3t" (VStr "TG-old") :: more)%list).
Proof.
  split.
  - exact (proj1 (stored_credential_is_exchanged happy_env acme [])
                 (Response 200
                    (Some (VList [VDict [("refresh_token", VStr "TG-db")]])) "")
                 [("refresh_token", VStr "TG-db")] [] (VStr "TG-db")
                 eq_refl eq_refl eq_refl eq_refl eq_refl).
  - split; [reflexivity |].
    exact (proj2 (stored_credential_is_exchanged cold_store_env acme [])
                 [TokenLoad "ACME"] VNone eq_refl eq_refl).
Defined.

(** X16 on [save_down_env]. *)
Lemma save_exception_ends_turn_witness :
  net save_down_env [exchange_request acme]
      (TokenSave (save_payload save_down_env [exchange_request acme] "ACME"
                               (VStr "TG-new") (VStr "APP_USR-1")))
  = Fails timeout_exn
  /\ sync_account save_down_env 11 "2023-11-14" ([], acme)
     = (([exchange_request acme;
          TokenSave (save_payload save_down_env [exchange_request acme] "ACME"
                                  (VStr "TG-new") (VStr "APP_USR-1"))],
         set_refresh_token acme (VStr "TG-new")),
        Return (OutcomeRecord "Acme Ltda" "2023-11-14" None None None "error"
                              (Some "timed out"))).
Proof.
  split; [reflexivity |].
  exact (save_exception_ends_turn
           save_down_env 11 "2023-11-14" acme [] ""
           [("access_token", VStr "APP_USR-1");
            ("refresh_token", VStr "TG-new")]
           (VStr "TG-new") timeout_exn eq_refl eq_refl eq_refl eq_refl).
Defined.

(** X17 on [save_down_env]: the save raised, and the next turn still sends
    the new credential. *)
Lemma rotated_credential_sent_next_witness :
  snd (fst (sync_account save_down_env 11 "2023-11-14" ([], acme)))
  = set_refresh_token acme (VStr "TG-new")
  /\ exists more,
      fst (fst (sync_account
                  save_down_env 11 "2023-11-15"
                  (fst (fst (sync_account save_down_env 11 "2023-11-14"
                                          ([], acme))),
                   snd (fst (sync_account save_down_env 11 "2023-11-14"
                                          ([], acme))))))
      = (fst (fst (sync_account save_down_env 11 "2023-11-14" ([], acme)))
         ++ TokenExchange "1111" "s3cr3t" (VStr "TG-new") :: more)%list.
Proof.
  exact (rotated_credential_sent_next
           save_down_env 11 "2023-11-14" "2023-11-15" acme [] ""
           [("access_token", VStr "APP_USR-1");
            ("refresh_token", VStr "TG-new")]
           (VStr "TG-new")
           (fst (fst (sync_account save_down_env 11 "2023-11-14" ([], acme))))
           (snd (fst (sync_account save_down_env 11 "2023-11-14" ([], acme))))
           (snd (sync_account save_down_env 11 "2023-11-14" ([], acme)))
           (fst (fst (sync_account save_down_env 11 "2023-11-14" ([], acme))))
           _ _ _
           eq_refl eq_refl eq_refl eq_refl
           (surjective_pairing_3 _)).
Defined.


(** X18 on [store_fails_env]: the task dies on BRAVO's read. *)
Lemma scheduler_dies_at_startup_witness :
  _load_all_tokens store_fails_env [acme] []
  = ([TokenLoad "ACME"], [set_refresh_token acme (VStr "TG-db")], Return tt)
  /\ _load_token_from_db store_fails_env "BRAVO" [TokenLoad "ACME"]
     = ([TokenLoad "ACME"; TokenLoad "BRAVO"], Throw timeout_exn)
  /\ Scheduler._scheduler
       store_fails_env 5 11
       (Scheduler.Process ([acme] ++ bravo :: [charlie])%list
                          (RunReport None []) [])
     = (Scheduler.Process
          ([set_refresh_token acme (VStr "TG-db")] ++ bravo :: [charlie])%list
          (RunReport None []) [TokenLoad "ACME"; TokenLoad "BRAVO"],
        Scheduler.Died timeout_exn).
Proof.
  split; [reflexivity |]. split; [reflexivity |].
  exact (proj1 (scheduler_dies_at_startup
                  store_fails_env 5 11 [acme] [charlie] bravo
                  (RunReport None []) []
                  [TokenLoad "ACME"] [TokenLoad "ACME"; TokenLoad "BRAVO"]
                  [set_refresh_token acme (VStr "TG-db")] timeout_exn
                  eq_refl eq_refl)).
Defined.

(** X19 on [flaky_env] with two ticks: three runs of three accounts, nine
    exchanges, and the task is still looping. *)
Lemma scheduler_keeps_running_witness :
  (11 <= 11)%nat
  /\ _load_all_tokens flaky_env [acme; bravo; charlie] []
     = ([TokenLoad "ACME"; TokenLoad "BRAVO"; TokenLoad "CHARLIE"],
        [set_refresh_token acme (VStr "TG-db");
         set_refresh_token bravo (VStr "TG-db");
         set_refresh_token charlie (VStr "TG-db")],
        Return tt)
  /\ exists p' d,
      Scheduler._scheduler flaky_env 2 11
                           (Scheduler.start [acme; bravo; charlie] [])
      = (p', Scheduler.Looping)
      /\ map name (Scheduler.accounts p') = ["ACME"; "BRAVO"; "CHARLIE"]
      /\ List.length (last_results (Scheduler.report p')) = 3%nat
      /\ Scheduler.history p'
         = ([TokenLoad "ACME"; TokenLoad "BRAVO"; TokenLoad "CHARLIE"] ++ d)%list
      /\ List.length (filter is_exchange d) = 9%nat.
Proof.
  split; [apply le_n |]. split; [reflexivity |].
  exact (scheduler_keeps_running
           flaky_env 2 11 [acme; bravo; charlie] (RunReport None []) []
           [TokenLoad "ACME"; TokenLoad "BRAVO"; TokenLoad "CHARLIE"]
           [set_refresh_token acme (VStr "TG-db");
            set_refresh_token bravo (VStr "TG-db");
            set_refresh_token charlie (VStr "TG-db")]
           (le_n 11) eq_refl).
Defined.

(** X20 on [greedy_env]: a total of a million is answered by eleven
    pages. *)
Lemma pages_fetched_for_total_witness :
  (11 <= 11)%nat
  /\ pages_all_ok greedy_env acme (VStr "APP_USR-1")
                  (day_start "2023-11-14") (day_end "2023-11-14") 1000000
  /\ pages_for 1000000 11
  /\ exists data,
      _fetch_paid_orders_total greedy_env 11 acme (VStr "APP_USR-1")
                               "2023-11-14" []
      = (([] ++ map (fun k => page_request acme (VStr "APP_USR-1")
                                           (day_start "2023-11-14")
                                           (day_end "2023-11-14")
                                           (50 * Z.of_nat k))
                    (seq 0 11))%list,
         Return data).
Proof.
  assert (Hok : pages_all_ok greedy_env acme (VStr "APP_USR-1")
                             (day_start "2023-11-14") (day_end "2023-11-14")
                             1000000).
  { intros h offset acc.
    exists (Response 200 (Some greedy_page) ""), greedy_page, acc,
      (offset + 50),
      ((1000000 <=? offset + 50) || (500 <? offset + 50)).
    repeat split; reflexivity. }
  assert (Hn : pages_for 1000000 11).
  { unfold pages_for. split; [split; [repeat constructor | apply le_n] |].
    split; [intros H; exfalso; exact (Nat.lt_irrefl _ H) |].
    intros _. reflexivity. }
  split; [apply le_n |]. split; [exact Hok |]. split; [exact Hn |].
  exact (pages_fetched_for_total
           greedy_env 11 acme (VStr "APP_USR-1") "2023-11-14" 1000000 11 []
           (le_n 11) Hok Hn).
Defined.

(** X21 on [empty_token_env]: the credential is rotated and saved, and the
    empty access token gives [token_error]. *)
Lemma falsy_token_is_token_error_witness :
  truthy (VStr "") = false
  /\ sync_account empty_token_env 11 "2023-11-14" ([], acme)
     = (([exchange_request acme;
          TokenSave (save_payload empty_token_env [exchange_request acme]
                                  "ACME" (VStr "TG-new") (VStr ""))],
         set_refresh_token acme (VStr "TG-new")),
        Return (OutcomeRecord "Acme Ltda" "2023-11-14" None None None
                              "token_error" None)).
Proof.
  split; [reflexivity |].
  exact (falsy_token_is_token_error
           empty_token_env 11 "2023-11-14" acme []
           ([exchange_request acme;
             TokenSave (save_payload empty_token_env [exchange_request acme]
                                     "ACME" (VStr "TG-new") (VStr ""))],
            set_refresh_token acme (VStr "TG-new"))
           (VStr "") eq_refl eq_refl).
Defined.

(** X22 on [page_raises_env]: the first page counted one order, the second
    request raises, and nothing is returned. *)
Lemma page_exception_discards_partial_witness :
  (11 <= 11)%nat
  /\ pages_done page_raises_env acme (VStr "APP_USR-1")
                (day_start "2023-11-14") (day_end "2023-11-14")
                zero_totals 0 []
                (Totals (of_Z 100) 1 0) 50
                [page_request acme (VStr "APP_USR-1") (day_start "2023-11-14")
                              (day_end "2023-11-14") 0]
  /\ _fetch_paid_orders_total page_raises_env 11 acme (VStr "APP_USR-1")
                              "2023-11-14" []
     = ([page_request acme (VStr "APP_USR-1") (day_start "2023-11-14")
                      (day_end "2023-11-14") 0;
         page_request acme (VStr "APP_USR-1") (day_start "2023-11-14")
                      (day_end "2023-11-14") 50],
        Throw timeout_exn).
Proof.
  assert (Hdone :
            pages_done page_raises_env acme (VStr "APP_USR-1")
                       (day_start "2023-11-14") (day_end "2023-11-14")
                       zero_totals 0 []
                       (Totals (of_Z 100) 1 0) 50
                       [page_request acme (VStr "APP_USR-1")
                                     (day_start "2023-11-14")
                                     (day_end "2023-11-14") 0]).
  { eapply pages_done_cons with (res := Response 200 (Some first_page) "")
                                (data := first_page);
      [reflexivity | reflexivity | reflexivity
       | vm_compute; reflexivity | apply pages_done_nil]. }
  split; [apply le_n |]. split; [exact Hdone |].
  exact (proj1 (page_exception_discards_partial
                  page_raises_env 11 acme (VStr "APP_USR-1") "2023-11-14" []
                  (Totals (of_Z 100) 1 0) 50 _ (le_n 11) Hdone)
               timeout_exn eq_refl).
Defined.

End Coverage.
